(** * sgmock: the filter compiler and the entity store

    A shallow embedding of [sgmock/filters.py], [sgmock/shotgun.py] and
    [sgmock/fixture.py].

    Python values are a tree type [value]; a call that may raise returns a
    [result]; the mock server is a record [Shotgun] threaded explicitly
    through the operations that mutate it.

    Conventions of the embedding:
    - a [dict] is a list of key/value pairs without repeated keys that keeps
      its entries in insertion order, and [keys()], [values()] and [items()]
      are snapshots in that order ([iterkeys()] is read as [keys()]); the
      order in which [find] is given the records of a type, which in
      Python 2 is that of a hash table, is a parameter;
    - the two [defaultdict]s from entity type to records are finite maps in
      which an absent type reads as the empty mapping;
    - numbers are integers (no floats), strings are byte strings, and
      [date]/[datetime] values are naive;
    - logging is left out, but for the message of [find], which reads the
      id of every result before the results are returned. *)

From Stdlib Require Import ZArith String Ascii List Bool Lia.
From Stdlib Require Import DecimalString DecimalZ.
From stdpp Require Import base option list gmap strings fin_maps.

Set Warnings "-register-all".
Open Scope string_scope.
Open Scope list_scope.
Open Scope Z_scope.

(** ** Python values and exceptions *)

Inductive value : Type :=
| VNone
| VBool (b : bool)
| VInt (n : Z)
| VStr (s : string)
| VDate (year month day : Z)
| VDatetime (year month day hour minute second microsecond : Z)
| VList (xs : list value)
| VTuple (xs : list value)
| VDict (items : list (string * value)).

(** An exception is its class and the arguments it was built from; a message
    made with [%] or [format] is kept as the format string and its
    arguments. *)
Inductive exn : Type :=
| KeyError (key : value)
| IndexError
| TypeError
| ValueError (fmt : string) (args : list value)
| AttributeError
| RecursionError
| MockError (fmt : string) (args : list value)
| ShotgunError (fmt : string) (args : list value).

Inductive result (A : Type) : Type :=
| Ok (a : A)
| Raise (e : exn).
Arguments Ok {A} a.
Arguments Raise {A} e.

Definition bind {A B} (r : result A) (k : A -> result B) : result B :=
  match r with
  | Ok a => k a
  | Raise e => Raise e
  end.

Notation "x <- r ;; k" := (bind r (fun x => k))
  (at level 100, r at next level, right associativity).

Definition is_ok {A} (r : result A) : bool :=
  match r with Ok _ => true | Raise _ => false end.

(** [[f(x) for x in xs]]: every element is visited, the first exception
    ends the loop. *)
Fixpoint mapM {A B} (f : A -> result B) (xs : list A) : result (list B) :=
  match xs with
  | [] => Ok []
  | x :: xs' => y <- f x ;; ys <- mapM f xs' ;; Ok (y :: ys)
  end.

(** ** The built-ins the two modules use *)

Module Py.

(** *** Insertion-ordered dictionaries *)
Section Dict.
Context {K V : Type} `{EqDecision K}.

Fixpoint get (k : K) (d : list (K * V)) : option V :=
  match d with
  | [] => None
  | (k', v) :: d' => if decide (k' = k) then Some v else get k d'
  end.

Definition contains (k : K) (d : list (K * V)) : bool :=
  match get k d with Some _ => true | None => false end.

(** [d[k] = v]: an existing key keeps its place, a new key goes last. *)
Fixpoint set (k : K) (v : V) (d : list (K * V)) : list (K * V) :=
  match d with
  | [] => [(k, v)]
  | (k', v') :: d' =>
      if decide (k' = k) then (k, v) :: d' else (k', v') :: set k v d'
  end.

(** [d.pop(k, None)], the dictionary that is left. *)
Fixpoint remove (k : K) (d : list (K * V)) : list (K * V) :=
  match d with
  | [] => []
  | (k', v') :: d' =>
      if decide (k' = k) then remove k d' else (k', v') :: remove k d'
  end.

(** [d.update(e)] *)
Definition update (d e : list (K * V)) : list (K * V) :=
  fold_left (fun acc kv => set (fst kv) (snd kv) acc) e d.

Definition keys (d : list (K * V)) : list K := map fst d.
Definition values (d : list (K * V)) : list V := map snd d.
End Dict.

(** *** The order of a dictionary

    The lists above keep the entries as they were inserted.  A dictionary
    of Python 2 does not list them so: [keys()], [values()] and a loop
    visit the slots of its hash table one after the other, and the slot
    of an entry follows from the hash of its key and from what was
    inserted and deleted before.  Where the order of the stored records
    shows, in [find], it is a parameter of the embedding.

    [values_by_slot] is that order for a dictionary with integer keys
    whose table has its first size, eight slots, which it keeps until a
    sixth slot is used, and whose keys fall on different slots: the
    entries by the slot [hash(k) & 7] of their key, where [hash(k)] is
    [k], but [-2] for [-1]. *)
Definition slot (k : Z) : Z := Z.land (if k =? -1 then -2 else k) 7.

Fixpoint insert_by_slot {V} (kv : Z * V) (d : list (Z * V)) : list (Z * V) :=
  match d with
  | [] => [kv]
  | kv' :: d' =>
      if slot (fst kv) <? slot (fst kv') then kv :: d
      else kv' :: insert_by_slot kv d'
  end.

Definition values_by_slot {V} (d : list (Z * V)) : list V :=
  values (fold_left (fun acc kv => insert_by_slot kv acc) d []).

(** *** Truth, hashing, equality and order *)

(** [bool(v)] *)
Definition truthy (v : value) : bool :=
  match v with
  | VNone => false
  | VBool b => b
  | VInt n => negb (n =? 0)
  | VStr s => negb (String.eqb s "")
  | VDate _ _ _ | VDatetime _ _ _ _ _ _ _ => true
  | VList xs | VTuple xs => match xs with [] => false | _ => true end
  | VDict d => match d with [] => false | _ => true end
  end.

(** Lists and dictionaries cannot be hashed, a tuple can when its
    elements can. *)
Fixpoint hashable (v : value) : bool :=
  match v with
  | VList _ | VDict _ => false
  | VTuple xs => forallb hashable xs
  | _ => true
  end.

(** [a == b].  [True == 1]; a list never equals a tuple; dictionaries
    are compared entry by entry whatever their order. *)
Fixpoint eq (a b : value) : bool :=
  let fix eq_seq (xs ys : list value) : bool :=
    match xs, ys with
    | [], [] => true
    | x :: xs', y :: ys' => eq x y && eq_seq xs' ys'
    | _, _ => false
    end in
  match a, b with
  | VNone, VNone => true
  | VBool x, VBool y => Bool.eqb x y
  | VBool x, VInt y => Z.b2z x =? y
  | VInt x, VBool y => x =? Z.b2z y
  | VInt x, VInt y => x =? y
  | VStr x, VStr y => String.eqb x y
  | VDate y1 m1 d1, VDate y2 m2 d2 => (y1 =? y2) && (m1 =? m2) && (d1 =? d2)
  | VDatetime y1 m1 d1 H1 M1 S1 u1, VDatetime y2 m2 d2 H2 M2 S2 u2 =>
      (y1 =? y2) && (m1 =? m2) && (d1 =? d2) &&
      (H1 =? H2) && (M1 =? M2) && (S1 =? S2) && (u1 =? u2)
  | VList xs, VList ys => eq_seq xs ys
  | VTuple xs, VTuple ys => eq_seq xs ys
  | VDict d1, VDict d2 =>
      (length d1 =? length d2)%nat &&
      forallb (fun kv => match get (fst kv) d2 with
                         | Some v' => eq (snd kv) v'
                         | None => false
                         end) d1
  | _, _ => false
  end.

Fixpoint lex_lt (xs ys : list Z) : bool :=
  match xs, ys with
  | [], [] => false
  | [], _ :: _ => true
  | _ :: _, [] => false
  | x :: xs', y :: ys' => (x <? y) || ((x =? y) && lex_lt xs' ys')
  end.

(** [a < b] between values of one kind; any other pair is unorderable. *)
Fixpoint lt (a b : value) : result bool :=
  let fix lt_seq (xs ys : list value) : result bool :=
    match xs, ys with
    | [], [] => Ok false
    | [], _ :: _ => Ok true
    | _ :: _, [] => Ok false
    | x :: xs', y :: ys' => if eq x y then lt_seq xs' ys' else lt x y
    end in
  match a, b with
  | VBool x, VBool y => Ok (Z.b2z x <? Z.b2z y)
  | VBool x, VInt y => Ok (Z.b2z x <? y)
  | VInt x, VBool y => Ok (x <? Z.b2z y)
  | VInt x, VInt y => Ok (x <? y)
  | VStr x, VStr y => Ok (String.ltb x y)
  | VDate y1 m1 d1, VDate y2 m2 d2 => Ok (lex_lt [y1; m1; d1] [y2; m2; d2])
  | VDatetime y1 m1 d1 H1 M1 S1 u1, VDatetime y2 m2 d2 H2 M2 S2 u2 =>
      Ok (lex_lt [y1; m1; d1; H1; M1; S1; u1] [y2; m2; d2; H2; M2; S2; u2])
  | VList xs, VList ys => lt_seq xs ys
  | VTuple xs, VTuple ys => lt_seq xs ys
  | _, _ => Raise TypeError
  end.

(** [x in xs] for a tuple or a set of hashable values *)
Definition member (x : value) (xs : list value) : bool :=
  existsb (eq x) xs.

(** How deep the containers of a value are nested. *)
Fixpoint nesting (v : value) : nat :=
  match v with
  | VList xs | VTuple xs =>
      S (fold_right (fun x n => Nat.max (nesting x) n) 0%nat xs)
  | VDict d =>
      S (fold_right (fun kv n => Nat.max (nesting (snd kv)) n) 0%nat d)
  | _ => 0%nat
  end.

(** *** Sequences *)

Fixpoint chars (s : string) : list value :=
  match s with
  | EmptyString => []
  | String c s' => VStr (String c EmptyString) :: chars s'
  end.

(** [list(v)]: what a [for] loop or a [*v] argument visits. *)
Definition iter (v : value) : result (list value) :=
  match v with
  | VList xs | VTuple xs => Ok xs
  | VStr s => Ok (chars s)
  | VDict d => Ok (map (fun kv => VStr (fst kv)) d)
  | _ => Raise TypeError
  end.

(** [len(v)] *)
Definition len (v : value) : result nat :=
  match v with
  | VList xs | VTuple xs => Ok (length xs)
  | VStr s => Ok (String.length s)
  | VDict d => Ok (length d)
  | _ => Raise TypeError
  end.

(** [v[i]] for a literal non-negative index [i] *)
Definition index (v : value) (i : nat) : result value :=
  match v with
  | VList xs | VTuple xs =>
      match nth_error xs i with Some x => Ok x | None => Raise IndexError end
  | VStr s =>
      match String.get i s with
      | Some c => Ok (VStr (String c EmptyString))
      | None => Raise IndexError
      end
  | VDict d => Raise (KeyError (VInt (Z.of_nat i)))
  | _ => Raise TypeError
  end.

(** [v[i:]] *)
Definition slice_from (v : value) (i : nat) : result value :=
  match v with
  | VList xs => Ok (VList (skipn i xs))
  | VTuple xs => Ok (VTuple (skipn i xs))
  | VStr s => Ok (VStr (String.substring i (String.length s - i) s))
  | _ => Raise TypeError
  end.

(** [d[k]] and [d.get(k)] on a dictionary with string keys, for any key
    value: a key that is no string is absent, one that cannot be hashed
    is refused. *)
Definition getitem (d : list (string * value)) (k : value) : result value :=
  match k with
  | VStr s => match get s d with Some v => Ok v | None => Raise (KeyError k) end
  | _ => if hashable k then Raise (KeyError k) else Raise TypeError
  end.

Definition get_or (d : list (string * value)) (k : value) (dflt : value)
  : result value :=
  match k with
  | VStr s => Ok (match get s d with Some v => v | None => dflt end)
  | _ => if hashable k then Ok dflt else Raise TypeError
  end.

(** *** Strings *)

Fixpoint endswith_aux (suffix s : string) (n : nat) : bool :=
  match n with
  | O => String.eqb suffix s
  | S n' => match s with
            | EmptyString => false
            | String _ s' => endswith_aux suffix s' n'
            end
  end.

(** [s.startswith(p)] and [s.endswith(p)] *)
Definition startswith (s p : string) : bool := String.prefix p s.
Definition endswith (s p : string) : bool :=
  (String.length p <=? String.length s)%nat &&
  endswith_aux p s (String.length s - String.length p).

(** [s.split(sep)] for a one-character separator *)
Fixpoint split (sep : ascii) (s : string) : list string :=
  match s with
  | EmptyString => [EmptyString]
  | String c s' =>
      if Ascii.eqb c sep then EmptyString :: split sep s'
      else match split sep s' with
           | [] => [String c EmptyString]
           | w :: ws => String c w :: ws
           end
  end.

(** *** Decimal numbers *)

Definition digit (n : Z) : ascii := ascii_of_nat (48 + Z.to_nat (n mod 10)).

Definition is_digit (c : ascii) : bool :=
  let n := nat_of_ascii c in ((48 <=? n) && (n <=? 57))%nat.

Definition digit_val (c : ascii) : Z := Z.of_nat (nat_of_ascii c) - 48.

(** [n] in exactly [w] decimal digits, as [%0wd] prints it when it fits *)
Fixpoint zfill (w : nat) (n : Z) : string :=
  match w with
  | O => EmptyString
  | S w' => String (digit (n / 10 ^ Z.of_nat w')) (zfill w' n)
  end.

(** [int(s)] for a string of decimal digits *)
Definition int_digits (s : string) : Z :=
  fold_left (fun acc c => acc * 10 + digit_val c) (list_ascii_of_string s) 0.

(** [str(n)] *)
Definition str_of_int (n : Z) : string := NilZero.string_of_int (Z.to_int n).

(** [int(s)] for an optional minus sign and decimal digits; the other
    spellings [int] accepts (blanks around, a plus sign, underscores) are
    refused here. *)
Definition int_of_str (s : string) : result Z :=
  match NilZero.int_of_string s with
  | Some d => Ok (Z.of_int d)
  | None =>
      Raise (ValueError "invalid literal for int() with base 10: %r" [VStr s])
  end.

(** *** Dates *)

Definition is_leap (y : Z) : bool :=
  ((y mod 4 =? 0) && negb (y mod 100 =? 0)) || (y mod 400 =? 0).

Definition days_in_month (y m : Z) : Z :=
  if m =? 2 then (if is_leap y then 29 else 28)
  else if (m =? 4) || (m =? 6) || (m =? 9) || (m =? 11) then 30 else 31.

Definition valid_date (y m d : Z) : bool :=
  (1 <=? y) && (y <=? 9999) && (1 <=? m) && (m <=? 12) &&
  (1 <=? d) && (d <=? days_in_month y m).

Definition valid_time (H M S u : Z) : bool :=
  (0 <=? H) && (H <=? 23) && (0 <=? M) && (M <=? 59) &&
  (0 <=? S) && (S <=? 59) && (0 <=? u) && (u <=? 999999).

(** [datetime.date(year, month, day)] *)
Definition date (y m d : Z) : result value :=
  if valid_date y m d then Ok (VDate y m d)
  else Raise (ValueError "date value out of range" []).

(** [datetime.datetime(year, month, day, hour, minute, second, microsecond)] *)
Definition datetime (y m d H M S u : Z) : result value :=
  if valid_date y m d && valid_time H M S u then Ok (VDatetime y m d H M S u)
  else Raise (ValueError "datetime value out of range" []).

(** [d.isoformat()] for a date *)
Definition date_isoformat (y m d : Z) : string :=
  zfill 4 y +:+ "-" +:+ zfill 2 m +:+ "-" +:+ zfill 2 d.

Definition time_isoformat (H M S : Z) : string :=
  zfill 2 H +:+ ":" +:+ zfill 2 M +:+ ":" +:+ zfill 2 S.

(** [d.isoformat()] for a naive datetime: the microseconds are printed
    only when they are not zero. *)
Definition datetime_isoformat (y m d H M S u : Z) : string :=
  date_isoformat y m d +:+ "T" +:+ time_isoformat H M S +:+
  (if u =? 0 then "" else "." +:+ zfill 6 u).

(** [d.strftime('%Y-%m-%dT%H:%M:%SZ')] *)
Definition strftime_iso_z (y m d H M S : Z) : string :=
  date_isoformat y m d +:+ "T" +:+ time_isoformat H M S +:+ "Z".

End Py.

(** A record of the store, and any other mapping with string keys. *)
Abbreviation entity := (list (string * value)).

(** ** sgmock/filters.py *)

Module filters.

(** A compiled filter: called on a record, it answers or raises. *)
Definition predicate : Type := entity -> result bool.

(** A registered relation: called as [cls(field, *values)]. *)
Definition filter_cls : Type := value -> list value -> result predicate.

Definition match_types (a b : value) : value * value :=
  match a, b with
  | VDatetime y m d hh mi ss _, VStr _ =>
      (VStr (Py.strftime_iso_z y m d hh mi ss), b)
  | VStr _, VDatetime y m d hh mi ss _ =>
      (a, VStr (Py.strftime_iso_z y m d hh mi ss))
  | _, _ => (a, b)
  end.

(** [all(f(entity) for f in filters)] *)
Fixpoint And (filters : list predicate) (e : entity) : result bool :=
  match filters with
  | [] => Ok true
  | f :: fs => b <- f e ;; if b then And fs e else Ok false
  end.

(** [any(f(entity) for f in filters)] *)
Fixpoint Or (filters : list predicate) (e : entity) : result bool :=
  match filters with
  | [] => Ok false
  | f :: fs => b <- f e ;; if b then Ok true else Or fs e
  end.

(** The class [_Not] that [NotWrap(cls)] returns: [__call__] on the
    filter that [__init__] built. *)
Definition _Not__call__ (filter : predicate) : predicate :=
  fun e => b <- filter e ;; Ok (negb b).

Definition NotWrap (cls : filter_cls) : filter_cls :=
  fun field values =>
    filter <- cls field values ;;
    Ok (_Not__call__ filter).

(** The decorator [register] applied to [cls], on the registry [reg] *)
Definition register (names : list string)
    (wrap : option (filter_cls -> filter_cls)) (cls : filter_cls)
    (reg : gmap string filter_cls) : gmap string filter_cls :=
  fold_left
    (fun r name => <[name := match wrap with Some w => w cls | None => cls end]> r)
    names reg.

(** [ScalarFilter]: one value, compared with the field through [test]. *)
Definition ScalarFilter (test : value -> value -> result bool) : filter_cls :=
  fun field values =>
    match values with
    | [v] =>
        Ok (fun e =>
              x <- Py.get_or e field VNone ;;
              let '(v', other) := match_types v x in
              test v' other)
    | _ => Raise TypeError
    end.

(** [(field or {}).get(key)] *)
Definition or_empty_get (field : value) (key : string) : result value :=
  if Py.truthy field then
    match field with
    | VDict d => Ok (default VNone (Py.get key d))
    | _ => Raise AttributeError
    end
  else Ok VNone.

Definition IsFilter : filter_cls :=
  ScalarFilter (fun v field =>
    match v with
    | VDict d =>
        t <- or_empty_get field "type" ;;
        if Py.eq (default VNone (Py.get "type" d)) t then
          i <- or_empty_get field "id" ;;
          Ok (Py.eq (default VNone (Py.get "id" d)) i)
        else Ok false
    | _ => Ok (Py.eq v field)
    end).

Definition InFilter : filter_cls :=
  fun field values =>
    if forallb Py.hashable values then
      Ok (fun e =>
            x <- Py.get_or e field VNone ;;
            if Py.hashable x then Ok (Py.member x values) else Raise TypeError)
    else Raise TypeError.

Definition LessThanFilter : filter_cls :=
  ScalarFilter (fun v field => Py.lt field v).

(** The class registered as [greater_than], which the source names
    [LessThanFilter] a second time. *)
Definition GreaterThanFilter : filter_cls :=
  ScalarFilter (fun v field => Py.lt v field).

(** [field.startswith(v)] and [field.endswith(v)]: [v] is a string or a
    tuple of strings tried from the left. *)
Definition affix_test (test : string -> string -> bool) (v field : value)
  : result bool :=
  match field with
  | VStr s =>
      match v with
      | VStr p => Ok (test s p)
      | VTuple ps =>
          (fix any (ps : list value) : result bool :=
             match ps with
             | [] => Ok false
             | VStr p :: ps' => if test s p then Ok true else any ps'
             | _ :: _ => Raise TypeError
             end) ps
      | _ => Raise TypeError
      end
  | _ => Raise AttributeError
  end.

Definition StartsWithFilter : filter_cls := ScalarFilter (affix_test Py.startswith).
Definition EndsWithFilter : filter_cls := ScalarFilter (affix_test Py.endswith).

(** The registry once the module is loaded: the decorators of a class
    run from the innermost outwards. *)
Definition registered : gmap string filter_cls :=
  register ["ends_with"] None EndsWithFilter
  (register ["starts_with"] None StartsWithFilter
  (register ["greater_than"] None GreaterThanFilter
  (register ["less_than"] None LessThanFilter
  (register ["in"] None InFilter
  (register ["not_in"] (Some NotWrap) InFilter
  (register ["is"] None IsFilter
  (register ["is_not"] (Some NotWrap) IsFilter ∅))))))).

Section Compiler.

(** The registry [_filters] at the time of the call. *)
Variable _filters : gmap string filter_cls.

(** [_filters.get(op_name)] *)
Definition lookup_relation (op_name : value) : result (option filter_cls) :=
  match op_name with
  | VStr name => Ok (_filters !! name)
  | _ => if Py.hashable op_name then Ok None else Raise TypeError
  end.

(** The last three lines of [_compile_condition]. *)
Definition instantiate (field op_name values : value) : result predicate :=
  o <- lookup_relation op_name ;;
  match o with
  | None => Raise (MockError "unknown filter relation %r" [op_name])
  | Some op_cls => vs <- Py.iter values ;; op_cls field vs
  end.

(** [isinstance(v, (list, tuple))] *)
Definition is_sequence (v : value) : bool :=
  match v with VList _ | VTuple _ => true | _ => false end.

(** [_compile_condition], calling [compile_filters] for a nested group. *)
Definition compile_condition_with
    (compile_filters : value -> result predicate) (condition : value)
  : result predicate :=
  match condition with
  | VDict d =>
      if Py.contains "filter_operator" d then compile_filters condition
      else
        op_name <- Py.getitem d (VStr "relation") ;;
        field <- Py.getitem d (VStr "path") ;;
        values <- Py.getitem d (VStr "values") ;;
        instantiate field op_name values
  | _ =>
      n <- Py.len condition ;;
      list_form <- (if (n =? 3)%nat
                    then third <- Py.index condition 2 ;; Ok (is_sequence third)
                    else Ok false) ;;
      field <- Py.index condition 0 ;;
      op_name <- Py.index condition 1 ;;
      values <- (if list_form : bool then Py.index condition 2
                 else Py.slice_from condition 2) ;;
      instantiate field op_name values
  end.

(** The operator and the conditions of a node, the first half of
    [_compile_filters]. *)
Definition operator_and_conditions (filters : value) : result (value * value) :=
  match filters with
  | VDict d =>
      match Py.get "logical_operator" d, Py.get "conditions" d with
      | Some op, Some conditions => Ok (op, conditions)
      | _, _ =>
          let op := default (VStr "and") (Py.get "filter_operator" d) in
          conditions <- Py.getitem d (VStr "filters") ;;
          Ok (op, conditions)
      end
  | _ => Ok (VStr "and", filters)
  end.

Definition operator_class (op : value)
  : result (list predicate -> predicate) :=
  if Py.member op [VStr "any"; VStr "or"] then Ok Or
  else if Py.member op [VStr "all"; VStr "and"] then Ok And
  else Raise (ValueError "Invalid filter_operator {}" [op]).

(** [_compile_filters] with a bound on the nesting it follows. *)
Fixpoint compile_filters_upto (depth : nat) (filters : value)
  : result predicate :=
  match depth with
  | O => Raise RecursionError
  | S depth' =>
      oc <- operator_and_conditions filters ;;
      op_cls <- operator_class (fst oc) ;;
      conditions <- Py.iter (snd oc) ;;
      compiled <- mapM (compile_condition_with (compile_filters_upto depth'))
                       conditions ;;
      Ok (op_cls compiled)
  end.

(** A finite value is never nested deeper than [Py.nesting] says, so
    the bound below is never reached. *)
Definition _compile_filters (filters : value) : result predicate :=
  compile_filters_upto (S (Py.nesting filters)) filters.

Definition _compile_condition (condition : value) : result predicate :=
  compile_condition_with _compile_filters condition.

(** [filter_entities] compiles at once and returns a generator: the
    records in order, each with the outcome its test has when the
    consumer reaches it. *)
Definition filter_entities (filters : value) (entities : list entity)
  : result (list (entity * result bool)) :=
  compiled <- _compile_filters filters ;;
  Ok (map (fun e => (e, compiled e)) entities).

End Compiler.
End filters.

(** ** sgmock/utils.py *)

Module utils.

(** Modelled from the spec: [is_entity] of [sgmock/utils.py], which is
    not among the sources.  A link is a mapping that carries both [type]
    and [id]. *)
Definition is_entity (v : value) : bool :=
  match v with
  | VDict d => Py.contains "type" d && Py.contains "id" d
  | _ => false
  end.

(** Modelled from the spec: [minimize] of [sgmock/utils.py], which is not
    among the sources.  The minimal form of a record is the mapping of
    its [type] and its [id] alone. *)
Definition minimize (v : value) : result entity :=
  match v with
  | VDict d =>
      t <- Py.getitem d (VStr "type") ;;
      i <- Py.getitem d (VStr "id") ;;
      Ok [("type", t); ("id", i)]
  | _ => Raise TypeError
  end.

End utils.

(** ** JSON documents

    What [json.dump] writes and [json.load] reads back, as the tree of the
    document rather than its text. *)

Module Json.

Inductive json : Type :=
| JNull
| JBool (b : bool)
| JNum (n : Z)
| JStr (s : string)
| JArr (xs : list json)
| JObj (members : list (string * json)).

(** The encoder of [json.dump(obj, default=default)]: a tuple is written
    as an array, and a value JSON has no form for is passed to [default],
    whose string is written in its place. *)
Fixpoint encode (default : value -> result string) (v : value) : result json :=
  match v with
  | VNone => Ok JNull
  | VBool b => Ok (JBool b)
  | VInt n => Ok (JNum n)
  | VStr s => Ok (JStr s)
  | VList xs | VTuple xs => js <- mapM (encode default) xs ;; Ok (JArr js)
  | VDict d =>
      ms <- mapM (fun kv => j <- encode default (snd kv) ;; Ok (fst kv, j)) d ;;
      Ok (JObj ms)
  | VDate _ _ _ | VDatetime _ _ _ _ _ _ _ => s <- default v ;; Ok (JStr s)
  end.

(** The decoder of [json.load]: of two members with one name the later
    value is kept. *)
Fixpoint decode (j : json) : value :=
  match j with
  | JNull => VNone
  | JBool b => VBool b
  | JNum n => VInt n
  | JStr s => VStr s
  | JArr xs => VList (map decode xs)
  | JObj ms => VDict (Py.update [] (map (fun kv => (fst kv, decode (snd kv))) ms))
  end.

End Json.

(** ** sgmock/shotgun.py *)

Module shotgun.
Import filters utils Json.

(** The mock server: the flag the constructor takes, the live records
    by type and id, the id counters, the deleted records. *)
Record Shotgun : Type := mkShotgun {
  _generate_events : bool;
  _store : gmap string (list (Z * entity));
  _ids : gmap string Z;
  _deleted : gmap string (list (Z * entity))
}.

(** [Shotgun(generate_events=...)] *)
Definition init (generate_events : bool) : Shotgun :=
  mkShotgun generate_events ∅ ∅ ∅.

Definition with_store (sg : Shotgun) (store : gmap string (list (Z * entity)))
  : Shotgun :=
  mkShotgun (_generate_events sg) store (_ids sg) (_deleted sg).

Definition with_ids (sg : Shotgun) (ids : gmap string Z) : Shotgun :=
  mkShotgun (_generate_events sg) (_store sg) ids (_deleted sg).

Definition with_deleted (sg : Shotgun)
    (deleted : gmap string (list (Z * entity))) : Shotgun :=
  mkShotgun (_generate_events sg) (_store sg) (_ids sg) deleted.

(** [store[entity_type]] of a [defaultdict(dict)] *)
Definition records (store : gmap string (list (Z * entity)))
    (entity_type : string) : list (Z * entity) :=
  default [] (store !! entity_type).

(** [self._ids[entity_type]] of a [defaultdict(int)] *)
Definition last_id (sg : Shotgun) (entity_type : string) : Z :=
  default 0 (_ids sg !! entity_type).

(** [store[type_]] for a type that is any value: no record has a type
    that is not a string. *)
Definition records_of (store : gmap string (list (Z * entity)))
    (type_ : value) : result (list (Z * entity)) :=
  match type_ with
  | VStr t => Ok (records store t)
  | _ => if Py.hashable type_ then Ok [] else Raise TypeError
  end.

(** [recs.get(id_)] for an id that is any value: the keys are integers,
    which [True] and [False] equal. *)
Definition get_by_id (recs : list (Z * entity)) (id_ : value)
  : result (option entity) :=
  match id_ with
  | VInt n => Ok (Py.get n recs)
  | VBool b => Ok (Py.get (Z.b2z b) recs)
  | _ => if Py.hashable id_ then Ok None else Raise TypeError
  end.

Definition _entity_exists (sg : Shotgun) (e : entity) : result bool :=
  match Py.get "id" e, Py.get "type" e with
  | Some id_, Some type_ =>
      recs <- records_of (_store sg) type_ ;;
      o <- get_by_id recs id_ ;;
      Ok (match o with Some _ => true | None => false end)
  | _, _ => Raise (ShotgunError "entity does not have type and id; %r" [VDict e])
  end.

(** The record a link points to, live first, else deleted, else [None]. *)
Definition _resolve_link (sg : Shotgun) (link : entity) : result value :=
  match Py.get "type" link, Py.get "id" link with
  | Some type_, Some id_ =>
      live <- records_of (_store sg) type_ ;;
      o <- get_by_id live id_ ;;
      match o with
      | Some ((_ :: _) as e) => Ok (VDict e)
      | _ =>
          dead <- records_of (_deleted sg) type_ ;;
          o' <- get_by_id dead id_ ;;
          Ok (match o' with Some e => VDict e | None => VNone end)
      end
  | _, _ => Raise (ShotgunError "malformed entity link" [VDict link])
  end.

(** *** The pattern of a deep field *)

(** [\w] *)
Definition is_word (c : ascii) : bool :=
  let n := nat_of_ascii c in
  ((48 <=? n) && (n <=? 57) || (65 <=? n) && (n <=? 90) ||
   (97 <=? n) && (n <=? 122) || (n =? 95))%nat.

Definition not_dot (c : ascii) : bool := negb (Ascii.eqb c ".").

(** The longest prefix of characters that satisfy [p], and the rest. *)
Fixpoint span (p : ascii -> bool) (s : string) : string * string :=
  match s with
  | EmptyString => (EmptyString, EmptyString)
  | String c s' =>
      if p c then (String c (fst (span p s')), snd (span p s'))
      else (EmptyString, s)
  end.

(** [_deep_lookup_re.match(field)]: the groups of
    [^(\w+)\.(\w+)\.([^.]+)], which is not anchored at the end.  The
    classes exclude the character that must follow them, so the match is
    the greedy one or none. *)
Definition _deep_lookup_re (field : string) : option (string * string * string) :=
  let (local_field, r1) := span is_word field in
  match local_field, r1 with
  | String _ _, String "."%char r2 =>
      let (link_type, r3) := span is_word r2 in
      match link_type, r3 with
      | String _ _, String "."%char r4 =>
          match fst (span not_dot r4) with
          | String _ _ as deep_field => Some (local_field, link_type, deep_field)
          | EmptyString => None
          end
      | _, _ => None
      end
  | _, _ => None
  end.

Definition _lookup_field (sg : Shotgun) (e : value) (field : string)
  : result value :=
  if negb (Py.truthy e) then Ok VNone else
  match e with
  | VDict d =>
      match Py.get field d with
      | Some v => Ok v
      | None =>
          match _deep_lookup_re field with
          | None =>
              let parts := Py.split "." field in
              if existsb (fun x => String.eqb x "") parts then
                Raise (ShotgunError "malformed field %r" [VStr field])
              else if (1 <? length parts)%nat then Ok VNone
              else Raise (KeyError (VStr field))
          | Some (local_field, link_type, deep_field) =>
              match Py.get local_field d with
              | Some (VDict link) =>
                  t <- Py.getitem link (VStr "type") ;;
                  if negb (Py.eq t (VStr link_type)) then Ok VNone
                  else
                    linked <- _resolve_link sg link ;;
                    match linked with
                    | VDict l => Ok (default VNone (Py.get deep_field l))
                    | _ => Raise AttributeError
                    end
              | _ => Raise (KeyError (VStr field))
              end
          end
      end
  | _ => Raise TypeError
  end.

(** [sys.getrecursionlimit()], the default; the frames of the callers
    are not counted. *)
Definition recursion_limit : nat := 1000.

(** [_minimal_copy], which follows [name] from link to link: [depth]
    bounds the calls that may nest. *)
Fixpoint minimal_copy_upto (depth : nat) (sg : Shotgun) (e : value)
    (fields : list string) : result value :=
  match depth with
  | O => Raise RecursionError
  | S depth' =>
      if negb (Py.truthy e) then Ok VNone else
      minimal <- minimize e ;;
      (fix each (fields : list string) (minimal : entity) : result value :=
         match fields with
         | [] => Ok (VDict minimal)
         | field :: rest =>
             match _lookup_field sg e field with
             | Raise (KeyError _) => each rest minimal
             | Raise err => Raise err
             | Ok v =>
                 if is_entity v then
                   link <- match v with
                           | VDict l => _resolve_link sg l
                           | _ => Raise TypeError
                           end ;;
                   m <- minimal_copy_upto depth' sg link ["name"] ;;
                   each rest (Py.set field m minimal)
                 else
                   match v with
                   | VList xs =>
                       res <- mapM (fun x => if is_entity x
                                             then minimal_copy_upto depth' sg x []
                                             else Ok x) xs ;;
                       each rest (Py.set field (VList res) minimal)
                   | _ => each rest (Py.set field v minimal)
                   end
             end
         end) fields minimal
  end.

Definition _minimal_copy (sg : Shotgun) (e : value) (fields : list string)
  : result value :=
  minimal_copy_upto recursion_limit sg e fields.

Fixpoint _reduce_links (sg : Shotgun) (data : value) : result value :=
  match data with
  | VDict d =>
      if Py.contains "type" d && Py.contains "id" d then
        (* Check for retirement. *)
        live <- _entity_exists sg d ;;
        if negb live then Ok VNone else _minimal_copy sg data []
      else
        res <- mapM (fun kv => v <- _reduce_links sg (snd kv) ;; Ok (fst kv, v)) d ;;
        Ok (VDict (Py.update [] res))
  | VList xs | VTuple xs =>
      res <- mapM (_reduce_links sg) xs ;; Ok (VList res)
  | _ => Ok data
  end.

Section Server.

(** The registry of [sgmock.filters] at the time of the call. *)
Variable _filters : gmap string filter_cls.

(** [d.values()] on the records of a type: the records in the order in
    which the dictionary lists them, which Python 2 leaves to its hash
    table (see [Py.values_by_slot]). *)
Variable dict_values : list (Z * entity) -> list entity.

(** [sgmock/events.py] is not among the sources: what its hooks do to
    the server is left open, and they are taken to change the server, not
    the record in hand.  They are called only when the server was built
    with [generate_events] set (the methods are called with their default
    [_generate_events=True]). *)
Variable generate_for_create : Shotgun -> entity -> Shotgun.
Variable generate_for_update : Shotgun -> entity -> option entity -> entity -> Shotgun.
Variable generate_for_delete : Shotgun -> entity -> Shotgun.
Variable generate_for_revive : Shotgun -> entity -> Shotgun.

(** [self._store[entity_type][entity_id] = e] *)
Definition store_record (sg : Shotgun) (entity_type : string) (entity_id : Z)
    (e : entity) : Shotgun :=
  with_store sg (<[entity_type := Py.set entity_id e (records (_store sg) entity_type)]>
                   (_store sg)).

(** The message of a duplicate id, with its two quoted words. *)
Definition duplicate_id_msg : string :=
  let q := String (ascii_of_nat 34) EmptyString in
  "there is already a " +:+ q +:+ "{type}" +:+ q +:+
  " record with the " +:+ q +:+ "id" +:+ q +:+ " {id}".

(** The first branch of [_create_or_update]: the id of the new record,
    which is then put in the store with its [created_at].  The ids of the
    store are integers: an id in [data] that is of another kind is
    refused. *)
Definition new_entity (sg : Shotgun) (entity_type : string) (data : entity)
    (created_at : value) : Shotgun * result (Z * entity) :=
  let default_id := last_id sg entity_type + 1 in
  let new_id :=
    match Py.get "id" data with
    | None => Ok default_id
    | Some (VInt n) =>
        if Py.contains n (records (_store sg) entity_type) then
          Raise (ShotgunError duplicate_id_msg [VStr entity_type; VInt n])
        else Ok n
    | Some _ => Raise TypeError
    end in
  match new_id with
  | Raise err => (sg, Raise err)
  | Ok n =>
      let e := [("type", VStr entity_type); ("id", VInt n);
                ("created_at", created_at)] in
      let sg1 := with_ids sg (<[entity_type := Z.max n (last_id sg entity_type)]> (_ids sg)) in
      (store_record sg1 entity_type n e, Ok (n, e))
  end.

(** [utcnow] is read once for [created_at] when the record is new and
    once for [updated_at]: the two readings are arguments.  The record
    is changed in place in the store, so what was done before an
    exception stays done. *)
Definition _create_or_update (sg : Shotgun) (entity_type : string)
    (entity_id : option Z) (data : entity) (created_at updated_at : value)
  : Shotgun * result (Z * entity) :=
  let '(sg1, found) :=
    match entity_id with
    | None => new_entity sg entity_type data created_at
    | Some i =>
        (* TODO: Handle this gracefully. *)
        (sg, match Py.get i (records (_store sg) entity_type) with
             | Some e => Ok (i, e)
             | None => Raise (KeyError (VInt i))
             end)
    end in
  match found with
  | Raise err => (sg1, Raise err)
  | Ok (i, e) =>
      let e1 := Py.set "updated_at" updated_at e in
      let sg2 := store_record sg1 entity_type i e1 in
      match _reduce_links sg2 (VDict (Py.remove "id" data)) with
      | Raise err => (sg2, Raise err)
      | Ok (VDict reduced) =>
          let e2 := Py.update e1 reduced in
          (store_record sg2 entity_type i e2, Ok (i, e2))
      | Ok _ => (sg2, Raise TypeError)
      end
  end.

Definition create (sg : Shotgun) (entity_type : string) (data : entity)
    (return_fields : list string) (created_at updated_at : value)
  : Shotgun * result value :=
  match _create_or_update sg entity_type None data created_at updated_at with
  | (sg1, Raise err) => (sg1, Raise err)
  | (sg1, Ok (_, e)) =>
      let sg2 := if _generate_events sg1 then generate_for_create sg1 e else sg1 in
      (sg2, _minimal_copy sg2 (VDict e) (Py.keys data ++ return_fields))
  end.

(** The mapping [update] returns is built from a set of keys; they are
    taken here as they first occur in [data], then [type] and [id]. *)
Definition update (sg : Shotgun) (entity_type : string) (entity_id : Z)
    (data : entity) (updated_at : value) : Shotgun * result value :=
  let old_values := Py.get entity_id (records (_store sg) entity_type) in
  match _create_or_update sg entity_type (Some entity_id) data VNone updated_at with
  | (sg1, Raise err) => (sg1, Raise err)
  | (sg1, Ok (_, e)) =>
      let sg2 := if _generate_events sg1
                 then generate_for_update sg1 e old_values data else sg1 in
      (sg2,
       kvs <- mapM (fun k => v <- Py.getitem e (VStr k) ;; Ok (k, v))
                   (Py.keys data ++ ["type"; "id"]) ;;
       Ok (VDict (Py.update [] kvs)))
  end.

(** The loop of [find] over [islice(entities, start, start + limit)]:
    [start] matches are still to be skipped and [limit] results still
    to be made.  The generator is asked for a record only while a
    result is wanted, and each result is made before the next record
    is asked for. *)
Fixpoint find_loop (sg : Shotgun) (fields : list string)
    (entities : list (entity * result bool)) (start limit : nat)
  : result (list value) :=
  match limit, entities with
  | O, _ | _, [] => Ok []
  | S limit', (e, test) :: rest =>
      keep <- test ;;
      if keep : bool then
        match start with
        | S start' => find_loop sg fields rest start' limit
        | O =>
            m <- _minimal_copy sg (VDict e) fields ;;
            ms <- find_loop sg fields rest O limit' ;;
            Ok (m :: ms)
        end
      else find_loop sg fields rest start limit
  end.

Definition is_dict (v : value) : bool :=
  match v with VDict _ => true | _ => false end.

Definition find (sg : Shotgun) (entity_type : string) (filters : value)
    (fields : list string) (limit : Z) (retired_only : bool) (page : Z)
  : result (list value) :=
  let store := if retired_only then _deleted sg else _store sg in
  let entities := dict_values (records store entity_type) in
  entities <- filter_entities _filters filters entities ;;
  (* Very rough paging. *)
  let limit := Z.max 1 (Z.min 500 limit) in
  let start := Z.max 0 (page - 1) * limit in
  res <- find_loop sg fields entities (Z.to_nat start) (Z.to_nat limit) ;;
  (* the log line reads the id of every result *)
  if forallb is_dict res then Ok res else Raise TypeError.

Definition find_one (sg : Shotgun) (entity_type : string) (filters : value)
    (fields : list string) (retired_only : bool) : result value :=
  results <- find sg entity_type filters fields 1 retired_only 1 ;;
  match results with
  | r :: _ => Ok r
  | [] => Ok VNone
  end.

Definition delete (sg : Shotgun) (entity_type : string) (entity_id : Z)
  : Shotgun * bool :=
  let live := records (_store sg) entity_type in
  match Py.get entity_id live with
  | None => (sg, false)
  | Some e =>
      let sg1 := with_store sg (<[entity_type := Py.remove entity_id live]> (_store sg)) in
      if Py.truthy (VDict e) then
        let sg2 := with_deleted sg1
                     (<[entity_type := Py.set entity_id e (records (_deleted sg1) entity_type)]>
                        (_deleted sg1)) in
        (if _generate_events sg2 then generate_for_delete sg2 e else sg2, true)
      else (sg1, false)
  end.

Definition revive (sg : Shotgun) (entity_type : string) (entity_id : Z)
  : Shotgun * bool :=
  let dead := records (_deleted sg) entity_type in
  match Py.get entity_id dead with
  | None => (sg, false)
  | Some e =>
      let sg1 := with_deleted sg (<[entity_type := Py.remove entity_id dead]> (_deleted sg)) in
      if Py.truthy (VDict e) then
        let sg2 := store_record sg1 entity_type entity_id e in
        (if _generate_events sg2 then generate_for_revive sg2 e else sg2, true)
      else (sg1, false)
  end.

Definition clear (sg : Shotgun) : Shotgun :=
  with_deleted (with_store sg ∅) ∅.

(** *** Batches *)

Definition _batch_type_args : list (string * list string) :=
  [("create", ["entity_type"; "data"]);
   ("update", ["entity_type"; "entity_id"; "data"]);
   ("delete", ["entity_type"; "entity_id"])].

(** The call of the method named [type_] on [args], at the readings
    [tick], [tick + 1], ... of the clock; with the result, the reading
    that comes next.  The
    methods of this embedding take a type name, an integer id and a
    mapping: arguments of other kinds are refused. *)
Definition batch_call (sg : Shotgun) (type_ : string) (args : list value)
    (utcnow : nat -> value) (tick : nat) : Shotgun * result value * nat :=
  if String.eqb type_ "create" then
    match args with
    | [VStr entity_type; VDict data] =>
        let out := create sg entity_type data [] (utcnow tick) (utcnow (S tick)) in
        (fst out, snd out, S (S tick))
    | _ => (sg, Raise TypeError, tick)
    end
  else if String.eqb type_ "update" then
    match args with
    | [VStr entity_type; VInt entity_id; VDict data] =>
        let out := update sg entity_type entity_id data (utcnow tick) in
        (fst out, snd out, S tick)
    | _ => (sg, Raise TypeError, tick)
    end
  else
    match args with
    | [VStr entity_type; VInt entity_id] =>
        let out := delete sg entity_type entity_id in
        (fst out, Ok (VBool (snd out)), tick)
    | _ => (sg, Raise TypeError, tick)
    end.

(** One turn of the loop of [batch]. *)
Definition batch_request (sg : Shotgun) (request : entity)
    (utcnow : nat -> value) (tick : nat) : Shotgun * result value * nat :=
  match Py.get "request_type" request with
  | None =>
      (sg, Raise (ShotgunError "missing request_type; %r" [VDict request]), tick)
  | Some (VStr type_) =>
      match Py.get type_ _batch_type_args with
      | None =>
          (sg, Raise (ShotgunError "unknown request_type %r; %r"
                        [VStr type_; VDict request]), tick)
      | Some arg_names =>
          match List.find (fun name => negb (Py.contains name request))
                          arg_names with
          | Some name =>
              (sg, Raise (ShotgunError "%s request missing %s; %r"
                            [VStr type_; VStr name; VDict request]), tick)
          | None =>
              batch_call sg type_
                (map (fun name => default VNone (Py.get name request)) arg_names)
                utcnow tick
          end
      end
  | Some type_ =>
      if Py.hashable type_ then
        (sg, Raise (ShotgunError "unknown request_type %r; %r"
                      [type_; VDict request]), tick)
      else (sg, Raise TypeError, tick)
  end.

(** The loop of [batch]: the requests are served in order, and the first
    that fails ends the batch with what was done before it left done. *)
Fixpoint batch_loop (sg : Shotgun) (requests : list entity)
    (utcnow : nat -> value) (tick : nat) : Shotgun * result (list value) :=
  match requests with
  | [] => (sg, Ok [])
  | request :: rest =>
      match batch_request sg request utcnow tick with
      | (sg1, Raise err, _) => (sg1, Raise err)
      | (sg1, Ok response, tick1) =>
          match batch_loop sg1 rest utcnow tick1 with
          | (sg2, Ok responses) => (sg2, Ok (response :: responses))
          | (sg2, Raise err) => (sg2, Raise err)
          end
      end
  end.

Definition batch (sg : Shotgun) (requests : list entity) (utcnow : nat -> value)
  : Shotgun * result (list value) :=
  match batch_loop sg requests utcnow O with
  | (sg1, Ok []) =>
      (* Error like Shotgun does, but perhaps with a slightly better message. *)
      (sg1, Raise (ShotgunError "batch must have at least one request" []))
  | out => out
  end.

End Server.

(** *** Snapshots *)

(** The [serialize] that [sgmock_json_dump] passes as [default]. *)
Definition serialize (v : value) : result string :=
  match v with
  | VDatetime y m d hh mi ss us => Ok (Py.datetime_isoformat y m d hh mi ss us +:+ "Z")
  | VDate y m d => Ok (Py.date_isoformat y m d)
  | _ => Raise TypeError
  end.

(** [json.dump(dict(self._store), default=serialize)]: the document
    written.  An id is written as the string [str(id)]. *)
Definition sgmock_json_dump (sg : Shotgun) : result json :=
  types <- mapM (fun te : string * list (Z * entity) =>
             es <- mapM (fun ie : Z * entity =>
                           j <- encode serialize (VDict (snd ie)) ;;
                           Ok (Py.str_of_int (fst ie), j)) (snd te) ;;
             Ok (fst te, JObj es))
           (map_to_list (_store sg)) ;;
  Ok (JObj types).

(** The pattern of [sgmock_json_load], tried with [re.match] at the
    start of the string: the date, then if it can the time with its
    [Z], with the microseconds if they are there. *)
Fixpoint digits (n : nat) (s : string) : option (string * string) :=
  match n with
  | O => Some (EmptyString, s)
  | S n' =>
      match s with
      | String c s' =>
          if Py.is_digit c then
            '(ds, r) ← digits n' s'; Some (String c ds, r)
          else None
      | EmptyString => None
      end
  end.

Definition char (c : ascii) (s : string) : option string :=
  match s with
  | String c' s' => if Ascii.eqb c c' then Some s' else None
  | EmptyString => None
  end.

(** [.], which matches any character but a newline *)
Definition any_char (s : string) : option string :=
  match s with
  | String c s' => if Ascii.eqb c "010"%char then None else Some s'
  | EmptyString => None
  end.

Definition time_groups (s : string)
  : option (string * string * string * option string) :=
  r ← char "T" s;
  '(hour, r) ← digits 2 r;
  r ← char ":" r;
  '(minute, r) ← digits 2 r;
  r ← char ":" r;
  '(second, r) ← digits 2 r;
  match (r1 ← any_char r; '(us, r2) ← digits 6 r1; _ ← char "Z" r2; Some us) with
  | Some us => Some (hour, minute, second, Some us)
  | None => _ ← char "Z" r; Some (hour, minute, second, None)
  end.

Definition date_pattern (s : string)
  : option (string * string * string *
            option (string * string * string * option string)) :=
  '(year, r) ← digits 4 s;
  r ← char "-" r;
  '(month, r) ← digits 2 r;
  r ← char "-" r;
  '(day, r) ← digits 2 r;
  Some (year, month, day, time_groups r).

(** What the loader puts in place of a field of a record. *)
Definition load_field (v : value) : result value :=
  match v with
  | VStr s =>
      match date_pattern s with
      | None => Ok v
      | Some (year, month, day, None) =>
          (* It's a date object *)
          Py.date (Py.int_digits year) (Py.int_digits month) (Py.int_digits day)
      | Some (year, month, day, Some (hour, minute, second, microsecond)) =>
          (* its a datetime object *)
          match microsecond with
          | None => Raise TypeError
          | Some us =>
              Py.datetime (Py.int_digits year) (Py.int_digits month)
                (Py.int_digits day) (Py.int_digits hour) (Py.int_digits minute)
                (Py.int_digits second) (Py.int_digits us)
          end
      end
  | _ => Ok v
  end.

(** A record of the document must be an object: the store of this
    embedding holds mappings only. *)
Definition load_entity (v : value) : result entity :=
  match v with
  | VDict d => mapM (fun kv => x <- load_field (snd kv) ;; Ok (fst kv, x)) d
  | _ => Raise TypeError
  end.

(** The records of one type: each string id becomes the integer it
    spells.  Of two ids that spell one integer the record left is the one
    the loop reaches last; the loop is followed in the order of the
    document. *)
Definition load_entities (v : value) : result (list (Z * entity)) :=
  match v with
  | VDict entities =>
      fold_left (fun acc se =>
                   es <- acc ;;
                   entity_id <- Py.int_of_str (fst se) ;;
                   e <- load_entity (snd se) ;;
                   Ok (Py.set entity_id e es))
                entities (Ok [])
  | _ => Raise AttributeError
  end.

(** [max(ids)] *)
Definition max_id (es : list (Z * entity)) : option Z :=
  match Py.keys es with
  | [] => None
  | i :: is_ => Some (fold_left Z.max is_ i)
  end.

Definition sgmock_json_load (sg : Shotgun) (document : json) : result Shotgun :=
  match decode document with
  | VDict objects =>
      loaded <- mapM (fun te => es <- load_entities (snd te) ;; Ok (fst te, es))
                     objects ;;
      (* Store the largest entity id so the index is correct. *)
      let entity_ids :=
        fold_left (fun ids te => match max_id (snd te) with
                                 | Some n => <[fst te := n]> ids
                                 | None => ids
                                 end) loaded ∅ in
      Ok (mkShotgun (_generate_events sg) (list_to_map loaded) entity_ids ∅)
  | _ => Raise AttributeError
  end.

End shotgun.

(** ** sgmock/fixture.py *)

Module fixture.
Import filters utils shotgun.

(** A fixture: the server it works on and the type and id of each record
    it created, in the order of their creation. *)
Record Fixture : Type := mkFixture {
  shotgun : Shotgun;
  created : list (value * value)
}.

Section Fixture.

Variable _filters : gmap string filter_cls.
Variable dict_values : list (Z * entity) -> list entity.
Variable generate_for_create : Shotgun -> entity -> Shotgun.
Variable generate_for_update : Shotgun -> entity -> option entity -> entity -> Shotgun.
Variable generate_for_delete : Shotgun -> entity -> Shotgun.

(** [Fixture.create]: the record the server made is noted by the type and
    the id it was returned with. *)
Definition create (fx : Fixture) (entity_type : string) (data : entity)
    (return_fields : list string) (created_at updated_at : value)
  : Fixture * result value :=
  let out := shotgun.create generate_for_create (shotgun fx) entity_type data
               return_fields created_at updated_at in
  match snd out with
  | Raise err => (mkFixture (fst out) (created fx), Raise err)
  | Ok (VDict x) =>
      match Py.get "type" x, Py.get "id" x with
      | Some type_, Some id_ =>
          (mkFixture (fst out) (created fx ++ [(type_, id_)]), Ok (VDict x))
      | None, _ => (mkFixture (fst out) (created fx), Raise (KeyError (VStr "type")))
      | _, None => (mkFixture (fst out) (created fx), Raise (KeyError (VStr "id")))
      end
  | Ok _ => (mkFixture (fst out) (created fx), Raise TypeError)
  end.

(** The request that [delete_all] makes for a record it noted. *)
Definition delete_request (noted : value * value) : entity :=
  [("request_type", VStr "delete"); ("entity_type", fst noted);
   ("entity_id", snd noted)].

Definition delete_all (fx : Fixture) (utcnow : nat -> value)
  : Fixture * result unit :=
  match created fx with
  | [] => (fx, Ok tt)
  | _ =>
      match batch generate_for_create generate_for_update generate_for_delete
                  (shotgun fx) (map delete_request (rev (created fx))) utcnow with
      | (sg, Raise err) => (mkFixture sg (created fx), Raise err)
      | (sg, Ok _) => (mkFixture sg [], Ok tt)
      end
  end.

(** The filters that [find_or_create] makes of the data: each field must
    be what the data say. *)
Definition is_filters (data : entity) : value :=
  VList (map (fun kv => VTuple [VStr (fst kv); VStr "is"; snd kv]) data).

(** One turn of the loop of [find_or_create], at the readings [tick] and
    [tick + 1] of the clock when a record is created. *)
Definition find_or_create_one (fx : Fixture) (entity_type : string)
    (data : entity) (utcnow : nat -> value) (tick : nat)
  : Fixture * result value * nat :=
  match find_one _filters dict_values (shotgun fx) entity_type
                 (is_filters data) (Py.keys data) false with
  | Raise err => (fx, Raise err, tick)
  | Ok found =>
      if Py.truthy found then (fx, Ok found, tick)
      else
        let data' := Py.remove "id" data in
        let out := create fx entity_type data' (Py.keys data')
                          (utcnow tick) (utcnow (S tick)) in
        (fst out, snd out, S (S tick))
  end.

Fixpoint find_or_create_each (fx : Fixture) (entity_type : string)
    (datum : list value) (utcnow : nat -> value) (tick : nat)
  : Fixture * result (list value) :=
  match datum with
  | [] => (fx, Ok [])
  | VDict data :: rest =>
      match find_or_create_one fx entity_type data utcnow tick with
      | (fx1, Raise err, _) => (fx1, Raise err)
      | (fx1, Ok x, tick1) =>
          match find_or_create_each fx1 entity_type rest utcnow tick1 with
          | (fx2, Ok xs) => (fx2, Ok (x :: xs))
          | (fx2, Raise err) => (fx2, Raise err)
          end
      end
  | _ :: _ => (fx, Raise AttributeError)
  end.

(** [find_or_create(entity_type, datum, **kwargs)]: one mapping, given as
    [datum] or as keywords, or a list of mappings. *)
Definition find_or_create (fx : Fixture) (entity_type : string)
    (datum : value) (kwargs : entity) (utcnow : nat -> value)
  : Fixture * result value :=
  if Py.truthy datum && Py.truthy (VDict kwargs) then
    (fx, Raise (ValueError "specify datum or kwargs" []))
  else
    let single (data : entity) :=
      match find_or_create_one fx entity_type data utcnow O with
      | (fx1, r, _) => (fx1, r)
      end in
    match kwargs, datum with
    | _ :: _, _ => single kwargs
    | [], VDict data => single data
    | [], _ =>
        match Py.iter datum with
        | Raise err => (fx, Raise err)
        | Ok items =>
            match find_or_create_each fx entity_type items utcnow O with
            | (fx1, Ok xs) => (fx1, Ok (VList xs))
            | (fx1, Raise err) => (fx1, Raise err)
            end
        end
    end.

End Fixture.
End fixture.

(** ** Filter expressions, as the callers write them *)

Module expr.
Import filters.

(** The legacy flat condition with its values one after the other. *)
Definition legacy_variadic (field relation : value) (values : list value) : value :=
  VList (field :: relation :: values).

(** The legacy flat condition with its values in one list. *)
Definition legacy_list (field relation values : value) : value :=
  VList [field; relation; values].

(** The structured condition. *)
Definition structured (field relation values : value) : value :=
  VDict [("relation", relation); ("path", field); ("values", values)].

(** Two outcomes of a compilation agree: the same exception, or filters
    that answer alike on every record. *)
Definition agree (r1 r2 : result predicate) : Prop :=
  match r1, r2 with
  | Ok p, Ok q => forall e : entity, p e = q e
  | Raise a, Raise b => a = b
  | _, _ => False
  end.

(** The values of a variadic condition as the compiler reads them: one
    value that is a list or a tuple is taken for the list of the values. *)
Definition values_read (values : list value) : value :=
  match values with
  | [v] => if is_sequence v then v else VList values
  | _ => VList values
  end.

Section Unknown.

(** The registry of relations. *)
Variable reg : gmap string filter_cls.




End Unknown.
End expr.

(** ** Pages, and the stores of the scenarios *)

Module scenario.
Import filters utils shotgun.

(** A filter holds on a record when it answers true. *)
Definition holds (p : predicate) (e : entity) : bool :=
  match p e with Ok true => true | _ => false end.

(** The page [page] of [xs] in pages of [limit] items, the limit clamped
    to 1..500: the slice of that length at the zero-based offset
    [(page - 1) * limit]. *)
Definition page_slice {A} (limit page : Z) (xs : list A) : list A :=
  let limit' := Z.max 1 (Z.min 500 limit) in
  firstn (Z.to_nat limit') (skipn (Z.to_nat ((page - 1) * limit')) xs).

(** The minimal form of a record that carries its type and its id. *)
Definition minimal (e : entity) : value :=
  VDict [("type", default VNone (Py.get "type" e));
         ("id", default VNone (Py.get "id" e))].

(** Every entry of a mapping from ids to records is a record that carries
    a type and, as its id, the key it is stored under. *)
Definition carry_their_ids (es : list (Z * entity)) : Prop :=
  Forall (fun ie => Py.get "id" (snd ie) = Some (VInt (fst ie)) /\
                    is_Some (Py.get "type" (snd ie))) es.

Definition shot_001 : entity :=
  [("type", VStr "Shot"); ("id", VInt 1); ("code", VStr "001")].

Definition task_of_shot_001 : entity :=
  [("type", VStr "Task"); ("id", VInt 1);
   ("entity", VDict [("type", VStr "Shot"); ("id", VInt 1)])].

Definition one_shot_one_task : Shotgun :=
  mkShotgun false
    (<["Task" := [(1, task_of_shot_001)]]> {["Shot" := [(1, shot_001)]]})
    (<["Task" := 1]> {["Shot" := 1]}) ∅.

(** A server without events, and [create] on it at a fixed time. *)
Definition no_event (sg : Shotgun) (_ : entity) : Shotgun := sg.

Definition create_at_noon (sg : Shotgun) (entity_type : string) (data : entity)
  : Shotgun :=
  fst (create no_event sg entity_type data []
         (VDatetime 2020 1 2 12 0 0 1) (VDatetime 2020 1 2 12 0 0 2)).

(** Five shots created one after the other. *)
Definition five_shots : Shotgun :=
  fold_left (fun sg code => create_at_noon sg "Shot" [("code", VStr code)])
            ["a"; "b"; "c"; "d"; "e"] (init false).

(** A shot created with the id 7, then one with the id 3. *)
Definition seven_then_three : Shotgun :=
  create_at_noon (create_at_noon (init false) "Shot" [("id", VInt 7)])
                 "Shot" [("id", VInt 3)].

(** The filters [[["id", "is", i]]]. *)
Definition id_is (i : Z) : value :=
  VList [VList [VStr "id"; VStr "is"; VInt i]].

(** A value that is no list, tuple or mapping. *)
Definition is_scalar (v : value) : bool :=
  match v with
  | VList _ | VTuple _ | VDict _ => false
  | _ => true
  end.

(** The third of the five shots. *)
Definition shot_c : entity :=
  [("type", VStr "Shot"); ("id", VInt 3);
   ("created_at", VDatetime 2020 1 2 12 0 0 1);
   ("updated_at", VDatetime 2020 1 2 12 0 0 2); ("code", VStr "c")].

(** The five shots after the third was deleted. *)
Definition four_shots : Shotgun := fst (delete no_event five_shots "Shot" 3).

(** The type and the id of every mapping that carries both can be
    hashed, as a type name and an integer can. *)
Fixpoint links_hashable (v : value) : bool :=
  match v with
  | VDict d =>
      if Py.contains "type" d && Py.contains "id" d then
        Py.hashable (default VNone (Py.get "type" d)) &&
        Py.hashable (default VNone (Py.get "id" d))
      else forallb (fun kv => links_hashable (snd kv)) d
  | VList xs | VTuple xs => forallb links_hashable xs
  | _ => true
  end.

(** *** Stores that a snapshot gives back *)





(** The id counters that the loader computes: for each type that has
    records, the largest of their ids. *)
Definition largest_ids (store : gmap string (list (Z * entity)))
  : gmap string Z :=
  omap max_id store.


Definition full_second : Shotgun :=
  mkShotgun false
    {["Shot" := [(1, [("type", VStr "Shot"); ("id", VInt 1);
                      ("created_at", VDatetime 2020 1 2 12 0 0 0)])]]}
    {["Shot" := 1]} ∅.

End scenario.

(** ** What the server keeps *)

Module invariants.
Import filters utils shotgun.

(** An order of listing the records of a dictionary lists its records,
    each as often as it is there. *)
Definition lists_the_records (dict_values : list (Z * entity) -> list entity)
  : Prop :=
  forall es : list (Z * entity), Permutation (dict_values es) (Py.values es).

(** Every record of a store is kept under its own id. *)
Definition kept_under_ids (store : gmap string (list (Z * entity))) : Prop :=
  forall t : string,
    Forall (fun ie => Py.get "id" (snd ie) = Some (VInt (fst ie)))
           (records store t).

(** No id of a store is above the counter of its type. *)
Definition ids_bounded (sg : Shotgun) (store : gmap string (list (Z * entity)))
  : Prop :=
  forall t : string, Forall (fun ie => fst ie <= last_id sg t) (records store t).

(** Where the record that [_create_or_update] works on comes from: it is
    new, under the next id or under the id of the data, or it is the live
    record of the id given. *)
Definition record_in_hand (sg : Shotgun) (t : string) (oid : option Z)
    (data : entity) (c : value) (i : Z) (e0 : entity) (ids : gmap string Z)
  : Prop :=
  match oid with
  | None =>
      e0 = [("type", VStr t); ("id", VInt i); ("created_at", c)] /\
      ids = <[t := Z.max i (last_id sg t)]> (_ids sg) /\
      ((Py.get "id" data = None /\ i = last_id sg t + 1) \/
       (Py.get "id" data = Some (VInt i) /\
        Py.get i (records (_store sg) t) = None))
  | Some j =>
      j = i /\ ids = _ids sg /\ Py.get i (records (_store sg) t) = Some e0
  end.

(** The record under [i] holds each field of [data] but [id] as
    [_reduce_links] makes of it on the server. *)
Definition stores_reduced (sg : Shotgun) (entity_type : string) (i : Z)
    (data : entity) : Prop :=
  exists e : entity,
    Py.get i (records (_store sg) entity_type) = Some e /\
    forall (k : string) (v : value),
      k <> "id" -> Py.get k data = Some v ->
      exists w : value, _reduce_links sg v = Ok w /\ Py.get k e = Some w.

(** The two stores of a server keep each record under its id. *)
Definition well_kept (sg : Shotgun) : Prop :=
  kept_under_ids (_store sg) /\ kept_under_ids (_deleted sg).

(** The counters of a server bound the ids of its two stores. *)
Definition counters_bound (sg : Shotgun) : Prop :=
  ids_bounded sg (_store sg) /\ ids_bounded sg (_deleted sg).

End invariants.

(** ** Field names and values *)

Module fields.
Import filters shotgun.

(** A field name that is not empty and holds no dot. *)
Fixpoint dotless (s : string) : bool :=
  match s with
  | EmptyString => true
  | String c s' => not_dot c && dotless s'
  end.

Definition plain (field : string) : bool :=
  negb (String.eqb field "") && dotless field.

(** What an [is] condition on a value that is no mapping answers for the
    value of the field. *)
Definition is_answer (v x : value) : bool :=
  let '(v', other) := match_types v x in Py.eq v' other.

End fields.

(** ** Documents the loader reads *)

Module documents.
Import shotgun.

(** An id as [str] writes it, and with zeros before it: decimal digits,
    after a minus sign or without one. *)
Definition decimal (s : string) : bool :=
  match s with
  | EmptyString => false
  | String _ _ => forallb Py.is_digit (list_ascii_of_string s)
  end.

Definition numeral (s : string) : bool :=
  match s with
  | EmptyString => false
  | String a s' => if Ascii.eqb a "-" then decimal s' else decimal s
  end.

(** A field the loader leaves or converts: whatever is no text, a text
    that does not begin as a date, and a text that begins as a date of
    the calendar, or as such a date and a time of the clock with its
    microseconds. *)
Definition readable (v : value) : bool :=
  match v with
  | VStr s =>
      match date_pattern s with
      | None => true
      | Some (year, month, day, None) =>
          Py.valid_date (Py.int_digits year) (Py.int_digits month)
            (Py.int_digits day)
      | Some (year, month, day, Some (hour, minute, second, Some us)) =>
          Py.valid_date (Py.int_digits year) (Py.int_digits month)
            (Py.int_digits day) &&
          Py.valid_time (Py.int_digits hour) (Py.int_digits minute)
            (Py.int_digits second) (Py.int_digits us)
      | Some (_, _, _, Some (_, _, _, None)) => false
      end
  | _ => true
  end.

(** The objects [json.load] returns that are followed here: each type
    has a mapping of records, whose ids are numerals; each record is a
    mapping, whose fields are readable. *)
Definition loadable_record (v : value) : bool :=
  match v with
  | VDict fields_ => forallb (fun kv => readable (snd kv)) fields_
  | _ => false
  end.

Definition loadable_records (v : value) : bool :=
  match v with
  | VDict entities =>
      forallb (fun se => numeral (fst se) && loadable_record (snd se)) entities
  | _ => false
  end.

Definition loadable (objects : value) : bool :=
  match objects with
  | VDict types => forallb (fun te => loadable_records (snd te)) types
  | _ => false
  end.

End documents.

(** * Properties *)

Import filters utils Json shotgun expr scenario invariants fields documents.

(** ** The result monad and the loops *)

Lemma mapM_ext {A B} (f g : A -> result B) (xs : list A) :
  (forall x, In x xs -> f x = g x) -> mapM f xs = mapM g xs.
Proof.
  induction xs as [|x xs IH]; simpl; intros H; [reflexivity|].
  rewrite (H x) by auto. rewrite IH by auto. reflexivity.
Qed.



(** ** The connectives *)

(** C4.  On every record the conjunction of no filters holds and the
    disjunction of no filters fails, also when they are compiled from a
    group with no conditions, and the negation of a filter answers true
    exactly when the filter answers false. *)
Theorem connectives_on_every_record :
  forall (reg : gmap string filter_cls) (P : predicate) (e : entity),
    And [] e = Ok true /\
    Or [] e = Ok false /\
    (p <- _compile_filters reg
            (VDict [("logical_operator", VStr "and"); ("conditions", VList [])]) ;;
     p e) = Ok true /\
    (p <- _compile_filters reg
            (VDict [("logical_operator", VStr "or"); ("conditions", VList [])]) ;;
     p e) = Ok false /\
    (p <- _compile_filters reg
            (VDict [("filter_operator", VStr "all"); ("filters", VList [])]) ;;
     p e) = Ok true /\
    (p <- _compile_filters reg
            (VDict [("filter_operator", VStr "any"); ("filters", VList [])]) ;;
     p e) = Ok false /\
    (_Not__call__ P e = Ok true <-> P e = Ok false) /\
    (_Not__call__ P e = Ok false <-> P e = Ok true).
Proof.
  intros reg P e. repeat split; try reflexivity.
  - unfold _Not__call__. destruct (P e) as [[|]|]; simpl; congruence.
  - intros H. unfold _Not__call__. rewrite H. reflexivity.
  - unfold _Not__call__. destruct (P e) as [[|]|]; simpl; congruence.
  - intros H. unfold _Not__call__. rewrite H. reflexivity.
Qed.

(** ** The compiler follows the whole expression

    The bound of [compile_filters_upto] is never reached: both compilers
    satisfy the equations of the two mutually recursive functions of the
    source. *)

Lemma nesting_elem (xs : list value) (x : value) :
  In x xs ->
  (Py.nesting x <= fold_right (fun x n => Nat.max (Py.nesting x) n) 0 xs)%nat.
Proof.
  induction xs as [|y xs IH]; simpl; [tauto|].
  intros [->|Hin]; [lia|]. specialize (IH Hin). lia.
Qed.

Lemma nesting_get (d : entity) (k : string) (v : value) :
  Py.get k d = Some v -> (Py.nesting v < Py.nesting (VDict d))%nat.
Proof.
  simpl. induction d as [|[k' v'] d IH]; simpl; [discriminate|].
  destruct (decide (k' = k)).
  - intros [= ->]. lia.
  - intros H. specialize (IH H). lia.
Qed.

Lemma nesting_iter_dict (v : value) (xs : list value) (d : entity) :
  Py.iter v = Ok xs -> In (VDict d) xs ->
  (Py.nesting (VDict d) < Py.nesting v)%nat.
Proof.
  destruct v; simpl; try discriminate; intros [= <-] Hin.
  - exfalso. induction s as [|c s IH]; simpl in Hin; [tauto|].
    destruct Hin as [[=]|Hin]; auto.
  - apply nesting_elem in Hin. simpl in Hin. lia.
  - apply nesting_elem in Hin. simpl in Hin. lia.
  - exfalso. induction items as [|kv items IH]; simpl in Hin; [tauto|].
    destruct Hin as [[=]|Hin]; auto.
Qed.

Lemma nesting_conditions (filters op conditions : value) :
  operator_and_conditions filters = Ok (op, conditions) ->
  (Py.nesting conditions <= Py.nesting filters)%nat.
Proof.
  unfold operator_and_conditions. destruct filters; try (intros [= _ <-]; lia).
  assert (Hold : forall o,
             (c <- Py.getitem items (VStr "filters") ;; Ok (o, c)) =
             Ok (op, conditions) ->
             (Py.nesting conditions <= Py.nesting (VDict items))%nat).
  { intros o. simpl. destruct (Py.get "filters" items) as [c|] eqn:Hc; simpl;
      [|discriminate].
    intros [= _ <-]. apply nesting_get in Hc. simpl in Hc. lia. }
  destruct (Py.get "logical_operator" items) as [o|] eqn:Ho; [|apply Hold].
  destruct (Py.get "conditions" items) as [c|] eqn:Hc; [|apply Hold].
  intros [= _ <-]. apply nesting_get in Hc. lia.
Qed.

Lemma compile_condition_with_ext (reg : gmap string filter_cls)
    (f g : value -> result predicate) (c : value) :
  (forall d, c = VDict d -> f c = g c) ->
  compile_condition_with reg f c = compile_condition_with reg g c.
Proof.
  intros H. destruct c; try reflexivity.
  simpl. destruct (Py.contains "filter_operator" items); [|reflexivity].
  eapply H. reflexivity.
Qed.

Lemma compile_filters_upto_enough (reg : gmap string filter_cls) :
  forall (n m : nat) (filters : value),
    (Py.nesting filters < n)%nat -> (Py.nesting filters < m)%nat ->
    compile_filters_upto reg n filters = compile_filters_upto reg m filters.
Proof.
  induction n as [|n IH]; intros m filters Hn Hm; [lia|].
  destruct m as [|m]; [lia|]. simpl.
  destruct (operator_and_conditions filters) as [[op conditions]|] eqn:Hoc;
    simpl; [|reflexivity].
  destruct (operator_class op); simpl; [|reflexivity].
  destruct (Py.iter conditions) as [cs|] eqn:Hcs; simpl; [|reflexivity].
  rewrite (mapM_ext (compile_condition_with reg (compile_filters_upto reg n))
             (compile_condition_with reg (compile_filters_upto reg m)));
    [reflexivity|].
  intros c Hc. apply compile_condition_with_ext. intros d ->.
  pose proof (nesting_iter_dict _ _ _ Hcs Hc).
  pose proof (nesting_conditions _ _ _ Hoc).
  apply IH; lia.
Qed.

(** [_compile_filters] as the source writes it. *)
Lemma _compile_filters_eq (reg : gmap string filter_cls) (filters : value) :
  _compile_filters reg filters =
  (oc <- operator_and_conditions filters ;;
   op_cls <- operator_class (fst oc) ;;
   conditions <- Py.iter (snd oc) ;;
   compiled <- mapM (_compile_condition reg) conditions ;;
   Ok (op_cls compiled)).
Proof.
  unfold _compile_filters at 1. simpl.
  destruct (operator_and_conditions filters) as [[op conditions]|] eqn:Hoc;
    simpl; [|reflexivity].
  destruct (operator_class op); simpl; [|reflexivity].
  destruct (Py.iter conditions) as [cs|] eqn:Hcs; simpl; [|reflexivity].
  rewrite (mapM_ext (compile_condition_with reg
                       (compile_filters_upto reg (Py.nesting filters)))
             (_compile_condition reg)); [reflexivity|].
  intros c Hc. apply compile_condition_with_ext. intros d ->.
  pose proof (nesting_iter_dict _ _ _ Hcs Hc).
  pose proof (nesting_conditions _ _ _ Hoc).
  apply compile_filters_upto_enough; lia.
Qed.

(** A mapping with [filter_operator] among the conditions is compiled as
    a group. *)
Lemma _compile_condition_group (reg : gmap string filter_cls) (d : entity) :
  Py.contains "filter_operator" d = true ->
  _compile_condition reg (VDict d) = _compile_filters reg (VDict d).
Proof. intros H. unfold _compile_condition. simpl. rewrite H. reflexivity. Qed.

(** ** Nested groups *)

(** C1.  A nested group in the structured form is not compiled as a group:
    the compiler looks for [filter_operator] alone, takes the mapping for a
    condition and fails on its missing [relation], although the same
    mapping compiles as a group when it is the whole expression.  A legacy
    group without [filter_operator] fares the same; with it, nested
    groups of both forms compile. *)
Theorem nested_structured_group_is_refused :
  forall (reg : gmap string filter_cls) (e : entity),
    let inner := VDict [("logical_operator", VStr "or"); ("conditions", VList [])] in
    let legacy := VDict [("filters", VList [])] in
    _compile_filters reg
      (VDict [("logical_operator", VStr "and"); ("conditions", VList [inner])])
    = Raise (KeyError (VStr "relation")) /\
    (p <- _compile_filters reg inner ;; p e) = Ok false /\
    _compile_filters reg
      (VDict [("filter_operator", VStr "all"); ("filters", VList [legacy])])
    = Raise (KeyError (VStr "relation")) /\
    (p <- _compile_filters reg legacy ;; p e) = Ok true /\
    (p <- _compile_filters reg
            (VDict [("logical_operator", VStr "and");
                    ("conditions",
                     VList [VDict [("filter_operator", VStr "any");
                                   ("filters", VList [])]])]) ;;
     p e) = Ok false /\
    (p <- _compile_filters reg
            (VDict [("logical_operator", VStr "and");
                    ("conditions",
                     VList [VDict [("filter_operator", VStr "any");
                                   ("logical_operator", VStr "and");
                                   ("conditions", VList [])]])]) ;;
     p e) = Ok true.
Proof. intros reg e. repeat split. Qed.

(** ** The forms of a condition *)

Lemma agree_refl (r : result predicate) : agree r r.
Proof. destruct r; simpl; auto. Qed.

Lemma agree_eq (r1 r2 : result predicate) : r1 = r2 -> agree r1 r2.
Proof. intros ->. apply agree_refl. Qed.

(** C9, as amended.  The list form of a flat condition compiles as the
    structured condition of the same field, relation and values, and so
    does the variadic form unless its values are a single list or tuple,
    which is read as the list of the values; the two filters on
    [sg_status] of the scenario answer alike on every record. *)
Theorem condition_forms_agree :
  forall (reg : gmap string filter_cls) (field relation : value)
         (values : list value) (e : entity),
    agree (_compile_condition reg (legacy_list field relation (VList values)))
          (_compile_condition reg (structured field relation (VList values))) /\
    agree (_compile_condition reg (legacy_variadic field relation values))
          (_compile_condition reg (structured field relation (values_read values))) /\
    (p <- _compile_filters registered
            (VList [VList [VStr "sg_status"; VStr "in"; VStr "ip"; VStr "rdy"]]) ;;
     p e) =
    (p <- _compile_filters registered
            (VList [VDict [("relation", VStr "in"); ("path", VStr "sg_status");
                           ("values", VList [VStr "ip"; VStr "rdy"])]]) ;;
     p e) /\
    is_ok (_compile_filters registered
            (VList [VList [VStr "sg_status"; VStr "in"; VStr "ip"; VStr "rdy"]]))
    = true.
Proof.
  intros reg field relation values e. split; [|split; [|split]].
  - apply agree_eq. reflexivity.
  - apply agree_eq. destruct values as [|v [|w values]]; try reflexivity.
    unfold values_read, _compile_condition, legacy_variadic, structured.
    destruct v; reflexivity.
  - reflexivity.
  - reflexivity.
Qed.

(** C9 as first stated fails: with one value that is a list, the variadic
    form and the list form of the same values compile to filters that
    differ on a record. *)
Lemma variadic_single_list_differs :
  ~ (forall (reg : gmap string filter_cls) (field relation : value)
            (values : list value),
        agree (_compile_condition reg (legacy_variadic field relation values))
              (_compile_condition reg (legacy_list field relation (VList values)))).
Proof.
  intros H.
  specialize (H registered (VStr "tags") (VStr "is") [VList [VStr "a"]]).
  vm_compute in H. specialize (H [("tags", VStr "a")]). vm_compute in H.
  discriminate H.
Qed.

(** ** Unknown relations *)




Section UnknownRelation.

Variable reg : gmap string filter_cls.







End UnknownRelation.




(** ** Deep fields *)

Lemma span_app (p : ascii -> bool) (s : string) (c : ascii) (r : string) :
  p c = false ->
  span p (s +:+ String c r) = (fst (span p s), snd (span p s) +:+ String c r).
Proof.
  intros Hc. induction s as [|a s IH]; simpl.
  - rewrite Hc. reflexivity.
  - destruct (p a); [|reflexivity]. rewrite IH. reflexivity.
Qed.

(** What follows the third group of the pattern is not read. *)
Lemma _deep_lookup_re_more (field more : string) (g : string * string * string) :
  _deep_lookup_re field = Some g ->
  _deep_lookup_re (field +:+ "." +:+ more) = Some g.
Proof.
  unfold _deep_lookup_re.
  change ("." +:+ more) with (String "."%char more).
  rewrite (span_app is_word field "." more) by reflexivity.
  destruct (span is_word field) as [l r1]. simpl.
  destruct l as [|a l]; [discriminate|].
  destruct r1 as [|c1 r2]; [discriminate|]. simpl.
  destruct c1 as [[] [] [] [] [] [] [] []]; try discriminate.
  rewrite (span_app is_word r2 "." more) by reflexivity.
  destruct (span is_word r2) as [t r3]. simpl.
  destruct t as [|b t]; [discriminate|].
  destruct r3 as [|c3 r4]; [discriminate|]. simpl.
  destruct c3 as [[] [] [] [] [] [] [] []]; try discriminate.
  rewrite (span_app not_dot r4 "." more) by reflexivity. simpl.
  auto.
Qed.

Lemma eq_VStr_refl (s : string) : Py.eq (VStr s) (VStr s) = true.
Proof. simpl. apply String.eqb_refl. Qed.

(** C2, as amended.  On a record with no field of that very name: a path
    that begins with [local_field.LinkedType.remote_field] gives null when
    the link in [local_field] has another type than [LinkedType], and
    else the [remote_field] of the record the link resolves to; what
    follows [remote_field] is not read; a path that does not begin so is
    refused as malformed when one of its segments is empty, gives null when
    it has several segments, and is skipped when it has one. *)
Theorem deep_field_lookup :
  forall (sg : Shotgun) (d : entity) (field : string),
    d <> [] ->
    Py.get field d = None ->
    (forall l t deep link ty,
        _deep_lookup_re field = Some (l, t, deep) ->
        Py.get l d = Some (VDict link) ->
        Py.get "type" link = Some ty ->
        Py.eq ty (VStr t) = false ->
        _lookup_field sg (VDict d) field = Ok VNone) /\
    (forall l t deep link linked,
        _deep_lookup_re field = Some (l, t, deep) ->
        Py.get l d = Some (VDict link) ->
        Py.get "type" link = Some (VStr t) ->
        _resolve_link sg link = Ok (VDict linked) ->
        _lookup_field sg (VDict d) field = Ok (default VNone (Py.get deep linked))) /\
    (forall more g,
        _deep_lookup_re field = Some g ->
        _deep_lookup_re (field +:+ "." +:+ more) = Some g) /\
    (_deep_lookup_re field = None ->
     _lookup_field sg (VDict d) field =
     if existsb (fun x => String.eqb x "") (Py.split "." field)
     then Raise (ShotgunError "malformed field %r" [VStr field])
     else if (1 <? length (Py.split "." field))%nat then Ok VNone
          else Raise (KeyError (VStr field))).
Proof.
  intros sg d field Hne Hnone.
  assert (Ht : Py.truthy (VDict d) = true) by (destruct d; [congruence|reflexivity]).
  repeat split.
  - intros l t deep link ty Hre Hl Hty Hneq.
    unfold _lookup_field. rewrite Ht, Hnone, Hre, Hl. simpl.
    rewrite Hty. simpl. rewrite Hneq. reflexivity.
  - intros l t deep link linked Hre Hl Hty Hres.
    unfold _lookup_field. rewrite Ht, Hnone, Hre, Hl. cbn [negb].
    unfold Py.getitem. rewrite Hty. cbn [bind].
    rewrite eq_VStr_refl. cbn [negb]. rewrite Hres. reflexivity.
  - intros more g. apply _deep_lookup_re_more.
  - intros Hre. unfold _lookup_field. rewrite Ht, Hnone, Hre. reflexivity.
Qed.

Lemma deep_field_lookup_witness :
  _lookup_field one_shot_one_task (VDict task_of_shot_001) "entity.Asset.code"
  = Ok VNone /\
  _lookup_field one_shot_one_task (VDict task_of_shot_001) "entity.Shot.code"
  = Ok (VStr "001") /\
  _lookup_field one_shot_one_task (VDict task_of_shot_001) "entity.Shot"
  = Ok VNone.
Proof.
  assert (Hne : task_of_shot_001 <> []) by discriminate.
  split; [|split].
  - destruct (deep_field_lookup one_shot_one_task task_of_shot_001
                "entity.Asset.code" Hne eq_refl) as (H & _).
    apply (H "entity" "Asset" "code"
             [("type", VStr "Shot"); ("id", VInt 1)] (VStr "Shot"));
      reflexivity.
  - destruct (deep_field_lookup one_shot_one_task task_of_shot_001
                "entity.Shot.code" Hne eq_refl) as (_ & H & _).
    apply (H "entity" "Shot" "code"
             [("type", VStr "Shot"); ("id", VInt 1)] shot_001);
      reflexivity.
  - destruct (deep_field_lookup one_shot_one_task task_of_shot_001
                "entity.Shot" Hne eq_refl) as (_ & _ & _ & H).
    apply (H eq_refl).
Defined.

(** C2 as first stated fails: a path with a segment after the remote field
    is read as the path without it, and gives the remote field. *)
Lemma extra_segment_is_not_null :
  ~ (forall (sg : Shotgun) (d : entity) (field : string),
        (3 < length (Py.split "." field))%nat ->
        _lookup_field sg (VDict d) field = Ok VNone).
Proof.
  intros H.
  specialize (H one_shot_one_task task_of_shot_001 "entity.Shot.code.more").
  vm_compute in H. specialize (H (le_n 4)). discriminate H.
Qed.

(** ** Dictionaries *)

Section DictFacts.
Context {K V : Type} `{EqDecision K}.
Implicit Types (k : K) (v : V) (d : list (K * V)).

Lemma get_set_eq k v d : Py.get k (Py.set k v d) = Some v.
Proof.
  induction d as [|[k' v'] d IH]; simpl.
  - destruct (decide (k = k)); congruence.
  - destruct (decide (k' = k)) as [->|Hne]; simpl.
    + destruct (decide (k = k)); congruence.
    + destruct (decide (k' = k)); [congruence|exact IH].
Qed.

Lemma get_set_ne k k' v d : k <> k' -> Py.get k' (Py.set k v d) = Py.get k' d.
Proof.
  intros Hne. induction d as [|[k1 v1] d IH]; simpl.
  - destruct (decide (k = k')); congruence.
  - destruct (decide (k1 = k)) as [->|Hk]; simpl.
    + destruct (decide (k = k')); congruence.
    + destruct (decide (k1 = k')); [reflexivity|exact IH].
Qed.

Lemma get_remove_eq k d : Py.get k (Py.remove k d) = None.
Proof.
  induction d as [|[k' v'] d IH]; simpl; [reflexivity|].
  destruct (decide (k' = k)) as [->|Hne]; simpl; [exact IH|].
  destruct (decide (k' = k)); [congruence|exact IH].
Qed.

Lemma get_remove_ne k k' d : k <> k' -> Py.get k' (Py.remove k d) = Py.get k' d.
Proof.
  intros Hne. induction d as [|[k1 v1] d IH]; simpl; [reflexivity|].
  destruct (decide (k1 = k)) as [->|Hk]; simpl.
  - destruct (decide (k = k')); [congruence|exact IH].
  - destruct (decide (k1 = k')); [reflexivity|exact IH].
Qed.

Lemma set_absent k v d : Py.get k d = None -> Py.set k v d = d ++ [(k, v)].
Proof.
  induction d as [|[k' v'] d IH]; simpl; [reflexivity|].
  destruct (decide (k' = k)); [discriminate|]. intros H. rewrite IH; auto.
Qed.

Lemma remove_keys_ne k d : Forall (fun kv => fst kv <> k) (Py.remove k d).
Proof.
  induction d as [|[k' v'] d IH]; simpl; [constructor|].
  destruct (decide (k' = k)); [exact IH|]. constructor; auto.
Qed.

Lemma remove_Forall (P : K * V -> Prop) k d :
  Forall P d -> Forall P (Py.remove k d).
Proof.
  induction 1 as [|[k' v'] d HP Hd IH]; simpl; [constructor|].
  destruct (decide (k' = k)); [exact IH|]. constructor; auto.
Qed.

End DictFacts.

(** ** Queries *)

Lemma find_loop_total (sg : Shotgun) (fields : list string) (p : predicate)
    (recs : list entity) :
  Forall (fun e => is_ok (p e) = true) recs ->
  forall start limit : nat,
    find_loop sg fields (map (fun e => (e, p e)) recs) start limit =
    mapM (fun e => _minimal_copy sg (VDict e) fields)
         (firstn limit (skipn start (List.filter (holds p) recs))).
Proof.
  induction 1 as [|e recs He _ IH]; intros start limit.
  - destruct limit, start; reflexivity.
  - destruct limit as [|limit]; [reflexivity|].
    cbn [map find_loop List.filter]. unfold holds at 1.
    destruct (p e) as [[|]|]; [| |discriminate]; cbn [bind].
    + destruct start as [|start].
      * cbn [skipn firstn mapM]. rewrite (IH 0%nat limit). reflexivity.
      * cbn [skipn]. apply IH.
    + apply IH.
Qed.

Lemma page_offset (limit page : Z) :
  let limit' := Z.max 1 (Z.min 500 limit) in
  Z.to_nat (Z.max 0 (page - 1) * limit') = Z.to_nat ((page - 1) * limit').
Proof.
  intros limit'. assert (0 < limit') by (subst limit'; lia).
  destruct (Z.le_gt_cases 0 (page - 1)) as [Hp|Hp].
  - rewrite Z.max_r by lia. reflexivity.
  - rewrite Z.max_l by lia. simpl. symmetry. apply Z2Nat.nonpos. nia.
Qed.

Lemma minimal_copy_no_fields (n : nat) (sg : Shotgun) (e : entity) :
  is_Some (Py.get "type" e) -> is_Some (Py.get "id" e) ->
  minimal_copy_upto (S n) sg (VDict e) [] = Ok (minimal e).
Proof.
  intros [ty Hty] [i Hi]. unfold minimal. simpl.
  destruct e as [|kv e]; [discriminate|]. cbn [negb].
  rewrite Hty, Hi. reflexivity.
Qed.

Lemma _minimal_copy_no_fields (sg : Shotgun) (e : entity) :
  is_Some (Py.get "type" e) -> is_Some (Py.get "id" e) ->
  _minimal_copy sg (VDict e) [] = Ok (minimal e).
Proof.
  intros Ht Hi. unfold _minimal_copy.
  change recursion_limit with (S 999). apply minimal_copy_no_fields; assumption.
Qed.

Lemma mapM_minimal (sg : Shotgun) (es : list entity) :
  Forall (fun e => is_Some (Py.get "type" e) /\ is_Some (Py.get "id" e)) es ->
  mapM (fun e => _minimal_copy sg (VDict e) []) es = Ok (map minimal es).
Proof.
  induction 1 as [|e es [Ht Hi] _ IH]; simpl; [reflexivity|].
  rewrite _minimal_copy_no_fields, IH by assumption. reflexivity.
Qed.

Lemma forallb_is_dict_minimal (es : list entity) :
  forallb is_dict (map minimal es) = true.
Proof. induction es; simpl; auto. Qed.

Lemma carried_ids_values (es : list (Z * entity)) :
  carry_their_ids es ->
  Forall (fun e => is_Some (Py.get "type" e) /\ is_Some (Py.get "id" e))
         (Py.values es).
Proof.
  unfold carry_their_ids, Py.values. induction 1 as [|[i e] es [Hi Ht] _ IH];
    simpl; constructor; eauto.
Qed.

Lemma Forall_page {A} (P : A -> Prop) (f : A -> bool) (limit page : Z)
    (xs : list A) :
  Forall P xs -> Forall P (page_slice limit page (List.filter f xs)).
Proof.
  intros H. unfold page_slice. apply Forall_take, Forall_drop.
  rewrite List.Forall_forall in *. intros x Hx. apply filter_In in Hx.
  apply H, Hx.
Qed.

(** *** The order of the records *)

Lemma Permutation_filter {A} (f : A -> bool) (l l' : list A) :
  Permutation l l' -> Permutation (List.filter f l) (List.filter f l').
Proof.
  induction 1 as [|x l l' _ IH|x y l|l l' l'' _ IH1 _ IH2]; simpl.
  - constructor.
  - destruct (f x); [constructor|]; exact IH.
  - destruct (f x), (f y); try reflexivity. constructor.
  - etransitivity; eassumption.
Qed.

Lemma filter_listed {A} (f : A -> bool) (l l' found : list A) :
  Permutation l l' -> List.filter f l' = found -> (length found <= 1)%nat ->
  List.filter f l = found.
Proof.
  intros Hp <- Hlen. apply (Permutation_filter f) in Hp.
  destruct (List.filter f l') as [|x [|y rest]].
  - apply Permutation_nil. symmetry. exact Hp.
  - apply Permutation_length_1_inv. symmetry. exact Hp.
  - simpl in Hlen. lia.
Qed.

Lemma insert_by_slot_lists {V} (kv : Z * V) (d : list (Z * V)) :
  Permutation (Py.insert_by_slot kv d) (kv :: d).
Proof.
  induction d as [|kv' d IH]; simpl; [reflexivity|].
  destruct (Py.slot (fst kv) <? Py.slot (fst kv')); [reflexivity|].
  rewrite IH. constructor.
Qed.

(** The order by slot lists the records. *)
Lemma values_by_slot_lists : lists_the_records Py.values_by_slot.
Proof.
  intros es. unfold Py.values_by_slot, Py.values. apply Permutation_map.
  assert (H : forall acc : list (Z * entity),
            Permutation (fold_left (fun a kv => Py.insert_by_slot kv a) es acc)
                        (acc ++ es)).
  { induction es as [|kv es IH]; intros acc; simpl.
    - rewrite app_nil_r. reflexivity.
    - rewrite IH, insert_by_slot_lists. apply Permutation_middle. }
  exact (H []).
Qed.

(** [find] where the filter answers on every record. *)
Lemma find_page (reg : gmap string filter_cls)
    (dict_values : list (Z * entity) -> list entity) (sg : Shotgun)
    (entity_type : string) (filters : value) (fields : list string)
    (limit : Z) (retired_only : bool) (page : Z) (p : predicate) :
  let stored := records (if retired_only then _deleted sg else _store sg)
                        entity_type in
  _compile_filters reg filters = Ok p ->
  Forall (fun e => is_ok (p e) = true) (dict_values stored) ->
  find reg dict_values sg entity_type filters fields limit retired_only page =
    (res <- mapM (fun e => _minimal_copy sg (VDict e) fields)
                 (page_slice limit page
                    (List.filter (holds p) (dict_values stored))) ;;
     if forallb is_dict res then Ok res else Raise TypeError).
Proof.
  intros stored Hp Htotal. unfold find, filter_entities. rewrite Hp. cbn [bind].
  fold stored. rewrite page_offset.
  rewrite (find_loop_total sg fields p (dict_values stored) Htotal).
  reflexivity.
Qed.

(** [find] without fields, on records that carry their type and id. *)
Lemma find_page_minimal (reg : gmap string filter_cls)
    (dict_values : list (Z * entity) -> list entity) (sg : Shotgun)
    (entity_type : string) (filters : value) (limit : Z)
    (retired_only : bool) (page : Z) (p : predicate) :
  let stored := records (if retired_only then _deleted sg else _store sg)
                        entity_type in
  _compile_filters reg filters = Ok p ->
  Permutation (dict_values stored) (Py.values stored) ->
  Forall (fun e => is_ok (p e) = true) (Py.values stored) ->
  carry_their_ids stored ->
  find reg dict_values sg entity_type filters [] limit retired_only page =
    Ok (map minimal (page_slice limit page
                       (List.filter (holds p) (dict_values stored)))).
Proof.
  intros stored Hp Hperm Htotal Hids.
  rewrite (find_page reg dict_values sg entity_type filters [] limit
             retired_only page p Hp).
  - fold stored. rewrite mapM_minimal.
    + cbn [bind]. rewrite forallb_is_dict_minimal. reflexivity.
    + apply Forall_page. rewrite Hperm. apply carried_ids_values, Hids.
  - fold stored. rewrite Hperm. exact Htotal.
Qed.

(** C3, as amended.  When the filters compile and the filter answers on
    every record of the type in the selected store, [find] returns the
    minimal copies of one page of the records on which the filter holds,
    which are exactly those records, taken in the order in which the
    dictionary lists them: the page of [limit] records, the limit clamped
    to 1..500, at the offset [(page - 1) * limit]; without fields, on
    records that carry their type and id, these are the minimal forms.  Of
    five shots created one after the other, which a small dictionary lists
    as they were created, the second page of two holds the third and the
    fourth. *)
Theorem find_returns_page :
  forall (reg : gmap string filter_cls)
         (dict_values : list (Z * entity) -> list entity) (sg : Shotgun)
         (entity_type : string) (filters : value) (fields : list string)
         (limit : Z) (retired_only : bool) (page : Z) (p : predicate),
    let stored := records (if retired_only then _deleted sg else _store sg)
                          entity_type in
    let matching := List.filter (holds p) (dict_values stored) in
    _compile_filters reg filters = Ok p ->
    Permutation (dict_values stored) (Py.values stored) ->
    Forall (fun e => is_ok (p e) = true) (Py.values stored) ->
    Permutation matching (List.filter (holds p) (Py.values stored)) /\
    find reg dict_values sg entity_type filters fields limit retired_only page
    = (res <- mapM (fun e => _minimal_copy sg (VDict e) fields)
                   (page_slice limit page matching) ;;
       if forallb is_dict res then Ok res else Raise TypeError) /\
    (carry_their_ids stored ->
     find reg dict_values sg entity_type filters [] limit retired_only page =
       Ok (map minimal (page_slice limit page matching))) /\
    map (Py.get "code")
        (Py.values_by_slot (records (_store five_shots) "Shot")) =
      [Some (VStr "a"); Some (VStr "b"); Some (VStr "c"); Some (VStr "d");
       Some (VStr "e")] /\
    find registered Py.values_by_slot five_shots "Shot" (VList []) ["code"]
         2 false 2 =
      Ok [VDict [("type", VStr "Shot"); ("id", VInt 3); ("code", VStr "c")];
          VDict [("type", VStr "Shot"); ("id", VInt 4); ("code", VStr "d")]].
Proof.
  intros reg dict_values sg entity_type filters fields limit retired_only page
         p stored matching Hp Hperm Htotal.
  split; [apply Permutation_filter, Hperm|].
  split; [apply find_page; [exact Hp|fold stored; rewrite Hperm; exact Htotal]|].
  split; [|split; vm_compute; reflexivity].
  intros Hids. apply find_page_minimal; assumption.
Qed.

Lemma find_returns_page_witness :
  find registered Py.values_by_slot five_shots "Shot" (VList []) [] 2 false 2 =
  Ok (map minimal
        (page_slice 2 2
           (List.filter (holds (And []))
              (Py.values_by_slot (records (_store five_shots) "Shot"))))).
Proof.
  assert (Htotal : Forall (fun e => is_ok (And [] e) = true)
                     (Py.values (records (_store five_shots) "Shot"))).
  { apply List.Forall_forall. intros e _. reflexivity. }
  destruct (find_returns_page registered Py.values_by_slot five_shots "Shot"
              (VList []) [] 2 false 2 (And []) eq_refl
              (values_by_slot_lists _) Htotal) as (_ & _ & H & _).
  apply H. vm_compute. repeat constructor; eexists; reflexivity.
Defined.

(** C3 as first stated fails: the records are not scanned in the order
    of their insertion.  Of a shot created with the id 7 and then one with
    the id 3, the dictionary of Python 2 lists the second first, each in
    the slot of its id, and so does [find]: the first page of one holds
    the shot created last. *)
Lemma insertion_order_is_not_kept :
  Py.keys (records (_store seven_then_three) "Shot") = [7; 3] /\
  find registered Py.values_by_slot seven_then_three "Shot" (VList []) []
       500 false 1 =
    Ok [VDict [("type", VStr "Shot"); ("id", VInt 3)];
        VDict [("type", VStr "Shot"); ("id", VInt 7)]] /\
  find registered Py.values_by_slot seven_then_three "Shot" (VList []) []
       1 false 1 =
    Ok [VDict [("type", VStr "Shot"); ("id", VInt 3)]] /\
  ~ (forall (dict_values : list (Z * entity) -> list entity) (sg : Shotgun)
            (entity_type : string),
        lists_the_records dict_values ->
        carry_their_ids (records (_store sg) entity_type) ->
        find registered dict_values sg entity_type (VList []) [] 500 false 1 =
        Ok (map minimal (page_slice 500 1
                           (Py.values (records (_store sg) entity_type))))).
Proof.
  split; [vm_compute; reflexivity|].
  split; [vm_compute; reflexivity|].
  split; [vm_compute; reflexivity|].
  intros H.
  specialize (H Py.values_by_slot seven_then_three "Shot" values_by_slot_lists).
  assert (Hids : carry_their_ids (records (_store seven_then_three) "Shot")).
  { vm_compute. repeat constructor; eexists; reflexivity. }
  specialize (H Hids). vm_compute in H. discriminate H.
Qed.

(** ** Deleting and reviving *)

Lemma records_insert (store : gmap string (list (Z * entity)))
    (t : string) (es : list (Z * entity)) :
  records (<[t := es]> store) t = es.
Proof. unfold records. rewrite lookup_insert_eq. reflexivity. Qed.

Lemma id_is_compiles (i : Z) :
  exists p,
    _compile_filters registered (id_is i) = Ok p /\
    forall e, p e = Ok (Py.eq (VInt i) (default VNone (Py.get "id" e))).
Proof.
  eexists. split; [reflexivity|]. intros e. simpl.
  destruct (Py.get "id" e) as [v|]; simpl; [destruct v; simpl|];
    repeat match goal with
           | |- context [if ?c then _ else _] => destruct c
           end; reflexivity.
Qed.

Lemma filter_id_others (p : predicate) (i : Z) (es : list (Z * entity)) :
  (forall e, p e = Ok (Py.eq (VInt i) (default VNone (Py.get "id" e)))) ->
  carry_their_ids es ->
  Forall (fun ie => fst ie <> i) es ->
  List.filter (holds p) (Py.values es) = [].
Proof.
  intros Hp. unfold carry_their_ids.
  induction 1 as [|[j e] es [Hj _] _ IH]; intros Hne; [reflexivity|].
  inversion Hne as [|? ? Hji Hne']; subst. simpl in *.
  unfold holds at 1. rewrite Hp, Hj. simpl.
  destruct (Z.eqb_spec i j); [congruence|]. auto.
Qed.

Lemma filter_id_last (p : predicate) (i : Z) (es : list (Z * entity))
    (e : entity) :
  (forall e, p e = Ok (Py.eq (VInt i) (default VNone (Py.get "id" e)))) ->
  carry_their_ids es ->
  Forall (fun ie => fst ie <> i) es ->
  Py.get "id" e = Some (VInt i) ->
  List.filter (holds p) (Py.values (es ++ [(i, e)])) = [e].
Proof.
  intros Hp Hes Hne Hi. unfold Py.values. rewrite map_app, List.filter_app.
  fold (Py.values es). rewrite (filter_id_others p i es Hp Hes Hne).
  simpl. unfold holds. rewrite Hp, Hi. simpl. rewrite Z.eqb_refl. reflexivity.
Qed.

Section Lifecycle.

Variable dict_values : list (Z * entity) -> list entity.
Variable generate_for_create : Shotgun -> entity -> Shotgun.
Variable generate_for_delete : Shotgun -> entity -> Shotgun.
Variable generate_for_revive : Shotgun -> entity -> Shotgun.

(** C7.  On a server that generates no events, for a record of the live
    store, where the records of its type carry their ids, in whatever
    order the dictionary lists its records: [delete] answers
    true and moves the record to the deleted records, a second [delete]
    answers false and changes nothing, and [revive] then answers true and
    puts the record back, where [find] by its id finds it and nothing
    else. *)
Theorem delete_twice_then_revive :
  forall (sg : Shotgun) (entity_type : string) (entity_id : Z) (e : entity),
    lists_the_records dict_values ->
    _generate_events sg = false ->
    Py.get entity_id (records (_store sg) entity_type) = Some e ->
    carry_their_ids (records (_store sg) entity_type) ->
    let first := delete generate_for_delete sg entity_type entity_id in
    let second := delete generate_for_delete (fst first) entity_type entity_id in
    let third := revive generate_for_revive (fst second) entity_type entity_id in
    snd first = true /\
    Py.get entity_id (records (_store (fst first)) entity_type) = None /\
    Py.get entity_id (records (_deleted (fst first)) entity_type) = Some e /\
    snd second = false /\
    fst second = fst first /\
    snd third = true /\
    Py.get entity_id (records (_store (fst third)) entity_type) = Some e /\
    Py.get entity_id (records (_deleted (fst third)) entity_type) = None /\
    find registered dict_values (fst third) entity_type (id_is entity_id) []
         500 false 1
    = Ok [minimal e].
Proof.
  intros sg t i e Hlists Hev Hget Hids first second third.
  assert (Hi : Py.get "id" e = Some (VInt i) /\ is_Some (Py.get "type" e)).
  { clear -Hget Hids. unfold carry_their_ids in Hids.
    induction Hids as [|[j e'] es Hje _ IH]; simpl in *; [discriminate|].
    destruct (decide (j = i)) as [->|]; [|auto].
    injection Hget as <-. exact Hje. }
  destruct Hi as [Hi Hty].
  assert (Htruthy : Py.truthy (VDict e) = true).
  { destruct e; [discriminate|reflexivity]. }
  assert (E1 : first =
    (mkShotgun false
       (<[t := Py.remove i (records (_store sg) t)]> (_store sg)) (_ids sg)
       (<[t := Py.set i e (records (_deleted sg) t)]> (_deleted sg)), true)).
  { subst first. unfold delete. rewrite Hget, Htruthy.
    unfold with_deleted, with_store. simpl. rewrite Hev. reflexivity. }
  assert (E2 : second = (fst first, false)).
  { subst second. rewrite E1. unfold delete. simpl.
    rewrite records_insert, get_remove_eq. reflexivity. }
  assert (E3 : third =
    (mkShotgun false
       (<[t := Py.set i e (Py.remove i (records (_store sg) t))]>
          (<[t := Py.remove i (records (_store sg) t)]> (_store sg)))
       (_ids sg)
       (<[t := Py.remove i (Py.set i e (records (_deleted sg) t))]>
          (<[t := Py.set i e (records (_deleted sg) t)]> (_deleted sg))), true)).
  { subst third. rewrite E2, E1. unfold revive. cbn [fst _deleted].
    rewrite records_insert, get_set_eq, Htruthy.
    unfold store_record, with_deleted, with_store. simpl.
    rewrite records_insert. reflexivity. }
  rewrite E3, E2, E1. simpl. rewrite !records_insert.
  rewrite get_remove_eq, !get_set_eq, get_remove_eq.
  repeat split.
  destruct (id_is_compiles i) as (p & Hp & Hpe).
  assert (Htotal : forall es : list entity,
             Forall (fun e => is_ok (p e) = true) es).
  { intros es. apply List.Forall_forall. intros x _. rewrite Hpe. reflexivity. }
  match goal with
  | |- find _ _ ?s _ _ _ _ _ _ = _ =>
      pose proof (find_page_minimal registered dict_values s t (id_is i) 500
                    false 1 p Hp (Hlists _) (Htotal _)) as Hfind
  end.
  simpl in Hfind. rewrite records_insert in Hfind.
  rewrite (set_absent i e _ (get_remove_eq i _)) in Hfind |- *.
  rewrite Hfind.
  - rewrite (filter_listed (holds p) _ _ [e] (Hlists _)).
    + reflexivity.
    + apply (filter_id_last p i _ e Hpe); auto.
      * apply remove_Forall. exact Hids.
      * apply remove_keys_ne.
    + simpl. lia.
  - unfold carry_their_ids. apply Forall_app. split.
    + apply remove_Forall. exact Hids.
    + constructor; [|constructor]. simpl. auto.
Qed.

End Lifecycle.

Lemma delete_twice_then_revive_witness :
  let first := delete no_event five_shots "Shot" 3 in
  let second := delete no_event (fst first) "Shot" 3 in
  let third := revive no_event (fst second) "Shot" 3 in
  snd first = true /\
  Py.get 3 (records (_store (fst first)) "Shot") = None /\
  Py.get 3 (records (_deleted (fst first)) "Shot") = Some shot_c /\
  snd second = false /\
  fst second = fst first /\
  snd third = true /\
  Py.get 3 (records (_store (fst third)) "Shot") = Some shot_c /\
  Py.get 3 (records (_deleted (fst third)) "Shot") = None /\
  find registered Py.values_by_slot (fst third) "Shot" (id_is 3) [] 500 false 1
  = Ok [minimal shot_c].
Proof.
  apply (delete_twice_then_revive Py.values_by_slot no_event no_event
           five_shots "Shot" 3 shot_c).
  - exact values_by_slot_lists.
  - reflexivity.
  - vm_compute. reflexivity.
  - vm_compute. repeat constructor; eexists; reflexivity.
Defined.

(** ** Creating with an id *)

Section UpdateFacts.
Context {V : Type}.
Implicit Types (d items : list (string * V)).

Lemma set_Forall (Q : string * V -> Prop) (k : string) (v : V) d :
  Forall Q d -> Q (k, v) -> Forall Q (Py.set k v d).
Proof.
  intros Hd Hkv. induction Hd as [|[k' v'] d Hx Hd IH]; simpl.
  - constructor; auto.
  - destruct (decide (k' = k)); constructor; auto.
Qed.

Lemma update_Forall (Q : string * V -> Prop) d items :
  Forall Q d -> Forall Q items -> Forall Q (Py.update d items).
Proof.
  intros Hd Hitems. revert d Hd. unfold Py.update.
  induction Hitems as [|[k v] items Hkv _ IH]; intros d Hd; simpl; [exact Hd|].
  apply IH. apply set_Forall; assumption.
Qed.

Lemma get_Forall (Q : string * V -> Prop) (k : string) (v : V) d :
  Forall Q d -> Py.get k d = Some v -> Q (k, v).
Proof.
  induction 1 as [|[k' v'] d Hx _ IH]; simpl; [discriminate|].
  destruct (decide (k' = k)) as [->|]; [|exact IH].
  intros [= <-]. exact Hx.
Qed.

Lemma get_update (k : string) d items :
  is_Some (Py.get k items) \/ is_Some (Py.get k d) ->
  is_Some (Py.get k (Py.update d items)).
Proof.
  unfold Py.update. revert d.
  induction items as [|[k' v'] items IH]; intros d; simpl.
  - intros [[v [=]]|H]; exact H.
  - intros H. apply IH. destruct (decide (k' = k)) as [->|Hne].
    + right. rewrite get_set_eq. eauto.
    + destruct H as [H|H]; [left; exact H|right].
      rewrite get_set_ne by exact Hne. exact H.
Qed.

Lemma get_update_absent (k : string) d items :
  Py.get k items = None -> Py.get k (Py.update d items) = Py.get k d.
Proof.
  unfold Py.update. revert d.
  induction items as [|[k' v'] items IH]; intros d; simpl; [reflexivity|].
  destruct (decide (k' = k)) as [->|Hne]; [discriminate|].
  intros H. rewrite IH by exact H. apply get_set_ne. exact Hne.
Qed.

Lemma get_update_indep (k : string) items :
  is_Some (Py.get k items) ->
  forall d d', Py.get k (Py.update d items) = Py.get k (Py.update d' items).
Proof.
  induction items as [|[k' v'] items IH]; simpl; [intros [v [=]]|].
  intros Hk d d'.
  destruct (Py.get k items) as [v|] eqn:Hrest.
  - apply IH. eauto.
  - change (Py.get k (Py.update (Py.set k' v' d) items) =
            Py.get k (Py.update (Py.set k' v' d') items)).
    rewrite !get_update_absent by exact Hrest.
    destruct (decide (k' = k)) as [->|Hne].
    + rewrite !get_set_eq. reflexivity.
    + destruct Hk as [v [=]].
Qed.

Lemma get_keys (k : string) d : In k (Py.keys d) -> is_Some (Py.get k d).
Proof.
  induction d as [|[k' v'] d IH]; simpl; [tauto|].
  destruct (decide (k' = k)); [eauto|]. intros [?|H]; [congruence|auto].
Qed.

End UpdateFacts.

Lemma _reduce_links_scalar (sg : Shotgun) (v : value) :
  is_scalar v = true -> _reduce_links sg v = Ok v.
Proof. destruct v; simpl; (discriminate || reflexivity). Qed.

Lemma _reduce_links_scalars (sg : Shotgun) (d : entity) :
  Py.get "id" d = None ->
  Forall (fun kv => is_scalar (snd kv) = true) d ->
  _reduce_links sg (VDict d) = Ok (VDict (Py.update [] d)).
Proof.
  intros Hid Hd. simpl. unfold Py.contains at 2. rewrite Hid.
  rewrite andb_false_r.
  assert (E : mapM (fun kv : string * value =>
                      v <- _reduce_links sg (snd kv) ;; Ok (fst kv, v)) d = Ok d).
  { clear Hid. induction Hd as [|[k v] d Hv _ IH]; simpl; [reflexivity|].
    simpl in Hv. rewrite (_reduce_links_scalar sg v Hv). simpl.
    rewrite IH. reflexivity. }
  rewrite E. reflexivity.
Qed.

Lemma _lookup_field_present (sg : Shotgun) (e : entity) (field : string)
    (v : value) :
  Py.get field e = Some v -> _lookup_field sg (VDict e) field = Ok v.
Proof.
  intros H. unfold _lookup_field.
  destruct e; [discriminate|]. cbn [Py.truthy negb]. rewrite H. reflexivity.
Qed.

(** The minimal copy of a record with fields that hold scalars is made. *)
Lemma minimal_copy_scalar_fields (n : nat) (sg : Shotgun) (e : entity)
    (fields : list string) :
  is_Some (Py.get "type" e) -> is_Some (Py.get "id" e) ->
  Forall (fun f => exists v, Py.get f e = Some v /\ is_scalar v = true) fields ->
  is_ok (minimal_copy_upto (S n) sg (VDict e) fields) = true.
Proof.
  intros [ty Hty] [i Hi] Hfields. cbn [minimal_copy_upto].
  destruct e as [|kv e]; [discriminate|]. cbn [Py.truthy negb].
  unfold minimize, Py.getitem. rewrite Hty, Hi. cbn [bind].
  generalize [("type", ty); ("id", i)] as acc.
  induction Hfields as [|f fields (v & Hv & Hs) _ IH]; intros acc;
    [reflexivity|].
  rewrite (_lookup_field_present sg (kv :: e) f v Hv).
  destruct v; try discriminate Hs; cbn [is_entity]; apply IH.
Qed.

Section Create.

Variable generate_for_create : Shotgun -> entity -> Shotgun.

(** C10.  Where an id is among the deleted records of a type and not
    among the live ones, [create] with that id passes the check of the
    id, which reads the live records alone, and puts the new record in the
    store: whatever the data are, the id is then both live and deleted;
    and when the data hold scalars the call returns, on a server that
    generates no events. *)
Theorem create_with_deleted_id :
  forall (sg : Shotgun) (entity_type : string) (entity_id : Z) (data : entity)
         (created_at updated_at : value),
    _generate_events sg = false ->
    is_Some (Py.get entity_id (records (_deleted sg) entity_type)) ->
    Py.get entity_id (records (_store sg) entity_type) = None ->
    Py.get "id" data = Some (VInt entity_id) ->
    let out := create generate_for_create sg entity_type data []
                      created_at updated_at in
    snd (new_entity sg entity_type data created_at) =
      Ok (entity_id, [("type", VStr entity_type); ("id", VInt entity_id);
                      ("created_at", created_at)]) /\
    is_Some (Py.get entity_id (records (_store (fst out)) entity_type)) /\
    Py.get entity_id (records (_deleted (fst out)) entity_type) =
      Py.get entity_id (records (_deleted sg) entity_type) /\
    (Forall (fun kv => is_scalar (snd kv) = true) data ->
     is_ok (snd out) = true).
Proof.
  intros sg t i data c u Hev Hdel Hlive Hid out.
  assert (Hnew : new_entity sg t data c =
            (store_record
               (with_ids sg (<[t := Z.max i (last_id sg t)]> (_ids sg))) t i
               [("type", VStr t); ("id", VInt i); ("created_at", c)],
             Ok (i, [("type", VStr t); ("id", VInt i); ("created_at", c)]))).
  { unfold new_entity. rewrite Hid. unfold Py.contains. rewrite Hlive.
    reflexivity. }
  split; [rewrite Hnew; reflexivity|].
  set (e0 := [("type", VStr t); ("id", VInt i); ("created_at", c)]) in *.
  set (sg1 := store_record
                (with_ids sg (<[t := Z.max i (last_id sg t)]> (_ids sg))) t i e0)
    in *.
  set (e1' := Py.set "updated_at" u e0).
  set (sg2 := store_record sg1 t i e1').
  assert (Hcu : _create_or_update sg t None data c u =
            match _reduce_links sg2 (VDict (Py.remove "id" data)) with
            | Raise err => (sg2, Raise err)
            | Ok (VDict reduced) =>
                (store_record sg2 t i (Py.update e1' reduced),
                 Ok (i, Py.update e1' reduced))
            | Ok _ => (sg2, Raise TypeError)
            end).
  { unfold _create_or_update. rewrite Hnew. reflexivity. }
  assert (Hsg2 : _generate_events sg2 = false /\ _deleted sg2 = _deleted sg /\
                 is_Some (Py.get i (records (_store sg2) t))).
  { subst sg2 sg1. unfold store_record, with_store, with_ids. simpl.
    rewrite !records_insert, get_set_eq. eauto. }
  destruct Hsg2 as (Hev2 & Hdel2 & Hlive2).
  assert (Hstore : forall e, _generate_events (store_record sg2 t i e) = false /\
                     _deleted (store_record sg2 t i e) = _deleted sg /\
                     is_Some (Py.get i (records (_store (store_record sg2 t i e)) t))).
  { intros e. unfold store_record, with_store. simpl.
    rewrite records_insert, get_set_eq. eauto. }
  split; [|split].
  - subst out. unfold create. rewrite Hcu.
    destruct (_reduce_links sg2 (VDict (Py.remove "id" data))) as [[]|];
      cbn [fst]; try exact Hlive2.
    destruct (Hstore (Py.update e1' items)) as (Hev3 & _ & Hl3).
    rewrite Hev3. exact Hl3.
  - subst out. unfold create. rewrite Hcu.
    destruct (_reduce_links sg2 (VDict (Py.remove "id" data))) as [[]|];
      cbn [fst]; try (rewrite Hdel2; reflexivity).
    destruct (Hstore (Py.update e1' items)) as (Hev3 & Hd3 & _).
    rewrite Hev3, Hd3. reflexivity.
  - intros Hscalar. subst out. unfold create. rewrite Hcu.
    rewrite (_reduce_links_scalars sg2 (Py.remove "id" data)
               (get_remove_eq "id" data) (remove_Forall _ "id" data Hscalar)).
    destruct (Hstore (Py.update e1' (Py.update [] (Py.remove "id" data))))
      as (Hev3 & _ & _).
    rewrite Hev3. cbn [snd]. rewrite app_nil_r.
    unfold _minimal_copy. change recursion_limit with (S 999).
    assert (Hall : Forall (fun kv : string * value => is_scalar (snd kv) = true)
                     (Py.update [] (Py.remove "id" data))).
    { apply update_Forall; [constructor|].
      apply remove_Forall. exact Hscalar. }
    assert (Hkeep : forall k, is_Some (Py.get k e1') ->
              is_Some (Py.get k (Py.update e1' (Py.update [] (Py.remove "id" data))))).
    { intros k Hk. apply get_update. right. exact Hk. }
    apply minimal_copy_scalar_fields.
    + apply Hkeep. subst e1' e0. simpl. eauto.
    + apply Hkeep. subst e1' e0. simpl. eauto.
    + apply List.Forall_forall. intros k Hk.
      destruct (decide (k = "id")) as [->|Hne].
      * exists (VInt i). split; [|reflexivity].
        rewrite get_update_absent.
        -- subst e1' e0. reflexivity.
        -- rewrite get_update_absent by apply get_remove_eq. reflexivity.
      * assert (Hin : is_Some (Py.get k (Py.update [] (Py.remove "id" data)))).
        { apply get_update. left. rewrite get_remove_ne by congruence.
          apply get_keys. exact Hk. }
        rewrite (get_update_indep k _ Hin e1' []).
        assert (Hx : is_Some (Py.get k (Py.update []
                        (Py.update [] (Py.remove "id" data))))).
        { apply get_update. left. exact Hin. }
        destruct Hx as [v Hv]. exists v. split; [exact Hv|].
        assert (Hq : Forall (fun kv : string * value => is_scalar (snd kv) = true)
                       (Py.update [] (Py.update [] (Py.remove "id" data)))).
        { apply update_Forall; [constructor|exact Hall]. }
        apply (get_Forall _ k v _ Hq Hv).
Qed.

End Create.

Lemma create_with_deleted_id_witness :
  let data := [("id", VInt 3); ("code", VStr "again")] in
  let out := create no_event four_shots "Shot" data []
                    (VDatetime 2020 1 3 9 0 0 1) (VDatetime 2020 1 3 9 0 0 2) in
  snd (new_entity four_shots "Shot" data (VDatetime 2020 1 3 9 0 0 1)) =
    Ok (3, [("type", VStr "Shot"); ("id", VInt 3);
            ("created_at", VDatetime 2020 1 3 9 0 0 1)]) /\
  is_Some (Py.get 3 (records (_store (fst out)) "Shot")) /\
  Py.get 3 (records (_deleted (fst out)) "Shot") =
    Py.get 3 (records (_deleted four_shots) "Shot") /\
  (Forall (fun kv => is_scalar (snd kv) = true) data -> is_ok (snd out) = true).
Proof.
  apply (create_with_deleted_id no_event four_shots "Shot" 3
           [("id", VInt 3); ("code", VStr "again")]).
  - reflexivity.
  - vm_compute. eexists. reflexivity.
  - vm_compute. reflexivity.
  - reflexivity.
Defined.

(** ** Reducing links *)

(** Induction on a value and, in a container, on each value it holds. *)
Lemma value_nested_ind (P : value -> Prop) :
  P VNone ->
  (forall b, P (VBool b)) ->
  (forall n, P (VInt n)) ->
  (forall s, P (VStr s)) ->
  (forall y m d, P (VDate y m d)) ->
  (forall y m d hh mi ss us, P (VDatetime y m d hh mi ss us)) ->
  (forall xs, Forall P xs -> P (VList xs)) ->
  (forall xs, Forall P xs -> P (VTuple xs)) ->
  (forall d, Forall (fun kv => P (snd kv)) d -> P (VDict d)) ->
  forall v, P v.
Proof.
  intros HN HB HI HS HD HDT HL HT HM.
  fix IH 1. intros v.
  destruct v as [| | | | | |xs|xs|d];
    [apply HN|apply HB|apply HI|apply HS|apply HD|apply HDT| | |].
  - apply HL. induction xs as [|x xs IHxs]; constructor; [apply IH|exact IHxs].
  - apply HT. induction xs as [|x xs IHxs]; constructor; [apply IH|exact IHxs].
  - apply HM. induction d as [|[k x] d IHd]; constructor; [apply IH|exact IHd].
Qed.

Lemma mapM_ok {A B} (f : A -> result B) (xs : list A) :
  Forall (fun x => is_ok (f x) = true) xs -> is_ok (mapM f xs) = true.
Proof.
  induction 1 as [|x xs Hx _ IH]; simpl; [reflexivity|].
  destruct (f x); [|discriminate]. simpl.
  destruct (mapM f xs); [reflexivity|discriminate].
Qed.

Lemma bind_is_ok {A B} (r : result A) (k : A -> result B) :
  is_ok r = true -> (forall a, is_ok (k a) = true) -> is_ok (bind r k) = true.
Proof. destruct r; [simpl; auto|discriminate]. Qed.

(** What [_reduce_links] makes of a link. *)
Lemma _reduce_links_link (sg : Shotgun) (d : entity) (type_ id_ : value) :
  Py.get "type" d = Some type_ -> Py.get "id" d = Some id_ ->
  _reduce_links sg (VDict d) =
  (recs <- records_of (_store sg) type_ ;;
   o <- get_by_id recs id_ ;;
   Ok (match o with
       | Some _ => VDict [("type", type_); ("id", id_)]
       | None => VNone
       end)).
Proof.
  intros Ht Hi. cbn [_reduce_links]. unfold Py.contains. rewrite Ht, Hi.
  cbn [andb]. unfold _entity_exists. rewrite Ht, Hi.
  destruct (records_of (_store sg) type_) as [recs|]; [|reflexivity].
  cbn [bind]. destruct (get_by_id recs id_) as [[e|]|]; try reflexivity.
  cbn [bind negb].
  rewrite (_minimal_copy_no_fields sg d) by eauto.
  unfold minimal. rewrite Ht, Hi. reflexivity.
Qed.

Lemma _reduce_links_total (sg : Shotgun) (v : value) :
  links_hashable v = true -> is_ok (_reduce_links sg v) = true.
Proof.
  induction v as [| | | | | |xs IH|xs IH|d IH] using value_nested_ind;
    try reflexivity.
  - cbn [links_hashable _reduce_links]. intros H.
    apply bind_is_ok; [|reflexivity]. apply mapM_ok.
    rewrite forallb_forall in H. rewrite List.Forall_forall in *. auto.
  - cbn [links_hashable _reduce_links]. intros H.
    apply bind_is_ok; [|reflexivity]. apply mapM_ok.
    rewrite forallb_forall in H. rewrite List.Forall_forall in *. auto.
  - cbn [links_hashable]. unfold Py.contains.
    destruct (Py.get "type" d) as [type_|] eqn:Ht;
      [destruct (Py.get "id" d) as [id_|] eqn:Hi|]; cbn [andb default].
    + intros H. apply andb_prop in H as [Hht Hhi].
      rewrite (_reduce_links_link sg d type_ id_ Ht Hi).
      assert (R : is_ok (records_of (_store sg) type_) = true).
      { destruct type_; simpl in *; try reflexivity; try discriminate.
        rewrite Hht. reflexivity. }
      apply bind_is_ok; [exact R|]. intros recs.
      apply bind_is_ok; [|reflexivity].
      destruct id_; simpl in *; try reflexivity; try discriminate.
      rewrite Hhi. reflexivity.
    + intros H. cbn [_reduce_links]. unfold Py.contains. rewrite Ht, Hi.
      cbn [andb]. apply bind_is_ok; [|reflexivity]. apply mapM_ok.
      rewrite forallb_forall in H. rewrite List.Forall_forall in *.
      intros kv Hkv. apply bind_is_ok; [|reflexivity]. auto.
    + intros H. cbn [_reduce_links]. unfold Py.contains. rewrite Ht.
      cbn [andb]. apply bind_is_ok; [|reflexivity]. apply mapM_ok.
      rewrite forallb_forall in H. rewrite List.Forall_forall in *.
      intros kv Hkv. apply bind_is_ok; [|reflexivity]. auto.
Qed.

(** ** Snapshots: decimal numbers *)

Lemma digit_code (n : Z) :
  nat_of_ascii (Py.digit n) = (48 + Z.to_nat (n mod 10))%nat.
Proof.
  unfold Py.digit. apply nat_ascii_embedding.
  pose proof (Z.mod_pos_bound n 10 eq_refl). lia.
Qed.

Lemma is_digit_digit (n : Z) : Py.is_digit (Py.digit n) = true.
Proof.
  unfold Py.is_digit. rewrite digit_code.
  pose proof (Z.mod_pos_bound n 10 eq_refl).
  apply andb_true_intro. split; apply Nat.leb_le; lia.
Qed.

Lemma digit_val_digit (n : Z) : Py.digit_val (Py.digit n) = n mod 10.
Proof.
  unfold Py.digit_val. rewrite digit_code.
  pose proof (Z.mod_pos_bound n 10 eq_refl). lia.
Qed.

Lemma digit_not_newline (n : Z) : Ascii.eqb (Py.digit n) "010"%char = false.
Proof.
  apply Ascii.eqb_neq. intros E. apply (f_equal nat_of_ascii) in E.
  rewrite digit_code in E. change (nat_of_ascii "010"%char) with 10%nat in E.
  lia.
Qed.

Lemma append_cons (c : ascii) (s r : string) :
  String c s +:+ r = String c (s +:+ r).
Proof. reflexivity. Qed.

Lemma append_nil (r : string) : "" +:+ r = r.
Proof. reflexivity. Qed.

Lemma digits_zfill (w : nat) (n : Z) (rest : string) :
  digits w (Py.zfill w n +:+ rest) = Some (Py.zfill w n, rest).
Proof.
  induction w as [|w IH]; [reflexivity|].
  cbn [Py.zfill]. rewrite append_cons. cbn [digits].
  rewrite is_digit_digit, IH. reflexivity.
Qed.


Lemma fold_digits_zfill (w : nat) (n acc : Z) :
  fold_left (fun a c => a * 10 + Py.digit_val c)
            (list_ascii_of_string (Py.zfill w n)) acc
  = acc * 10 ^ Z.of_nat w + n mod 10 ^ Z.of_nat w.
Proof.
  revert acc. induction w as [|w IH]; intros acc.
  - simpl. rewrite Z.mod_1_r. lia.
  - cbn [Py.zfill list_ascii_of_string fold_left].
    rewrite IH, digit_val_digit.
    rewrite Nat2Z.inj_succ, Z.pow_succ_r by lia.
    assert (0 < 10 ^ Z.of_nat w) by (apply Z.pow_pos_nonneg; lia).
    rewrite (Z.mul_comm 10 (10 ^ Z.of_nat w)).
    rewrite (Z.rem_mul_r n (10 ^ Z.of_nat w) 10) by lia. lia.
Qed.

Lemma int_digits_zfill (w : nat) (n : Z) :
  0 <= n < 10 ^ Z.of_nat w -> Py.int_digits (Py.zfill w n) = n.
Proof.
  intros H. unfold Py.int_digits. rewrite fold_digits_zfill.
  rewrite Z.mod_small by exact H. lia.
Qed.



(** ** Snapshots: dates *)

Lemma char_cons (c : ascii) (s : string) : char c (String c s) = Some s.
Proof. unfold char. rewrite Ascii.eqb_refl. reflexivity. Qed.

Lemma days_in_month_le (y m : Z) : Py.days_in_month y m <= 31.
Proof.
  unfold Py.days_in_month.
  repeat match goal with |- context [if ?b then _ else _] => destruct b end; lia.
Qed.

Lemma valid_date_bounds (y m d : Z) :
  Py.valid_date y m d = true ->
  0 <= y < 10 ^ Z.of_nat 4 /\ 0 <= m < 10 ^ Z.of_nat 2 /\ 0 <= d < 10 ^ Z.of_nat 2.
Proof.
  unfold Py.valid_date. intros H.
  repeat (apply andb_prop in H as [H ?]).
  pose proof (days_in_month_le y m).
  change (10 ^ Z.of_nat 4) with 10000. change (10 ^ Z.of_nat 2) with 100. lia.
Qed.




Lemma append_assoc (a b c : string) : (a +:+ b) +:+ c = a +:+ (b +:+ c).
Proof.
  induction a as [|x a IH]; [reflexivity|].
  rewrite !append_cons, IH. reflexivity.
Qed.




(** ** Snapshots: documents *)

Section DistinctKeys.
Context {K V : Type} `{EqDecision K}.
Implicit Types (k : K) (d acc : list (K * V)).

Lemma get_not_in k d : ~ In k (Py.keys d) -> Py.get k d = None.
Proof.
  induction d as [|[k' v'] d IH]; simpl; [reflexivity|].
  intros H. destruct (decide (k' = k)); [tauto|]. apply IH. tauto.
Qed.


Lemma in_get k v d : NoDup (Py.keys d) -> In (k, v) d -> Py.get k d = Some v.
Proof.
  induction d as [|[k' v'] d IH]; simpl; [tauto|].
  intros Hnd. apply NoDup_cons in Hnd as [Hk Hnd].
  intros [[= -> ->]|Hin].
  - destruct (decide (k = k)); congruence.
  - destruct (decide (k' = k)) as [->|]; [|auto].
    exfalso. apply Hk. apply list_elem_of_In.
    apply (in_map fst) in Hin. exact Hin.
Qed.

(** Entries with keys that are new and distinct are added at the end. *)
Lemma update_distinct d acc :
  NoDup (Py.keys (acc ++ d)) -> Py.update acc d = acc ++ d.
Proof.
  revert acc. induction d as [|[k v] d IH]; intros acc Hnd.
  - simpl. rewrite app_nil_r. reflexivity.
  - change (Py.update acc ((k, v) :: d)) with (Py.update (Py.set k v acc) d).
    assert (Hk : ~ In k (Py.keys acc)).
    { unfold Py.keys in Hnd. rewrite map_app in Hnd.
      apply NoDup_app in Hnd as (_ & Hdis & _).
      intros Hin. apply (Hdis k); [apply list_elem_of_In; exact Hin|].
      simpl. left. }
    rewrite (set_absent k v acc (get_not_in k acc Hk)).
    rewrite IH; rewrite <- app_assoc; [reflexivity|exact Hnd].
Qed.

Lemma update_nil_distinct d : NoDup (Py.keys d) -> Py.update [] d = d.
Proof. intros H. apply (update_distinct d []). exact H. Qed.

End DistinctKeys.












(** ** Snapshots: the id counters *)

Lemma fold_max_spec (l : list Z) (i : Z) :
  (In (fold_left Z.max l i) (i :: l)) /\
  Forall (fun j => j <= fold_left Z.max l i) (i :: l).
Proof.
  revert i. induction l as [|a l IH]; intros i; simpl.
  - split; [auto|]. constructor; [lia|constructor].
  - destruct (IH (Z.max i a)) as [Hin Hall]. inversion Hall as [|? ? Hm Hl]; subst.
    split.
    + destruct Hin as [E|Hin]; [|auto].
      rewrite <- E.
      destruct (Z.max_spec i a) as [[_ E']|[_ E']]; rewrite E'; auto.
    + constructor; [lia|]. constructor; [lia|exact Hl].
Qed.

(** [max_id] is the largest id among the records. *)
Lemma max_id_spec (es : list (Z * entity)) (n : Z) :
  max_id es = Some n ->
  In n (Py.keys es) /\ Forall (fun i => i <= n) (Py.keys es).
Proof.
  unfold max_id. destruct (Py.keys es) as [|i l]; [discriminate|].
  intros [= <-]. apply fold_max_spec.
Qed.

Lemma loaded_ids (l : list (string * list (Z * entity))) (t : string) :
  NoDup (Py.keys l) ->
  forall ids : gmap string Z,
    fold_left (fun ids te => match max_id (snd te) with
                             | Some n => <[fst te := n]> ids
                             | None => ids
                             end) l ids !! t
    = match Py.get t l with
      | Some es => match max_id es with Some n => Some n | None => ids !! t end
      | None => ids !! t
      end.
Proof.
  induction l as [|[t' es] l IH]; intros Hnd ids; [reflexivity|].
  simpl in Hnd. apply NoDup_cons in Hnd as [Ht' Hnd].
  cbn [fold_left fst snd Py.get]. rewrite (IH Hnd).
  destruct (decide (t' = t)) as [->|Hne].
  - rewrite (get_not_in t l) by (rewrite <- list_elem_of_In; exact Ht').
    destruct (max_id es); [apply lookup_insert_eq|reflexivity].
  - destruct (Py.get t l) as [es'|].
    + destruct (max_id es'); [reflexivity|].
      destruct (max_id es); [apply lookup_insert_ne; exact Hne|reflexivity].
    + destruct (max_id es); [apply lookup_insert_ne; exact Hne|reflexivity].
Qed.


(** ** Snapshots: the round trip *)




(** A datetime on a full second is written without microseconds, and the
    loader, whose pattern lets them be absent, fails on the missing group:
    the dump of such a store does not load. *)
Lemma full_second_is_not_loaded :
  exists document,
    sgmock_json_dump full_second = Ok document /\
    sgmock_json_load full_second document = Raise TypeError.
Proof. eexists. split; vm_compute; reflexivity. Qed.

(** * Further properties *)

(** ** Conjunction and disjunction *)

(** X1.  When every filter of the list answers on the record, [And]
    answers whether all of them hold and [Or] whether one of them
    holds. *)
Theorem and_or_of_answers :
  forall (fs : list predicate) (e : entity),
    Forall (fun f => is_ok (f e) = true) fs ->
    And fs e = Ok (forallb (fun f => holds f e) fs) /\
    Or fs e = Ok (existsb (fun f => holds f e) fs).
Proof.
  intros fs e. induction 1 as [|f fs Hf _ [IHa IHo]]; [split; reflexivity|].
  cbn [And Or forallb existsb]. unfold holds at 1 3.
  destruct (f e) as [[|]|]; [| |discriminate]; cbn [bind andb orb]; auto.
Qed.

Lemma and_or_of_answers_witness :
  And [And []; Or []] shot_001 = Ok false /\
  Or [And []; Or []] shot_001 = Ok true.
Proof.
  apply (and_or_of_answers [And []; Or []] shot_001).
  repeat constructor.
Defined.

(** X2.  The first filter that fails decides a conjunction and the first
    that holds decides a disjunction: the filters after it are not called,
    so one of them that would raise does not. *)
Theorem and_or_stop_at_the_first :
  forall (fs gs : list predicate) (f : predicate) (e : entity),
    (Forall (fun g => g e = Ok true) fs -> f e = Ok false ->
     And (fs ++ f :: gs) e = Ok false) /\
    (Forall (fun g => g e = Ok false) fs -> f e = Ok true ->
     Or (fs ++ f :: gs) e = Ok true).
Proof.
  intros fs gs f e. split; intros Hfs Hf.
  - induction Hfs as [|g fs Hg _ IH]; cbn [app And].
    + rewrite Hf. reflexivity.
    + rewrite Hg. exact IH.
  - induction Hfs as [|g fs Hg _ IH]; cbn [app Or].
    + rewrite Hf. reflexivity.
    + rewrite Hg. exact IH.
Qed.

Lemma and_or_stop_at_the_first_witness :
  And ([And []] ++ Or [] :: [fun _ => Raise TypeError]) shot_001 = Ok false /\
  Or ([Or []] ++ And [] :: [fun _ => Raise TypeError]) shot_001 = Ok true.
Proof.
  split.
  - apply (and_or_stop_at_the_first [And []] [fun _ => Raise TypeError] (Or [])
             shot_001); [repeat constructor|reflexivity].
  - apply (and_or_stop_at_the_first [Or []] [fun _ => Raise TypeError] (And [])
             shot_001); [repeat constructor|reflexivity].
Defined.

(** ** The registered relations *)

(** X3.  [is_not] and [not_in] are the negations of [is] and [in]: on
    every record the condition answers the opposite, and raises, at
    compilation or on the record, exactly what the other raises. *)
Theorem negated_relations :
  forall (field : value) (values : list value) (e : entity),
    (p <- _compile_condition registered
            (structured field (VStr "is_not") (VList values)) ;; p e) =
    (p <- _compile_condition registered
            (structured field (VStr "is") (VList values)) ;;
     b <- p e ;; Ok (negb b)) /\
    (p <- _compile_condition registered
            (structured field (VStr "not_in") (VList values)) ;; p e) =
    (p <- _compile_condition registered
            (structured field (VStr "in") (VList values)) ;;
     b <- p e ;; Ok (negb b)).
Proof.
  intros field values e. split.
  - change (_compile_condition registered
              (structured field (VStr "is_not") (VList values)))
      with (NotWrap IsFilter field values).
    change (_compile_condition registered
              (structured field (VStr "is") (VList values)))
      with (IsFilter field values).
    unfold NotWrap. destruct (IsFilter field values); reflexivity.
  - change (_compile_condition registered
              (structured field (VStr "not_in") (VList values)))
      with (NotWrap InFilter field values).
    change (_compile_condition registered
              (structured field (VStr "in") (VList values)))
      with (InFilter field values).
    unfold NotWrap. destruct (InFilter field values); reflexivity.
Qed.

(** X4.  The relations that compare with one value are given exactly one:
    with none or with several the condition does not compile.  [in] and
    [not_in] take any number of values and compile exactly when each can
    be hashed. *)
Theorem relations_check_their_values :
  forall (field : value) (values : list value) (name : string),
    (In name ["is"; "is_not"; "less_than"; "greater_than"; "starts_with";
              "ends_with"] ->
     length values <> 1%nat ->
     _compile_condition registered (structured field (VStr name) (VList values))
     = Raise TypeError) /\
    (In name ["in"; "not_in"] ->
     is_ok (_compile_condition registered
              (structured field (VStr name) (VList values)))
     = forallb Py.hashable values).
Proof.
  intros field values name. split.
  - intros Hname Hlen. simpl in Hname.
    destruct values as [|v [|w values]]; [|simpl in Hlen; congruence|];
      repeat (destruct Hname as [<-|Hname]; [reflexivity|]); destruct Hname.
  - intros Hname. simpl in Hname.
    destruct Hname as [<-|[<-|[]]].
    + change (_compile_condition registered
                (structured field (VStr "in") (VList values)))
        with (InFilter field values).
      unfold InFilter. destruct (forallb Py.hashable values); reflexivity.
    + change (_compile_condition registered
                (structured field (VStr "not_in") (VList values)))
        with (NotWrap InFilter field values).
      unfold NotWrap, InFilter.
      destruct (forallb Py.hashable values); reflexivity.
Qed.

Lemma relations_check_their_values_witness :
  _compile_condition registered
    (structured (VStr "code") (VStr "starts_with") (VList [VStr "a"; VStr "b"]))
  = Raise TypeError /\
  is_ok (_compile_condition registered
           (structured (VStr "code") (VStr "in") (VList [VStr "a"; VList []])))
  = false.
Proof.
  split.
  - apply (relations_check_their_values (VStr "code") [VStr "a"; VStr "b"]
             "starts_with"); [simpl; tauto|discriminate].
  - apply (relations_check_their_values (VStr "code") [VStr "a"; VList []] "in").
    simpl. tauto.
Defined.

(** ** Operators *)

Lemma member_four (op a b c d : value) :
  Py.member op [a; b; c; d] = false ->
  Py.member op [a; b] = false /\ Py.member op [c; d] = false.
Proof.
  unfold Py.member. simpl. intros H.
  repeat (apply orb_false_elim in H as [? H]).
  split; repeat (apply orb_false_intro; auto).
Qed.

(** X5.  The operator of a group is checked before its conditions are
    looked at: one that is none of [any], [or], [all], [and] is refused
    whatever the conditions are.  [any] reads as [or] and [all] as [and],
    a legacy group without operator is an [and] group, and so is a bare
    list of conditions. *)
Theorem operator_is_checked_first :
  forall (reg : gmap string filter_cls) (op conditions : value)
         (xs : list value),
    (Py.member op [VStr "any"; VStr "or"; VStr "all"; VStr "and"] = false ->
     _compile_filters reg
       (VDict [("logical_operator", op); ("conditions", conditions)])
     = Raise (ValueError "Invalid filter_operator {}" [op]) /\
     _compile_filters reg
       (VDict [("filter_operator", op); ("filters", conditions)])
     = Raise (ValueError "Invalid filter_operator {}" [op])) /\
    _compile_filters reg
      (VDict [("filter_operator", VStr "any"); ("filters", conditions)])
    = _compile_filters reg
        (VDict [("logical_operator", VStr "or"); ("conditions", conditions)]) /\
    _compile_filters reg
      (VDict [("filter_operator", VStr "all"); ("filters", conditions)])
    = _compile_filters reg
        (VDict [("logical_operator", VStr "and"); ("conditions", conditions)]) /\
    _compile_filters reg (VDict [("filters", conditions)])
    = _compile_filters reg
        (VDict [("logical_operator", VStr "and"); ("conditions", conditions)]) /\
    _compile_filters reg (VList xs)
    = _compile_filters reg
        (VDict [("logical_operator", VStr "and"); ("conditions", VList xs)]).
Proof.
  intros reg op conditions xs. split; [|split; [|split; [|split]]].
  - intros H. apply member_four in H as [Hor Hand].
    rewrite !_compile_filters_eq. cbn [operator_and_conditions Py.get Py.getitem].
    simpl. unfold operator_class. rewrite Hor, Hand. auto.
  - rewrite !_compile_filters_eq. reflexivity.
  - rewrite !_compile_filters_eq. reflexivity.
  - rewrite !_compile_filters_eq. reflexivity.
  - rewrite !_compile_filters_eq. reflexivity.
Qed.

Lemma operator_is_checked_first_witness :
  _compile_filters registered
    (VDict [("logical_operator", VStr "AND"); ("conditions", VNone)])
  = Raise (ValueError "Invalid filter_operator {}" [VStr "AND"]).
Proof.
  destruct (operator_is_checked_first registered (VStr "AND") VNone [])
    as [H _].
  apply H. reflexivity.
Defined.

(** ** Dictionaries and stores *)

Section KeyFacts.
Context {K V : Type} `{EqDecision K}.
Implicit Types (k : K) (v : V) (d : list (K * V)).

Lemma set_Forall_key (Q : K * V -> Prop) k v d :
  Forall Q d -> Q (k, v) -> Forall Q (Py.set k v d).
Proof.
  intros Hd Hkv. induction Hd as [|[k' v'] d Hx Hd IH]; simpl.
  - constructor; auto.
  - destruct (decide (k' = k)); constructor; auto.
Qed.

Lemma get_Forall_key (Q : K * V -> Prop) k v d :
  Forall Q d -> Py.get k d = Some v -> Q (k, v).
Proof.
  induction 1 as [|[k' v'] d Hx _ IH]; simpl; [discriminate|].
  destruct (decide (k' = k)) as [->|]; [|exact IH].
  intros [= <-]. exact Hx.
Qed.

End KeyFacts.

Lemma records_insert_ne (store : gmap string (list (Z * entity)))
    (t t' : string) (es : list (Z * entity)) :
  t <> t' -> records (<[t := es]> store) t' = records store t'.
Proof. intros H. unfold records. rewrite lookup_insert_ne by exact H. reflexivity. Qed.

Lemma records_insert_Forall (Q : Z * entity -> Prop)
    (store : gmap string (list (Z * entity))) (t : string)
    (es : list (Z * entity)) :
  (forall t', Forall Q (records store t')) -> Forall Q es ->
  forall t', Forall Q (records (<[t := es]> store) t').
Proof.
  intros Hs Hes t'. destruct (decide (t = t')) as [<-|Hne].
  - rewrite records_insert. exact Hes.
  - rewrite records_insert_ne by exact Hne. apply Hs.
Qed.

(** The keys that reducing the links of a mapping leaves. *)
Lemma mapM_snd_get {A} (f : value -> result A) (k : string) (d : entity)
    (res : list (string * A)) :
  mapM (fun kv => v <- f (snd kv) ;; Ok (fst kv, v)) d = Ok res ->
  Py.get k d = None -> Py.get k res = None.
Proof.
  revert res. induction d as [|[k' v'] d IH]; simpl; intros res.
  - intros [= <-]. reflexivity.
  - destruct (f v') as [w|]; simpl; [|discriminate].
    destruct (mapM _ d) as [r|] eqn:E; simpl; [|discriminate].
    intros [= <-]. simpl. destruct (decide (k' = k)); [discriminate|].
    apply IH. reflexivity.
Qed.

Lemma _reduce_links_no_id (sg : Shotgun) (d reduced : entity) :
  Py.get "id" d = None ->
  _reduce_links sg (VDict d) = Ok (VDict reduced) ->
  Py.get "id" reduced = None.
Proof.
  intros Hid. simpl. unfold Py.contains at 2. rewrite Hid, andb_false_r.
  destruct (mapM _ d) as [res|] eqn:E; simpl; [|discriminate].
  intros [= <-]. rewrite get_update_absent; [reflexivity|].
  eapply mapM_snd_get; eauto.
Qed.

Section SetFacts.
Context {K V : Type} `{EqDecision K}.
Implicit Types (k : K) (v : V) (d : list (K * V)).

Lemma set_set k v v' d : Py.set k v' (Py.set k v d) = Py.set k v' d.
Proof.
  induction d as [|[k1 v1] d IH]; simpl.
  - destruct (decide (k = k)); congruence.
  - destruct (decide (k1 = k)) as [->|Hne]; simpl.
    + destruct (decide (k = k)); congruence.
    + destruct (decide (k1 = k)); [congruence|]. rewrite IH. reflexivity.
Qed.

End SetFacts.

Lemma with_ids_same (sg : Shotgun) : with_ids sg (_ids sg) = sg.
Proof. destruct sg; reflexivity. Qed.

Lemma store_record_twice (sg : Shotgun) (t : string) (i : Z) (e e' : entity) :
  store_record (store_record sg t i e) t i e' = store_record sg t i e'.
Proof.
  unfold store_record, with_store. simpl.
  rewrite records_insert, set_set, insert_insert_eq. reflexivity.
Qed.

(** What [_create_or_update] leaves behind, whether it returns or
    raises: the server as it was, or one record put in the store. *)
Lemma _create_or_update_shape (sg : Shotgun) (t : string) (oid : option Z)
    (data : entity) (c u : value) :
  let out := _create_or_update sg t oid data c u in
  (fst out = sg /\ is_ok (snd out) = false /\
   match oid with
   | None =>
       match Py.get "id" data with
       | Some (VInt n) => is_Some (Py.get n (records (_store sg) t))
       | Some _ => True
       | None => False
       end
   | Some j => Py.get j (records (_store sg) t) = None
   end) \/
  exists (i : Z) (e0 e : entity) (ids : gmap string Z),
    fst out = store_record (with_ids sg ids) t i e /\
    Py.get "id" e = Py.get "id" e0 /\
    (forall r, snd out = Ok r -> r = (i, e)) /\
    record_in_hand sg t oid data c i e0 ids.
Proof.
  intros out. subst out. unfold _create_or_update.
  assert (Hrest : forall (sg1 : Shotgun) (i : Z) (e0 : entity),
    let e1 := Py.set "updated_at" u e0 in
    let sg2 := store_record sg1 t i e1 in
    let out := match _reduce_links sg2 (VDict (Py.remove "id" data)) with
               | Raise err => (sg2, Raise err)
               | Ok (VDict reduced) =>
                   (store_record sg2 t i (Py.update e1 reduced),
                    Ok (i, Py.update e1 reduced))
               | Ok _ => (sg2, Raise TypeError)
               end in
    exists e, fst out = store_record sg1 t i e /\
              Py.get "id" e = Py.get "id" e0 /\
              (forall r, snd out = Ok r -> r = (i, e))).
  { intros sg1 i e0 e1 sg2 out.
    assert (H1 : Py.get "id" e1 = Py.get "id" e0).
    { subst e1. apply get_set_ne. discriminate. }
    subst out.
    destruct (_reduce_links sg2 (VDict (Py.remove "id" data))) as [v|err] eqn:E.
    - destruct v; try (exists e1; cbn [fst snd]; split; [reflexivity|];
                       split; [exact H1|]; intros r [=]).
      exists (Py.update e1 items). cbn [fst snd]. subst sg2.
      rewrite store_record_twice. split; [reflexivity|]. split.
      + rewrite get_update_absent; [exact H1|].
        eapply _reduce_links_no_id; [|exact E]. apply get_remove_eq.
      + intros r [= <-]. reflexivity.
    - exists e1. cbn [fst snd]. split; [reflexivity|]. split; [exact H1|].
      intros r [=]. }
  destruct oid as [j|].
  - destruct (Py.get j (records (_store sg) t)) as [e0|] eqn:Hget.
    + right. destruct (Hrest sg j e0) as (e & Hfst & Hid & Hsnd).
      exists j, e0, e, (_ids sg). rewrite with_ids_same.
      split; [exact Hfst|split; [exact Hid|split; [exact Hsnd|]]].
      split; [reflexivity|split; [reflexivity|exact Hget]].
    + left. split; [reflexivity|split; reflexivity].
  - unfold new_entity.
    destruct (Py.get "id" data) as [v|] eqn:Hid.
    + destruct v; try (left; split; [reflexivity|split; [reflexivity|exact I]]).
      unfold Py.contains.
      destruct (Py.get n (records (_store sg) t)) eqn:Hlive;
        [left; split; [reflexivity|split; [reflexivity|simpl; eauto]]|].
      right.
      set (e0 := [("type", VStr t); ("id", VInt n); ("created_at", c)]).
      destruct (Hrest (store_record
                  (with_ids sg (<[t := Z.max n (last_id sg t)]> (_ids sg))) t n e0)
                  n e0) as (e & Hfst & Hide & Hsnd).
      exists n, e0, e, (<[t := Z.max n (last_id sg t)]> (_ids sg)).
      rewrite (store_record_twice _ t n e0 e) in Hfst.
      split; [exact Hfst|split; [exact Hide|split; [exact Hsnd|]]].
      split; [reflexivity|split; [reflexivity|right]].
      split; [exact Hid|exact Hlive].
    + right.
      set (n := last_id sg t + 1).
      set (e0 := [("type", VStr t); ("id", VInt n); ("created_at", c)]).
      destruct (Hrest (store_record
                  (with_ids sg (<[t := Z.max n (last_id sg t)]> (_ids sg))) t n e0)
                  n e0) as (e & Hfst & Hide & Hsnd).
      exists n, e0, e, (<[t := Z.max n (last_id sg t)]> (_ids sg)).
      rewrite (store_record_twice _ t n e0 e) in Hfst.
      split; [exact Hfst|split; [exact Hide|split; [exact Hsnd|]]].
      split; [reflexivity|split; [reflexivity|left]].
      split; [exact Hid|reflexivity].
Qed.

(** ** The stores of the scenarios *)

Lemma one_shot_one_task_records (t : string) :
  records (_store one_shot_one_task) t =
  if decide (t = "Task") then [(1, task_of_shot_001)]
  else if decide (t = "Shot") then [(1, shot_001)] else [].
Proof.
  unfold records, one_shot_one_task. cbn [_store].
  destruct (decide (t = "Task")) as [->|Ht]; [rewrite lookup_insert_eq; reflexivity|].
  rewrite lookup_insert_ne by congruence.
  destruct (decide (t = "Shot")) as [->|Hs].
  - rewrite lookup_singleton_eq. reflexivity.
  - rewrite lookup_singleton_ne by congruence. reflexivity.
Qed.

Lemma one_shot_one_task_kept : well_kept one_shot_one_task.
Proof.
  split; intros t.
  - rewrite one_shot_one_task_records.
    destruct (decide (t = "Task")); [repeat constructor|].
    destruct (decide (t = "Shot")); repeat constructor.
  - unfold records, one_shot_one_task. cbn [_deleted]. rewrite lookup_empty.
    constructor.
Qed.

Lemma one_shot_one_task_bound : counters_bound one_shot_one_task.
Proof.
  split; intros t.
  - rewrite one_shot_one_task_records. unfold last_id, one_shot_one_task.
    cbn [_ids].
    destruct (decide (t = "Task")) as [->|Ht].
    + rewrite lookup_insert_eq. constructor; [simpl; lia|constructor].
    + rewrite lookup_insert_ne by congruence.
      destruct (decide (t = "Shot")) as [->|Hs]; [|constructor].
      rewrite lookup_singleton_eq. constructor; [simpl; lia|constructor].
  - unfold records, one_shot_one_task. cbn [_deleted]. rewrite lookup_empty.
    constructor.
Qed.

(** ** What the calls leave behind *)

Lemma _create_or_update_events (sg : Shotgun) (t : string) (oid : option Z)
    (data : entity) (c u : value) :
  _generate_events (fst (_create_or_update sg t oid data c u)) =
  _generate_events sg.
Proof.
  destruct (_create_or_update_shape sg t oid data c u)
    as [(-> & _)|(i & e0 & e & ids & -> & _)]; reflexivity.
Qed.

Section Quiet.

Variable generate_for_create : Shotgun -> entity -> Shotgun.
Variable generate_for_update : Shotgun -> entity -> option entity -> entity -> Shotgun.
Variable generate_for_delete : Shotgun -> entity -> Shotgun.
Variable generate_for_revive : Shotgun -> entity -> Shotgun.

(** On a server that generates no events, [create] and [update] leave
    the server that [_create_or_update] leaves. *)
Lemma create_fst (sg : Shotgun) (t : string) (data : entity)
    (rf : list string) (c u : value) :
  _generate_events sg = false ->
  fst (create generate_for_create sg t data rf c u) =
  fst (_create_or_update sg t None data c u).
Proof.
  intros Hev. pose proof (_create_or_update_events sg t None data c u) as H.
  unfold create.
  destruct (_create_or_update sg t None data c u) as [sg1 [[i e]|err]];
    cbn [fst] in *; [|reflexivity].
  rewrite H, Hev. reflexivity.
Qed.

Lemma update_fst (sg : Shotgun) (t : string) (i : Z) (data : entity)
    (u : value) :
  _generate_events sg = false ->
  fst (update generate_for_update sg t i data u) =
  fst (_create_or_update sg t (Some i) data VNone u).
Proof.
  intros Hev. pose proof (_create_or_update_events sg t (Some i) data VNone u) as H.
  unfold update.
  destruct (_create_or_update sg t (Some i) data VNone u) as [sg1 [[j e]|err]];
    cbn [fst] in *; [|reflexivity].
  rewrite H, Hev. reflexivity.
Qed.

Lemma delete_shape (sg : Shotgun) (t : string) (i : Z) :
  _generate_events sg = false ->
  match Py.get i (records (_store sg) t) with
  | None => delete generate_for_delete sg t i = (sg, false)
  | Some e =>
      _store (fst (delete generate_for_delete sg t i)) =
        <[t := Py.remove i (records (_store sg) t)]> (_store sg) /\
      _ids (fst (delete generate_for_delete sg t i)) = _ids sg /\
      _generate_events (fst (delete generate_for_delete sg t i)) = false /\
      (_deleted (fst (delete generate_for_delete sg t i)) = _deleted sg \/
       _deleted (fst (delete generate_for_delete sg t i)) =
         <[t := Py.set i e (records (_deleted sg) t)]> (_deleted sg))
  end.
Proof.
  intros Hev. unfold delete.
  destruct (Py.get i (records (_store sg) t)) as [e|]; [|reflexivity].
  destruct (Py.truthy (VDict e)); cbn [fst _store _ids _deleted with_store
    with_deleted _generate_events]; rewrite ?Hev; cbn [_store _ids _deleted
    _generate_events]; auto.
Qed.

Lemma revive_shape (sg : Shotgun) (t : string) (i : Z) :
  _generate_events sg = false ->
  match Py.get i (records (_deleted sg) t) with
  | None => revive generate_for_revive sg t i = (sg, false)
  | Some e =>
      _deleted (fst (revive generate_for_revive sg t i)) =
        <[t := Py.remove i (records (_deleted sg) t)]> (_deleted sg) /\
      _ids (fst (revive generate_for_revive sg t i)) = _ids sg /\
      _generate_events (fst (revive generate_for_revive sg t i)) = false /\
      (_store (fst (revive generate_for_revive sg t i)) = _store sg \/
       _store (fst (revive generate_for_revive sg t i)) =
         <[t := Py.set i e (records (_store sg) t)]> (_store sg))
  end.
Proof.
  intros Hev. unfold revive.
  destruct (Py.get i (records (_deleted sg) t)) as [e|]; [|reflexivity].
  destruct (Py.truthy (VDict e)); cbn [fst _store _ids _deleted with_store
    with_deleted store_record _generate_events]; rewrite ?Hev; cbn [_store _ids
    _deleted _generate_events]; auto.
Qed.

End Quiet.

(** ** Records and their ids *)

Lemma kept_store_record (sg : Shotgun) (t : string) (i : Z) (e : entity) :
  well_kept sg -> Py.get "id" e = Some (VInt i) ->
  well_kept (store_record sg t i e).
Proof.
  intros [Hs Hd] He. split; [|exact Hd].
  unfold store_record, kept_under_ids. cbn [_store with_store].
  apply records_insert_Forall; [exact Hs|].
  apply set_Forall_key; [apply Hs|exact He].
Qed.

Lemma kept_get (store : gmap string (list (Z * entity))) (t : string) (i : Z)
    (e : entity) :
  kept_under_ids store -> Py.get i (records store t) = Some e ->
  Py.get "id" e = Some (VInt i).
Proof.
  intros H Hget.
  exact (get_Forall_key (fun ie => Py.get "id" (snd ie) = Some (VInt (fst ie)))
           i e _ (H t) Hget).
Qed.

Lemma kept__create_or_update (sg : Shotgun) (t : string) (oid : option Z)
    (data : entity) (c u : value) :
  well_kept sg -> well_kept (fst (_create_or_update sg t oid data c u)).
Proof.
  intros Hk.
  destruct (_create_or_update_shape sg t oid data c u)
    as [(-> & _)|(i & e0 & e & ids & -> & Hid & _ & Hhand)]; [exact Hk|].
  apply kept_store_record; [exact Hk|]. rewrite Hid.
  destruct oid as [j|]; cbn [record_in_hand] in Hhand.
  - destruct Hhand as (_ & _ & Hget). destruct Hk as [Hs _].
    exact (kept_get _ t i e0 Hs Hget).
  - destruct Hhand as (-> & _). reflexivity.
Qed.

Section Kept.

Variable generate_for_create : Shotgun -> entity -> Shotgun.
Variable generate_for_update : Shotgun -> entity -> option entity -> entity -> Shotgun.
Variable generate_for_delete : Shotgun -> entity -> Shotgun.
Variable generate_for_revive : Shotgun -> entity -> Shotgun.

(** X6.  A record is kept under its own id, live or deleted, and no call
    changes that on a server that generates no events: [create] and
    [update] whatever the data are, an [id] among them included, and
    whether they return or raise, [delete] and [revive]. *)
Theorem records_stay_under_their_ids :
  forall (sg : Shotgun) (entity_type : string) (entity_id : Z) (data : entity)
         (return_fields : list string) (created_at updated_at : value),
    _generate_events sg = false ->
    well_kept sg ->
    well_kept (fst (create generate_for_create sg entity_type data
                           return_fields created_at updated_at)) /\
    well_kept (fst (update generate_for_update sg entity_type entity_id data
                           updated_at)) /\
    well_kept (fst (delete generate_for_delete sg entity_type entity_id)) /\
    well_kept (fst (revive generate_for_revive sg entity_type entity_id)).
Proof.
  intros sg t i data rf c u Hev Hk. split; [|split; [|split]].
  - rewrite create_fst by exact Hev. apply kept__create_or_update, Hk.
  - rewrite update_fst by exact Hev. apply kept__create_or_update, Hk.
  - pose proof (delete_shape generate_for_delete sg t i Hev) as H.
    destruct (Py.get i (records (_store sg) t)) as [e|] eqn:Hget;
      [|rewrite H; exact Hk].
    destruct H as (Hs & _ & _ & Hd). destruct Hk as [Hks Hkd].
    split.
    + rewrite Hs. intros t'; apply records_insert_Forall; [exact Hks|].
      apply remove_Forall, Hks.
    + destruct Hd as [->| ->]; [exact Hkd|].
      intros t'; apply records_insert_Forall; [exact Hkd|].
      apply set_Forall_key; [apply Hkd|]. exact (kept_get _ t i e Hks Hget).
  - pose proof (revive_shape generate_for_revive sg t i Hev) as H.
    destruct (Py.get i (records (_deleted sg) t)) as [e|] eqn:Hget;
      [|rewrite H; exact Hk].
    destruct H as (Hd & _ & _ & Hs). destruct Hk as [Hks Hkd].
    split.
    + destruct Hs as [->| ->]; [exact Hks|].
      intros t'; apply records_insert_Forall; [exact Hks|].
      apply set_Forall_key; [apply Hks|]. exact (kept_get _ t i e Hkd Hget).
    + rewrite Hd. intros t'; apply records_insert_Forall; [exact Hkd|].
      apply remove_Forall, Hkd.
Qed.

End Kept.

Lemma records_stay_under_their_ids_witness :
  let quiet := fun (sg : Shotgun) (_ : entity) (_ : option entity)
                   (_ : entity) => sg in
  let data := [("id", VInt 7); ("code", VStr "002")] in
  let noon := VDatetime 2020 1 2 12 0 0 1 in
  well_kept (fst (create no_event one_shot_one_task "Shot" data [] noon noon)) /\
  well_kept (fst (update quiet one_shot_one_task "Shot" 1 data noon)) /\
  well_kept (fst (delete no_event one_shot_one_task "Shot" 1)) /\
  well_kept (fst (revive no_event one_shot_one_task "Shot" 1)).
Proof.
  intros quiet data noon.
  apply (records_stay_under_their_ids no_event quiet no_event no_event
           one_shot_one_task "Shot" 1 data [] noon noon).
  - reflexivity.
  - exact one_shot_one_task_kept.
Defined.

(** ** Counters *)

Lemma last_id_with_ids (sg : Shotgun) (t t' : string) (n : Z) :
  last_id (with_ids sg (<[t := n]> (_ids sg))) t' =
  if decide (t = t') then n else last_id sg t'.
Proof.
  unfold last_id, with_ids. cbn [_ids].
  destruct (decide (t = t')) as [<-|Hne].
  - rewrite lookup_insert_eq. reflexivity.
  - rewrite lookup_insert_ne by exact Hne. reflexivity.
Qed.

Lemma bounded_insert (bound : string -> Z)
    (store : gmap string (list (Z * entity))) (t : string)
    (es : list (Z * entity)) :
  (forall t', Forall (fun ie => fst ie <= bound t') (records store t')) ->
  Forall (fun ie => fst ie <= bound t) es ->
  forall t', Forall (fun ie => fst ie <= bound t') (records (<[t := es]> store) t').
Proof.
  intros Hs Hes t'. destruct (decide (t = t')) as [<-|Hne].
  - rewrite records_insert. exact Hes.
  - rewrite records_insert_ne by exact Hne. apply Hs.
Qed.

Lemma bounded_raise (bound bound' : string -> Z)
    (store : gmap string (list (Z * entity))) :
  (forall t, bound t <= bound' t) ->
  (forall t, Forall (fun ie => fst ie <= bound t) (records store t)) ->
  forall t, Forall (fun ie => fst ie <= bound' t) (records store t).
Proof.
  intros Hle H t. eapply Forall_impl; [apply H|].
  intros ie Hie. simpl in *. specialize (Hle t). lia.
Qed.

Lemma bound_store_record (sg : Shotgun) (t : string) (i : Z) (e : entity) :
  counters_bound sg -> i <= last_id sg t ->
  counters_bound (store_record sg t i e).
Proof.
  intros [Hs Hd] Hi. split; [|exact Hd].
  unfold store_record, ids_bounded. cbn [_store with_store].
  apply (bounded_insert (last_id sg)); [exact Hs|].
  apply set_Forall_key; [apply Hs|exact Hi].
Qed.

Lemma bound_with_ids (sg : Shotgun) (t : string) (n : Z) :
  counters_bound sg -> last_id sg t <= n ->
  counters_bound (with_ids sg (<[t := n]> (_ids sg))).
Proof.
  intros [Hs Hd] Hn.
  assert (Hle : forall t', last_id sg t' <=
                           last_id (with_ids sg (<[t := n]> (_ids sg))) t').
  { intros t'. rewrite last_id_with_ids.
    destruct (decide (t = t')) as [<-|]; lia. }
  split.
  - exact (bounded_raise _ _ _ Hle Hs).
  - exact (bounded_raise _ _ _ Hle Hd).
Qed.

Lemma bound_get (sg : Shotgun) (store : gmap string (list (Z * entity)))
    (t : string) (i : Z) (e : entity) :
  ids_bounded sg store -> Py.get i (records store t) = Some e ->
  i <= last_id sg t.
Proof.
  intros H Hget.
  exact (get_Forall_key (fun ie => fst ie <= last_id sg t) i e _ (H t) Hget).
Qed.

Lemma bound_fresh (sg : Shotgun) (store : gmap string (list (Z * entity)))
    (t : string) (i : Z) :
  ids_bounded sg store -> last_id sg t < i -> Py.get i (records store t) = None.
Proof.
  intros H Hi. destruct (Py.get i (records store t)) as [e|] eqn:Hget;
    [|reflexivity].
  pose proof (bound_get sg store t i e H Hget). lia.
Qed.

Lemma bound__create_or_update (sg : Shotgun) (t : string) (oid : option Z)
    (data : entity) (c u : value) :
  counters_bound sg ->
  let sg' := fst (_create_or_update sg t oid data c u) in
  counters_bound sg' /\ forall t', last_id sg t' <= last_id sg' t'.
Proof.
  intros Hb sg'. subst sg'.
  destruct (_create_or_update_shape sg t oid data c u)
    as [(-> & _)|(i & e0 & e & ids & -> & _ & _ & Hhand)];
    [split; [exact Hb|intros; lia]|].
  destruct oid as [j|]; cbn [record_in_hand] in Hhand.
  - destruct Hhand as (_ & -> & Hget). rewrite with_ids_same. split.
    + apply bound_store_record; [exact Hb|].
      destruct Hb as [Hs _]. exact (bound_get sg _ t i e0 Hs Hget).
    + intros t'. reflexivity.
  - destruct Hhand as (_ & -> & _). split.
    + apply bound_store_record.
      * apply bound_with_ids; [exact Hb|lia].
      * rewrite last_id_with_ids. destruct (decide (t = t)); [lia|congruence].
    + intros t'.
      change (last_id (store_record ?s _ _ _) t') with (last_id s t').
      rewrite last_id_with_ids. destruct (decide (t = t')) as [<-|]; lia.
Qed.

Section Bound.

Variable generate_for_create : Shotgun -> entity -> Shotgun.
Variable generate_for_update : Shotgun -> entity -> option entity -> entity -> Shotgun.
Variable generate_for_delete : Shotgun -> entity -> Shotgun.
Variable generate_for_revive : Shotgun -> entity -> Shotgun.

(** X7.  Where the counter of each type is not below the ids of the
    type, live or deleted, every call keeps it so on a server that
    generates no events, and lowers no counter: [create], [update],
    [delete], [revive], and [clear], which keeps the counters. *)
Theorem counters_bound_the_ids :
  forall (sg : Shotgun) (entity_type : string) (entity_id : Z) (data : entity)
         (return_fields : list string) (created_at updated_at : value),
    _generate_events sg = false ->
    counters_bound sg ->
    let keeps (sg' : Shotgun) :=
      counters_bound sg' /\ forall t : string, last_id sg t <= last_id sg' t in
    keeps (fst (create generate_for_create sg entity_type data
                       return_fields created_at updated_at)) /\
    keeps (fst (update generate_for_update sg entity_type entity_id data
                       updated_at)) /\
    keeps (fst (delete generate_for_delete sg entity_type entity_id)) /\
    keeps (fst (revive generate_for_revive sg entity_type entity_id)) /\
    keeps (clear sg).
Proof.
  intros sg t i data rf c u Hev Hb keeps. subst keeps. cbv beta.
  split; [|split; [|split; [|split]]].
  - rewrite create_fst by exact Hev. apply bound__create_or_update, Hb.
  - rewrite update_fst by exact Hev. apply bound__create_or_update, Hb.
  - pose proof (delete_shape generate_for_delete sg t i Hev) as H.
    destruct (Py.get i (records (_store sg) t)) as [e|] eqn:Hget;
      [|rewrite H; split; [exact Hb|intros; reflexivity]].
    destruct H as (Hs & Hids & _ & Hd).
    assert (Hlast : forall t', last_id (fst (delete generate_for_delete sg t i)) t'
                               = last_id sg t').
    { intros t'. unfold last_id. rewrite Hids. reflexivity. }
    destruct Hb as [Hbs Hbd]. split; [split|intros t'; rewrite Hlast; lia].
    + unfold ids_bounded. intros t'. rewrite Hlast. revert t'. rewrite Hs.
      apply (bounded_insert (last_id sg)); [exact Hbs|].
      apply remove_Forall, Hbs.
    + unfold ids_bounded. intros t'. rewrite Hlast. revert t'.
      destruct Hd as [->| ->]; [exact Hbd|].
      apply (bounded_insert (last_id sg)); [exact Hbd|].
      apply set_Forall_key; [apply Hbd|]. exact (bound_get sg _ t i e Hbs Hget).
  - pose proof (revive_shape generate_for_revive sg t i Hev) as H.
    destruct (Py.get i (records (_deleted sg) t)) as [e|] eqn:Hget;
      [|rewrite H; split; [exact Hb|intros; reflexivity]].
    destruct H as (Hd & Hids & _ & Hs).
    assert (Hlast : forall t', last_id (fst (revive generate_for_revive sg t i)) t'
                               = last_id sg t').
    { intros t'. unfold last_id. rewrite Hids. reflexivity. }
    destruct Hb as [Hbs Hbd]. split; [split|intros t'; rewrite Hlast; lia].
    + unfold ids_bounded. intros t'. rewrite Hlast. revert t'.
      destruct Hs as [->| ->]; [exact Hbs|].
      apply (bounded_insert (last_id sg)); [exact Hbs|].
      apply set_Forall_key; [apply Hbs|]. exact (bound_get sg _ t i e Hbd Hget).
    + unfold ids_bounded. intros t'. rewrite Hlast. revert t'. rewrite Hd.
      apply (bounded_insert (last_id sg)); [exact Hbd|].
      apply remove_Forall, Hbd.
  - split; [|intros; reflexivity].
    split; intros t'; unfold clear, records; cbn; rewrite lookup_empty;
      constructor.
Qed.

Lemma create_fresh (sg : Shotgun) (t : string) (data : entity)
    (rf : list string) (c u : value) :
  _generate_events sg = false ->
  Py.get "id" data = None ->
  let n := last_id sg t + 1 in
  let sg' := fst (create generate_for_create sg t data rf c u) in
  (exists e, Py.get n (records (_store sg') t) = Some e /\
             Py.get "id" e = Some (VInt n)) /\
  last_id sg' t = n /\
  (forall (t' : string) (i : Z),
     (t', i) <> (t, n) ->
     Py.get i (records (_store sg') t') = Py.get i (records (_store sg) t')) /\
  _deleted sg' = _deleted sg.
Proof.
  intros Hev Hid n sg'. subst sg'. rewrite create_fst by exact Hev.
  destruct (_create_or_update_shape sg t None data c u)
    as [(_ & _ & Hbad)|(i & e0 & e & ids & -> & Hide & _ & Hhand)].
  - rewrite Hid in Hbad. contradiction.
  - cbn [record_in_hand] in Hhand.
    destruct Hhand as (-> & -> & [[_ ->]|[Hid' _]]); [|congruence].
    fold n. split; [|split; [|split]].
    + exists e. split; [|rewrite Hide; reflexivity].
      unfold store_record. cbn [_store with_store with_ids].
      rewrite records_insert. apply get_set_eq.
    + change (last_id (store_record ?s _ _ _) t) with (last_id s t).
      rewrite last_id_with_ids. destruct (decide (t = t)); [lia|congruence].
    + intros t' j Hne. unfold store_record. cbn [_store with_store with_ids].
      destruct (decide (t = t')) as [<-|Ht].
      * rewrite records_insert. apply get_set_ne. congruence.
      * rewrite records_insert_ne by exact Ht. reflexivity.
    + reflexivity.
Qed.

(** X8.  Where the counters bound the ids, [create] without an id in the
    data takes the id after the counter, which no record of the type has,
    live or deleted: the record is put under it, the counter moves to it,
    and every other record stays as it was, whether the call returns or
    raises while it reduces the data. *)
Theorem create_takes_a_fresh_id :
  forall (sg : Shotgun) (entity_type : string) (data : entity)
         (return_fields : list string) (created_at updated_at : value),
    _generate_events sg = false ->
    counters_bound sg ->
    Py.get "id" data = None ->
    let new_id := last_id sg entity_type + 1 in
    let sg' := fst (create generate_for_create sg entity_type data
                           return_fields created_at updated_at) in
    Py.get new_id (records (_store sg) entity_type) = None /\
    Py.get new_id (records (_deleted sg) entity_type) = None /\
    (exists e, Py.get new_id (records (_store sg') entity_type) = Some e /\
               Py.get "id" e = Some (VInt new_id)) /\
    last_id sg' entity_type = new_id /\
    (forall (t : string) (i : Z),
       (t, i) <> (entity_type, new_id) ->
       Py.get i (records (_store sg') t) = Py.get i (records (_store sg) t)) /\
    _deleted sg' = _deleted sg.
Proof.
  intros sg t data rf c u Hev [Hbs Hbd] Hid n sg'.
  split; [apply (bound_fresh sg); [exact Hbs|subst n; lia]|].
  split; [apply (bound_fresh sg); [exact Hbd|subst n; lia]|].
  exact (create_fresh sg t data rf c u Hev Hid).
Qed.

Section Clear.

Variable reg : gmap string filter_cls.
Variable dict_values : list (Z * entity) -> list entity.

(** X9.  [clear] empties the server and keeps the counters: a query
    then finds nothing, in whatever order the dictionary lists its
    records, and raises only what the filters raise when they are
    compiled, and on a server that generates no events the next record
    created takes the id after the last one given before. *)
Theorem clear_keeps_the_counters :
  forall (sg : Shotgun) (entity_type : string) (filters : value)
         (fields : list string) (limit : Z) (retired_only : bool) (page : Z)
         (data : entity) (return_fields : list string)
         (created_at updated_at : value),
    (lists_the_records dict_values ->
     find reg dict_values (clear sg) entity_type filters fields limit
          retired_only page =
       (_ <- _compile_filters reg filters ;; Ok [])) /\
    (_generate_events sg = false ->
     Py.get "id" data = None ->
     let new_id := last_id sg entity_type + 1 in
     let sg' := fst (create generate_for_create (clear sg) entity_type data
                            return_fields created_at updated_at) in
     (exists e, Py.get new_id (records (_store sg') entity_type) = Some e /\
                Py.get "id" e = Some (VInt new_id)) /\
     last_id sg' entity_type = new_id).
Proof.
  intros sg t filters fields limit r page data rf c u. split.
  - intros Hlists. unfold find, filter_entities.
    replace (records (if r then _deleted (clear sg) else _store (clear sg)) t)
      with (@nil (Z * entity))
      by (destruct r; unfold records, clear; cbn; rewrite lookup_empty;
          reflexivity).
    rewrite (Permutation_nil (Permutation_sym (Hlists []))).
    destruct (_compile_filters reg filters) as [p|]; cbn [bind]; [|reflexivity].
    cbn [map find_loop].
    destruct (Z.to_nat (Z.max 1 (Z.min 500 limit))); reflexivity.
  - intros Hev Hid n sg'.
    destruct (create_fresh (clear sg) t data rf c u Hev Hid)
      as (He & Hlast & _).
    split; [exact He|exact Hlast].
Qed.

End Clear.

End Bound.

Lemma counters_bound_the_ids_witness :
  let quiet := fun (sg : Shotgun) (_ : entity) (_ : option entity)
                   (_ : entity) => sg in
  let data := [("id", VInt 7); ("code", VStr "002")] in
  let noon := VDatetime 2020 1 2 12 0 0 1 in
  let keeps (sg' : Shotgun) :=
    counters_bound sg' /\
    forall t : string, last_id one_shot_one_task t <= last_id sg' t in
  keeps (fst (create no_event one_shot_one_task "Shot" data [] noon noon)) /\
  keeps (fst (update quiet one_shot_one_task "Shot" 1 data noon)) /\
  keeps (fst (delete no_event one_shot_one_task "Shot" 1)) /\
  keeps (fst (revive no_event one_shot_one_task "Shot" 1)) /\
  keeps (clear one_shot_one_task).
Proof.
  intros quiet data noon.
  apply (counters_bound_the_ids no_event quiet no_event no_event
           one_shot_one_task "Shot" 1 data [] noon noon).
  - reflexivity.
  - exact one_shot_one_task_bound.
Defined.

Lemma create_takes_a_fresh_id_witness :
  let data := [("code", VStr "002")] in
  let noon := VDatetime 2020 1 2 12 0 0 1 in
  let sg' := fst (create no_event one_shot_one_task "Shot" data [] noon noon) in
  Py.get 2 (records (_store one_shot_one_task) "Shot") = None /\
  Py.get 2 (records (_deleted one_shot_one_task) "Shot") = None /\
  (exists e, Py.get 2 (records (_store sg') "Shot") = Some e /\
             Py.get "id" e = Some (VInt 2)) /\
  last_id sg' "Shot" = 2 /\
  (forall (t : string) (i : Z),
     (t, i) <> ("Shot", 2) ->
     Py.get i (records (_store sg') t) =
     Py.get i (records (_store one_shot_one_task) t)) /\
  _deleted sg' = _deleted one_shot_one_task.
Proof.
  intros data noon.
  apply (create_takes_a_fresh_id no_event one_shot_one_task "Shot" data []
           noon noon).
  - reflexivity.
  - exact one_shot_one_task_bound.
  - reflexivity.
Defined.

Lemma clear_keeps_the_counters_witness :
  let data := [("code", VStr "002")] in
  let noon := VDatetime 2020 1 2 12 0 0 1 in
  let sg' := fst (create no_event (clear one_shot_one_task) "Shot" data []
                         noon noon) in
  find registered Py.values_by_slot (clear one_shot_one_task) "Shot" (VList [])
       [] 500 false 1 = Ok [] /\
  (exists e, Py.get 2 (records (_store sg') "Shot") = Some e /\
             Py.get "id" e = Some (VInt 2)) /\
  last_id sg' "Shot" = 2.
Proof.
  intros data noon.
  destruct (clear_keeps_the_counters no_event registered Py.values_by_slot
              one_shot_one_task "Shot" (VList []) [] 500 false 1 data []
              noon noon) as [Hfind Hnext].
  split.
  - exact (Hfind values_by_slot_lists).
  - apply Hnext; reflexivity.
Defined.

(** ** Updating, and finding *)

Section Update.

Variable generate_for_update : Shotgun -> entity -> option entity -> entity -> Shotgun.
Variable generate_for_delete : Shotgun -> entity -> Shotgun.


End Update.



Lemma find_loop_length (sg : Shotgun) (fields : list string)
    (entities : list (entity * result bool)) (start limit : nat)
    (res : list value) :
  find_loop sg fields entities start limit = Ok res ->
  (length res <= limit)%nat.
Proof.
  revert start limit res.
  induction entities as [|[e test] rest IH]; intros start limit res.
  - destruct limit; intros [= <-]; simpl; lia.
  - destruct limit as [|limit]; [intros [= <-]; simpl; lia|].
    cbn [find_loop]. destruct test as [[|]|]; cbn [bind]; [| |discriminate].
    + destruct start as [|start]; [|apply IH].
      destruct (_minimal_copy sg (VDict e) fields) as [m|]; cbn [bind];
        [|discriminate].
      destruct (find_loop sg fields rest 0 limit) as [ms|] eqn:E; cbn [bind];
        [|discriminate].
      intros [= <-]. apply IH in E. simpl. lia.
    + apply IH.
Qed.

Lemma find_loop_first (sg : Shotgun) (fields : list string)
    (entities : list (entity * result bool)) (limit : nat) (res : list value) :
  find_loop sg fields entities 0 (S limit) = Ok res ->
  find_loop sg fields entities 0 1 = Ok (firstn 1 res).
Proof.
  revert res. induction entities as [|[e test] rest IH]; intros res.
  - intros [= <-]. reflexivity.
  - cbn [find_loop]. destruct test as [[|]|]; cbn [bind]; [| |discriminate].
    + destruct (_minimal_copy sg (VDict e) fields) as [m|]; cbn [bind];
        [|discriminate].
      destruct (find_loop sg fields rest 0 limit) as [ms|]; cbn [bind];
        [|discriminate].
      intros [= <-]. destruct rest as [|[? ?] ?]; reflexivity.
    + apply IH.
Qed.

Section Find.

Variable reg : gmap string filter_cls.
Variable dict_values : list (Z * entity) -> list entity.

(** X11.  [find] reads its limit as at least 1 and at most 500 and a
    page below 1 as the first page, and it never returns more records
    than that limit. *)
Theorem find_clamps_limit_and_page :
  forall (sg : Shotgun) (entity_type : string) (filters : value)
         (fields : list string) (limit : Z) (retired_only : bool) (page : Z),
    find reg dict_values sg entity_type filters fields limit retired_only page
    = find reg dict_values sg entity_type filters fields
           (Z.max 1 (Z.min 500 limit)) retired_only (Z.max 1 page) /\
    forall res,
      find reg dict_values sg entity_type filters fields limit retired_only
           page = Ok res ->
      Z.of_nat (length res) <= Z.max 1 (Z.min 500 limit).
Proof.
  intros sg t filters fields limit r page. split.
  - unfold find.
    replace (Z.max 1 (Z.min 500 (Z.max 1 (Z.min 500 limit))))
      with (Z.max 1 (Z.min 500 limit)) by lia.
    replace (Z.max 0 (Z.max 1 page - 1)) with (Z.max 0 (page - 1)) by lia.
    reflexivity.
  - intros res. unfold find.
    destruct (filter_entities reg filters _) as [ents|]; cbn [bind];
      [|discriminate].
    destruct (find_loop sg fields ents _ _) as [res'|] eqn:E; cbn [bind];
      [|discriminate].
    destruct (forallb is_dict res'); [|discriminate].
    intros [= <-]. apply find_loop_length in E. lia.
Qed.

(** X12.  [find_one] returns the first record of the first page of
    [find], whatever the limit of that page, and [None] when the page is
    empty. *)
Theorem find_one_is_the_first_found :
  forall (sg : Shotgun) (entity_type : string) (filters : value)
         (fields : list string) (limit : Z) (retired_only : bool)
         (res : list value),
    find reg dict_values sg entity_type filters fields limit retired_only 1
    = Ok res ->
    find_one reg dict_values sg entity_type filters fields retired_only =
    Ok (hd VNone res).
Proof.
  intros sg t filters fields limit r res. unfold find_one, find.
  destruct (filter_entities reg filters _) as [ents|]; cbn [bind];
    [|discriminate].
  change (Z.to_nat (Z.max 0 (1 - 1) * Z.max 1 (Z.min 500 1))) with 0%nat.
  change (Z.to_nat (Z.max 1 (Z.min 500 1))) with 1%nat.
  replace (Z.to_nat (Z.max 0 (1 - 1) * Z.max 1 (Z.min 500 limit))) with 0%nat
    by lia.
  destruct (Z.to_nat (Z.max 1 (Z.min 500 limit))) as [|n] eqn:En; [lia|].
  destruct (find_loop sg fields ents 0 (S n)) as [res'|] eqn:E; cbn [bind];
    [|discriminate].
  apply find_loop_first in E. rewrite E. cbn [bind].
  destruct (forallb is_dict res') eqn:Hd; [|discriminate].
  intros [= <-]. destruct res' as [|x xs]; [reflexivity|].
  simpl in Hd. apply andb_prop in Hd as [Hx _]. simpl. rewrite Hx. reflexivity.
Qed.

End Find.

Lemma find_clamps_limit_and_page_witness :
  Z.of_nat (length [minimal shot_001]) <= Z.max 1 (Z.min 500 0).
Proof.
  refine (proj2 (find_clamps_limit_and_page registered Py.values_by_slot
                   one_shot_one_task "Shot" (VList []) [] 0 false 1)
                [minimal shot_001] _).
  vm_compute. reflexivity.
Defined.

Lemma find_one_is_the_first_found_witness :
  find_one registered Py.values_by_slot one_shot_one_task "Shot" (VList [])
           ["code"] false =
  Ok (hd VNone [VDict [("type", VStr "Shot"); ("id", VInt 1);
                       ("code", VStr "001")]]).
Proof.
  apply (find_one_is_the_first_found registered Py.values_by_slot
           one_shot_one_task "Shot" (VList []) ["code"] 500 false).
  vm_compute. reflexivity.
Defined.

(** ** Batches *)

Section Batch.

Variable generate_for_create : Shotgun -> entity -> Shotgun.
Variable generate_for_update : Shotgun -> entity -> option entity -> entity -> Shotgun.
Variable generate_for_delete : Shotgun -> entity -> Shotgun.

Lemma batch_loop_length (requests : list entity) (utcnow : nat -> value) :
  forall (sg sg' : Shotgun) (tick : nat) (responses : list value),
    batch_loop generate_for_create generate_for_update generate_for_delete
      sg requests utcnow tick = (sg', Ok responses) ->
    length responses = length requests.
Proof.
  induction requests as [|request rest IH]; intros sg sg' tick responses.
  - intros [= _ <-]. reflexivity.
  - cbn [batch_loop].
    destruct (batch_request _ _ _ sg request utcnow tick)
      as [[sg1 [response|err]] tick1]; [|discriminate].
    destruct (batch_loop _ _ _ sg1 rest utcnow tick1) as [sg2 [rs|err]] eqn:E;
      [|discriminate].
    intros [= _ <-]. simpl. f_equal. exact (IH _ _ _ _ E).
Qed.

(** X13.  [batch] answers with one response for each request and never
    with an empty list: without requests it raises, with the server as it
    was. *)
Theorem batch_answers_each_request :
  forall (sg : Shotgun) (requests : list entity) (utcnow : nat -> value),
    batch generate_for_create generate_for_update generate_for_delete
      sg [] utcnow =
      (sg, Raise (ShotgunError "batch must have at least one request" [])) /\
    forall (sg' : Shotgun) (responses : list value),
      batch generate_for_create generate_for_update generate_for_delete
        sg requests utcnow = (sg', Ok responses) ->
      requests <> [] /\ length responses = length requests.
Proof.
  intros sg requests utcnow. split; [reflexivity|].
  intros sg' responses. unfold batch.
  destruct (batch_loop _ _ _ sg requests utcnow 0) as [sg1 [rs|err]] eqn:E;
    [|discriminate].
  destruct rs as [|r rs]; [discriminate|].
  intros [= <- <-]. apply batch_loop_length in E.
  split; [|exact E]. intros ->. discriminate E.
Qed.

Lemma batch_loop_stops (utcnow : nat -> value) (pre : list entity) :
  forall (sg sg1 : Shotgun) (tick : nat) (responses : list value),
    batch_loop generate_for_create generate_for_update generate_for_delete
      sg pre utcnow tick = (sg1, Ok responses) ->
    exists tick1 : nat,
      forall (failing : entity) (rest : list entity) (sg2 : Shotgun)
             (err : exn) (tick2 : nat),
        batch_request generate_for_create generate_for_update
          generate_for_delete sg1 failing utcnow tick1 =
          (sg2, Raise err, tick2) ->
        batch_loop generate_for_create generate_for_update generate_for_delete
          sg (pre ++ failing :: rest) utcnow tick = (sg2, Raise err).
Proof.
  induction pre as [|request pre IH]; intros sg sg1 tick responses.
  - intros [= <- _]. exists tick. intros failing rest sg2 err tick2 H.
    cbn [app batch_loop]. rewrite H. reflexivity.
  - cbn [batch_loop app].
    destruct (batch_request _ _ _ sg request utcnow tick)
      as [[sg' [response|err]] tick']; [|discriminate].
    destruct (batch_loop _ _ _ sg' pre utcnow tick') as [sg'' [rs|err]] eqn:E;
      [|discriminate].
    intros [= <- _]. destruct (IH _ _ _ _ E) as [tick1 H1].
    exists tick1. intros failing rest sg2 err tick2 H.
    rewrite (H1 failing rest sg2 err tick2 H). reflexivity.
Qed.

(** X14.  [batch] has no transactions: when the requests before one are
    served and that one fails, at the reading of the clock that they left,
    the batch raises what it raised and the server stays as these
    requests left it; the requests after it are not looked at. *)
Theorem batch_stops_at_the_first_failure :
  forall (sg sg1 : Shotgun) (served : list entity) (utcnow : nat -> value)
         (responses : list value),
    batch_loop generate_for_create generate_for_update generate_for_delete
      sg served utcnow 0 = (sg1, Ok responses) ->
    exists tick : nat,
      forall (failing : entity) (rest : list entity) (sg2 : Shotgun)
             (err : exn) (tick' : nat),
        batch_request generate_for_create generate_for_update
          generate_for_delete sg1 failing utcnow tick =
          (sg2, Raise err, tick') ->
        batch generate_for_create generate_for_update generate_for_delete
          sg (served ++ failing :: rest) utcnow = (sg2, Raise err).
Proof.
  intros sg sg1 served utcnow responses H.
  destruct (batch_loop_stops utcnow served sg sg1 0 responses H) as [tick Ht].
  exists tick. intros failing rest sg2 err tick' Hf.
  unfold batch. rewrite (Ht failing rest sg2 err tick' Hf). reflexivity.
Qed.

End Batch.

Lemma batch_answers_each_request_witness :
  let quiet := fun (sg : Shotgun) (_ : entity) (_ : option entity)
                   (_ : entity) => sg in
  let requests := [fixture.delete_request (VStr "Shot", VInt 1);
                   fixture.delete_request (VStr "Shot", VInt 1)] in
  requests <> [] /\ length [VBool true; VBool false] = length requests.
Proof.
  intros quiet requests.
  refine (proj2 (batch_answers_each_request no_event quiet no_event
                   one_shot_one_task requests (fun _ => VNone))
                (fst (delete no_event one_shot_one_task "Shot" 1))
                [VBool true; VBool false] _).
  vm_compute. reflexivity.
Defined.

Lemma batch_stops_at_the_first_failure_witness :
  let quiet := fun (sg : Shotgun) (_ : entity) (_ : option entity)
                   (_ : entity) => sg in
  let served := [fixture.delete_request (VStr "Shot", VInt 1)] in
  let sg1 := fst (delete no_event one_shot_one_task "Shot" 1) in
  exists tick : nat,
    forall (failing : entity) (rest : list entity) (sg2 : Shotgun)
           (err : exn) (tick' : nat),
      batch_request no_event quiet no_event sg1 failing (fun _ => VNone) tick =
        (sg2, Raise err, tick') ->
      batch no_event quiet no_event one_shot_one_task
            (served ++ failing :: rest) (fun _ => VNone) = (sg2, Raise err).
Proof.
  intros quiet served sg1.
  apply (batch_stops_at_the_first_failure no_event quiet no_event
           one_shot_one_task sg1 served (fun _ => VNone) [VBool true]).
  vm_compute. reflexivity.
Defined.

(** ** Fixtures *)

Section DeleteAll.

Variable generate_for_create : Shotgun -> entity -> Shotgun.
Variable generate_for_update : Shotgun -> entity -> option entity -> entity -> Shotgun.
Variable generate_for_delete : Shotgun -> entity -> Shotgun.

Lemma batch_request_delete (sg : Shotgun) (t : string) (i : Z)
    (utcnow : nat -> value) (tick : nat) :
  batch_request generate_for_create generate_for_update generate_for_delete sg
    (fixture.delete_request (VStr t, VInt i)) utcnow tick =
  (fst (delete generate_for_delete sg t i),
   Ok (VBool (snd (delete generate_for_delete sg t i))), tick).
Proof. reflexivity. Qed.

Lemma delete_live (sg : Shotgun) (t t' : string) (i j : Z) :
  _generate_events sg = false ->
  _generate_events (fst (delete generate_for_delete sg t i)) = false /\
  Py.get j (records (_store (fst (delete generate_for_delete sg t i))) t') =
  if decide ((t, i) = (t', j)) then None
  else Py.get j (records (_store sg) t').
Proof.
  intros Hev. pose proof (delete_shape generate_for_delete sg t i Hev) as H.
  destruct (Py.get i (records (_store sg) t)) as [e|] eqn:Hget.
  - destruct H as (-> & _ & -> & _). split; [reflexivity|].
    destruct (decide (t = t')) as [<-|Ht].
    + rewrite records_insert. destruct (decide (i = j)) as [<-|Hi].
      * rewrite decide_True by reflexivity. apply get_remove_eq.
      * rewrite decide_False by congruence. apply get_remove_ne. exact Hi.
    + rewrite records_insert_ne by exact Ht.
      rewrite decide_False by congruence. reflexivity.
  - rewrite H. cbn [fst]. split; [exact Hev|].
    destruct (decide ((t, i) = (t', j))) as [[= <- <-]|]; [exact Hget|reflexivity].
Qed.

(** The batch of [delete_all]: each record it names is live no more,
    the others are as they were. *)
Lemma batch_loop_deletes (utcnow : nat -> value) (noted : list (string * Z)) :
  forall (sg : Shotgun) (tick : nat),
    _generate_events sg = false ->
    exists (sg' : Shotgun) (responses : list value),
      batch_loop generate_for_create generate_for_update generate_for_delete sg
        (map (fun n => fixture.delete_request (VStr (fst n), VInt (snd n))) noted)
        utcnow tick = (sg', Ok responses) /\
      length responses = length noted /\
      forall (t : string) (i : Z),
        (In (t, i) noted -> Py.get i (records (_store sg') t) = None) /\
        (~ In (t, i) noted ->
         Py.get i (records (_store sg') t) = Py.get i (records (_store sg) t)).
Proof.
  induction noted as [|[t0 i0] noted IH]; intros sg tick Hev.
  - exists sg, []. split; [reflexivity|]. split; [reflexivity|].
    intros t i. split; [intros []|reflexivity].
  - cbn [map batch_loop fst snd]. rewrite batch_request_delete.
    destruct (delete_live sg t0 t0 i0 i0 Hev) as [Hev1 _].
    destruct (IH (fst (delete generate_for_delete sg t0 i0)) tick Hev1)
      as (sg' & rs & -> & Hlen & Hget).
    eexists _, _. split; [reflexivity|]. split; [simpl; rewrite Hlen; reflexivity|].
    intros t i. destruct (Hget t i) as [Hin Hout].
    destruct (delete_live sg t0 t i0 i Hev) as [_ Hd].
    assert (Hdec : In (t, i) noted \/ ~ In (t, i) noted).
    { destruct (in_dec (fun a b : string * Z => decide (a = b)) (t, i) noted); auto. }
    split.
    + intros [Heq|H]; [|exact (Hin H)].
      destruct Hdec as [H|H]; [exact (Hin H)|].
      rewrite (Hout H), Hd. rewrite decide_True by exact Heq. reflexivity.
    + intros Hno. rewrite Hout by (intros H; apply Hno; right; exact H).
      rewrite Hd. rewrite decide_False; [reflexivity|].
      intros H. apply Hno. left. exact H.
Qed.

(** X15.  [Fixture.delete_all] deletes what the fixture created: on a
    server that generates no events, where the fixture noted records by
    type name and integer id, it returns, it forgets the records it noted,
    none of them is live any more, and every other record is as live as it
    was. *)
Theorem delete_all_deletes_the_noted :
  forall (fx : fixture.Fixture) (utcnow : nat -> value)
         (noted : list (string * Z)),
    _generate_events (fixture.shotgun fx) = false ->
    fixture.created fx = map (fun n => (VStr (fst n), VInt (snd n))) noted ->
    let out := fixture.delete_all generate_for_create generate_for_update
                 generate_for_delete fx utcnow in
    snd out = Ok tt /\
    fixture.created (fst out) = [] /\
    forall (t : string) (i : Z),
      (In (t, i) noted ->
       Py.get i (records (_store (fixture.shotgun (fst out))) t) = None) /\
      (~ In (t, i) noted ->
       Py.get i (records (_store (fixture.shotgun (fst out))) t) =
       Py.get i (records (_store (fixture.shotgun fx)) t)).
Proof.
  intros fx utcnow noted Hev Hnoted out. subst out. unfold fixture.delete_all.
  rewrite Hnoted. destruct noted as [|n noted].
  - cbn [map]. split; [reflexivity|]. split; [exact Hnoted|].
    intros t i. split; [intros []|reflexivity].
  - cbn [map]. rewrite <- (map_cons (fun n => (VStr (fst n), VInt (snd n)))).
    set (l := n :: noted).
    rewrite <- map_rev, map_map.
    destruct (batch_loop_deletes utcnow (rev l) (fixture.shotgun fx) 0 Hev)
      as (sg' & rs & Hloop & Hlen & Hget).
    unfold batch.
    change (fun x : string * Z => fixture.delete_request (VStr x.1, VInt x.2))
      with (fun n : string * Z =>
              fixture.delete_request (VStr (fst n), VInt (snd n))).
    rewrite Hloop.
    destruct rs as [|r rs].
    { exfalso. rewrite length_rev in Hlen. discriminate Hlen. }
    cbn [fst snd fixture.shotgun fixture.created].
    split; [reflexivity|]. split; [reflexivity|].
    intros t i. destruct (Hget t i) as [Hin Hout]. split.
    + intros H. apply Hin. apply in_rev. rewrite rev_involutive. exact H.
    + intros H. apply Hout. intros H'. apply H. apply in_rev. exact H'.
Qed.

End DeleteAll.

Lemma delete_all_deletes_the_noted_witness :
  let quiet := fun (sg : Shotgun) (_ : entity) (_ : option entity)
                   (_ : entity) => sg in
  let noted := [("Shot", 1); ("Task", 1)] in
  let fx := fixture.mkFixture one_shot_one_task
              [(VStr "Shot", VInt 1); (VStr "Task", VInt 1)] in
  let out := fixture.delete_all no_event quiet no_event fx (fun _ => VNone) in
  snd out = Ok tt /\
  fixture.created (fst out) = [] /\
  forall (t : string) (i : Z),
    (In (t, i) noted ->
     Py.get i (records (_store (fixture.shotgun (fst out))) t) = None) /\
    (~ In (t, i) noted ->
     Py.get i (records (_store (fixture.shotgun (fst out))) t) =
     Py.get i (records (_store (fixture.shotgun fx)) t)).
Proof.
  intros quiet noted fx.
  apply (delete_all_deletes_the_noted no_event quiet no_event fx
           (fun _ => VNone) noted); reflexivity.
Defined.

(** ** Loading a document *)

Section KeysFacts.
Context {K V : Type} `{EqDecision K}.
Implicit Types (k : K) (v : V) (d : list (K * V)).

Lemma get_None_not_in k d : Py.get k d = None -> ~ In k (Py.keys d).
Proof.
  induction d as [|[k' v'] d IH]; simpl; [tauto|].
  destruct (decide (k' = k)); [discriminate|]. intros H [?|Hin]; [congruence|].
  exact (IH H Hin).
Qed.

Lemma keys_set k v d :
  Py.keys (Py.set k v d) =
  if Py.contains k d then Py.keys d else Py.keys d ++ [k].
Proof.
  unfold Py.contains. induction d as [|[k' v'] d IH]; simpl; [reflexivity|].
  destruct (decide (k' = k)) as [->|Hne]; simpl; [reflexivity|].
  rewrite IH. destruct (Py.get k d); reflexivity.
Qed.

Lemma NoDup_keys_set k v d : NoDup (Py.keys d) -> NoDup (Py.keys (Py.set k v d)).
Proof.
  intros Hd. rewrite keys_set. unfold Py.contains.
  destruct (Py.get k d) eqn:Hget; [exact Hd|].
  apply NoDup_app. split; [exact Hd|]. split; [|apply NoDup_singleton].
  intros x Hx Hk. apply list_elem_of_In in Hx.
  apply list_elem_of_singleton in Hk. subst x.
  exact (get_None_not_in k d Hget Hx).
Qed.

Lemma NoDup_keys_update d items :
  NoDup (Py.keys d) -> NoDup (Py.keys (Py.update d items)).
Proof.
  unfold Py.update. revert d.
  induction items as [|[k v] items IH]; intros d Hd; simpl; [exact Hd|].
  apply IH. apply NoDup_keys_set. exact Hd.
Qed.

End KeysFacts.

Lemma mapM_snd_keys {A B} (f : A -> result B) (d : list (string * A))
    (res : list (string * B)) :
  mapM (fun kv => v <- f (snd kv) ;; Ok (fst kv, v)) d = Ok res ->
  Py.keys res = Py.keys d.
Proof.
  revert res. induction d as [|[k v] d IH]; simpl; intros res.
  - intros [= <-]. reflexivity.
  - destruct (f v) as [w|]; simpl; [|discriminate].
    destruct (mapM _ d) as [r|] eqn:E; simpl; [|discriminate].
    intros [= <-]. simpl. f_equal. apply IH. reflexivity.
Qed.

Lemma lookup_list_to_map {A} (l : list (string * A)) (t : string) :
  (list_to_map l : gmap string A) !! t = Py.get t l.
Proof.
  induction l as [|[k v] l IH]; simpl; [apply lookup_empty|].
  destruct (decide (k = t)) as [->|Hne].
  - apply lookup_insert_eq.
  - rewrite lookup_insert_ne by exact Hne. exact IH.
Qed.

(** What [sgmock_json_load] leaves when it returns. *)
Lemma load_leaves (sg sg' : Shotgun) (document : json) :
  sgmock_json_load sg document = Ok sg' ->
  _deleted sg' = ∅ /\
  counters_bound sg' /\
  forall t : string,
    match records (_store sg') t with
    | [] => last_id sg' t = 0
    | _ :: _ => In (last_id sg' t) (Py.keys (records (_store sg') t))
    end.
Proof.
  unfold sgmock_json_load.
  destruct (decode document) as [| | | | | | | |objects] eqn:Hdoc;
    try discriminate.
  destruct (mapM _ objects) as [loaded|] eqn:Hloaded; cbn [bind];
    [|discriminate].
  intros [= <-]. cbn [_deleted]. split; [reflexivity|].
  assert (Hnd : NoDup (Py.keys loaded)).
  { rewrite (mapM_snd_keys _ _ _ Hloaded).
    destruct document; try discriminate Hdoc. simpl in Hdoc.
    injection Hdoc as <-. apply NoDup_keys_update. constructor. }
  assert (Hrec : forall t, records (list_to_map loaded) t =
                           default [] (Py.get t loaded)).
  { intros t. unfold records. rewrite lookup_list_to_map. reflexivity. }
  assert (Hlast : forall t,
            last_id (mkShotgun (_generate_events sg) (list_to_map loaded)
                       (fold_left (fun ids te =>
                          match max_id (snd te) with
                          | Some n => <[fst te := n]> ids
                          | None => ids
                          end) loaded ∅) ∅) t =
            match Py.get t loaded with
            | Some es => default 0 (max_id es)
            | None => 0
            end).
  { intros t. unfold last_id. cbn [_ids].
    rewrite (loaded_ids loaded t Hnd ∅), lookup_empty.
    destruct (Py.get t loaded) as [es|]; [|reflexivity].
    destruct (max_id es); reflexivity. }
  assert (Hmax : forall es : list (Z * entity),
            match es with
            | [] => max_id es = None
            | _ :: _ => exists n, max_id es = Some n /\ In n (Py.keys es) /\
                                  Forall (fun ie => fst ie <= n) es
            end).
  { intros [|[i e] es]; [reflexivity|].
    destruct (max_id ((i, e) :: es)) as [n|] eqn:E; [|discriminate E].
    exists n. destruct (max_id_spec _ n E) as [Hin Hle].
    split; [reflexivity|]. split; [exact Hin|].
    apply List.Forall_forall. intros ie Hie.
    apply (proj1 (List.Forall_forall _ _) Hle (fst ie)).
    unfold Py.keys. apply in_map. exact Hie. }
  split; [split|].
  - intros t. rewrite Hlast. cbn [_store]. rewrite Hrec.
    destruct (Py.get t loaded) as [es|]; [|constructor]. cbn [default].
    specialize (Hmax es). destruct es as [|ie es]; [constructor|].
    destruct Hmax as (n & -> & _ & Hle). exact Hle.
  - intros t. cbn [_deleted]. unfold records. rewrite lookup_empty. constructor.
  - intros t. rewrite Hlast. cbn [_store]. rewrite Hrec.
    destruct (Py.get t loaded) as [es|]; [|reflexivity]. cbn [default].
    specialize (Hmax es). destruct es as [|ie es]; [rewrite Hmax; reflexivity|].
    destruct Hmax as (n & -> & Hin & _). exact Hin.
Qed.

Lemma uint_of_digit (c : ascii) (d : Decimal.uint) :
  Py.is_digit c = true -> is_Some (uint_of_char c (Some d)).
Proof.
  destruct c as [[] [] [] [] [] [] [] []]; intros H;
    try discriminate H; eexists; reflexivity.
Qed.

Lemma uint_of_digits (s : string) :
  forallb Py.is_digit (list_ascii_of_string s) = true ->
  is_Some (NilEmpty.uint_of_string s).
Proof.
  induction s as [|c s IH]; cbn [list_ascii_of_string forallb].
  - intros _. eexists. reflexivity.
  - intros H. apply andb_prop in H as [Hc Hs].
    destruct (IH Hs) as [d Hd]. cbn [NilEmpty.uint_of_string]. rewrite Hd.
    apply uint_of_digit. exact Hc.
Qed.

Lemma uint_of_decimal (s : string) :
  decimal s = true -> is_Some (NilZero.uint_of_string s).
Proof.
  destruct s as [|c s]; [discriminate|]. unfold decimal.
  intros H. exact (uint_of_digits _ H).
Qed.

(** [int] reads every numeral. *)
Lemma int_of_numeral (s : string) :
  numeral s = true -> is_ok (Py.int_of_str s) = true.
Proof.
  unfold Py.int_of_str. destruct s as [|a s']; [discriminate|].
  cbn [numeral NilZero.int_of_string].
  destruct (Ascii.eqb a "-"); intros H;
    destruct (uint_of_decimal _ H) as [d Hd]; rewrite Hd; reflexivity.
Qed.

Lemma load_field_readable (v : value) :
  readable v = true -> is_ok (load_field v) = true.
Proof.
  destruct v as [| | |s| | | | |]; try reflexivity.
  cbn [readable load_field].
  destruct (date_pattern s) as [[[[year month] day] [[[[hour minute] second] [us|]]|]]|];
    try reflexivity; try discriminate.
  - unfold Py.datetime. intros ->. reflexivity.
  - unfold Py.date. intros ->. reflexivity.
Qed.

Lemma load_entity_loadable (v : value) :
  loadable_record v = true -> is_ok (load_entity v) = true.
Proof.
  destruct v as [| | | | | | | |d]; try discriminate.
  cbn [loadable_record load_entity]. intros H. apply mapM_ok.
  apply List.Forall_forall. intros kv Hkv. rewrite forallb_forall in H.
  apply bind_is_ok; [|reflexivity]. apply load_field_readable.
  exact (H kv Hkv).
Qed.

Lemma load_entities_loadable (v : value) :
  loadable_records v = true -> is_ok (load_entities v) = true.
Proof.
  destruct v as [| | | | | | | |entities]; try discriminate.
  cbn [loadable_records load_entities]. generalize (@nil (Z * entity)).
  induction entities as [|[sid r] entities IH]; intros es;
    cbn [forallb fold_left]; [reflexivity|].
  intros H. apply andb_prop in H as [H1 H]. cbn [fst snd] in H1.
  apply andb_prop in H1 as [Hn Hr]. cbn [bind fst snd].
  pose proof (int_of_numeral sid Hn) as Hi.
  pose proof (load_entity_loadable r Hr) as He.
  destruct (Py.int_of_str sid) as [i|]; [|discriminate Hi].
  destruct (load_entity r) as [e|]; [|discriminate He].
  cbn [bind]. apply IH. exact H.
Qed.

(** The loader reads every loadable document. *)
Lemma load_loadable (sg : Shotgun) (document : json) :
  loadable (decode document) = true ->
  is_ok (sgmock_json_load sg document) = true.
Proof.
  unfold sgmock_json_load.
  destruct (decode document) as [| | | | | | | |objects]; try discriminate.
  cbn [loadable]. intros H. apply bind_is_ok; [|reflexivity].
  apply mapM_ok. apply List.Forall_forall. intros te Hte.
  rewrite forallb_forall in H. apply bind_is_ok; [|reflexivity].
  apply load_entities_loadable. exact (H te Hte).
Qed.

(** X16.  [sgmock_json_load] reads every document whose types hold
    objects of records, under ids written in decimal digits after a minus
    sign or without one, each record an object whose texts that begin as
    a date are dates, or datetimes with their microseconds.  The server
    it leaves generates events or not as before, has no deleted records
    and has counters that bound the ids: the counter of a type that has
    records is the largest of their ids, and the counter of every other
    type is zero, whatever the counters were. *)
Theorem load_sets_the_counters :
  forall (sg : Shotgun) (document : json),
    loadable (decode document) = true ->
    exists sg' : Shotgun,
      sgmock_json_load sg document = Ok sg' /\
      _generate_events sg' = _generate_events sg /\
      _deleted sg' = ∅ /\
      counters_bound sg' /\
      forall t : string,
        match records (_store sg') t with
        | [] => last_id sg' t = 0
        | _ :: _ => In (last_id sg' t) (Py.keys (records (_store sg') t))
        end.
Proof.
  intros sg document Hdoc. pose proof (load_loadable sg document Hdoc) as Hok.
  destruct (sgmock_json_load sg document) as [sg'|err] eqn:E;
    [|discriminate Hok].
  exists sg'. split; [reflexivity|]. split.
  - unfold sgmock_json_load in E.
    destruct (decode document); try discriminate E.
    destruct (mapM _ items); cbn [bind] in E; [|discriminate E].
    injection E as <-. reflexivity.
  - exact (load_leaves sg sg' document E).
Qed.

Lemma load_sets_the_counters_witness :
  let document :=
    JObj [("Shot", JObj [("3", JObj [("id", JNum 3);
                                     ("due", JStr "2020-01-02")]);
                         ("-8", JObj [("id", JNum (-8))]);
                         ("08", JObj [("id", JNum 8)])]);
          ("Task", JObj [])] in
  exists sg' : Shotgun,
    sgmock_json_load (init false) document = Ok sg' /\
    _generate_events sg' = false /\
    _deleted sg' = ∅ /\
    counters_bound sg' /\
    forall t : string,
      match records (_store sg') t with
      | [] => last_id sg' t = 0
      | _ :: _ => In (last_id sg' t) (Py.keys (records (_store sg') t))
      end.
Proof.
  intros document.
  apply (load_sets_the_counters (init false) document). reflexivity.
Defined.

(** ** Texts that read as dates *)

Lemma date_pattern_begins (y m d : Z) (rest : string) :
  date_pattern (Py.date_isoformat y m d +:+ rest) =
  Some (Py.zfill 4 y, Py.zfill 2 m, Py.zfill 2 d, time_groups rest).
Proof.
  unfold date_pattern, Py.date_isoformat. rewrite !append_assoc.
  repeat (rewrite ?digits_zfill, ?append_cons, ?append_nil, ?char_cons;
          cbn [mbind option_bind]).
  reflexivity.
Qed.

(** X17.  The loader reads a text by its beginning: a text field that
    begins with a date, and goes on with anything that is not a time, is
    loaded as that date, and what follows the date is lost. *)
Theorem text_that_begins_with_a_date :
  forall (y m d : Z) (rest : string),
    Py.valid_date y m d = true ->
    time_groups rest = None ->
    load_field (VStr (Py.date_isoformat y m d +:+ rest)) = Ok (VDate y m d).
Proof.
  intros y m d rest Hv Hrest. unfold load_field.
  rewrite date_pattern_begins, Hrest.
  destruct (valid_date_bounds y m d Hv) as (Hy & Hm & Hd).
  rewrite !int_digits_zfill by assumption.
  unfold Py.date. rewrite Hv. reflexivity.
Qed.

Lemma text_that_begins_with_a_date_witness :
  load_field (VStr (Py.date_isoformat 2020 1 2 +:+ " is the deadline")) =
  Ok (VDate 2020 1 2).
Proof.
  apply (text_that_begins_with_a_date 2020 1 2 " is the deadline");
    reflexivity.
Defined.

Lemma time_groups_full_second (hh mi ss : Z) :
  time_groups ("T" +:+ Py.time_isoformat hh mi ss +:+ "Z") =
  Some (Py.zfill 2 hh, Py.zfill 2 mi, Py.zfill 2 ss, None).
Proof.
  unfold time_groups, Py.time_isoformat. rewrite !append_assoc.
  repeat (rewrite ?digits_zfill, ?append_cons, ?append_nil, ?char_cons;
          cbn [mbind option_bind]).
  reflexivity.
Qed.

(** X18.  A datetime on a full second does not come back: it is written
    without microseconds, and the loader, which reads the missing
    microseconds as a number, raises [TypeError] on what was written. *)
Theorem full_seconds_are_not_loaded :
  forall (y m d hh mi ss : Z),
    exists text : string,
      serialize (VDatetime y m d hh mi ss 0) = Ok text /\
      load_field (VStr text) = Raise TypeError.
Proof.
  intros y m d hh mi ss. eexists. split; [reflexivity|].
  unfold load_field, Py.datetime_isoformat. cbn [Z.eqb].
  rewrite !append_assoc, date_pattern_begins.
  rewrite append_nil, time_groups_full_second. reflexivity.
Qed.

(** ** Fields that a record does not have *)

Lemma span_dotless (p : ascii -> bool) (s : string) :
  dotless s = true -> dotless (snd (span p s)) = true.
Proof.
  induction s as [|c s IH]; [reflexivity|]. simpl.
  intros H. apply andb_prop in H as [Hc Hs].
  destruct (p c); simpl; [exact (IH Hs)|]. rewrite Hc, Hs. reflexivity.
Qed.

Lemma _deep_lookup_re_dotless (field : string) :
  dotless field = true -> _deep_lookup_re field = None.
Proof.
  intros H. unfold _deep_lookup_re.
  pose proof (span_dotless is_word field H) as Hr.
  destruct (span is_word field) as [w r1]. simpl in Hr.
  destruct w; [reflexivity|]. destruct r1 as [|c r2]; [reflexivity|].
  simpl in Hr. apply andb_prop in Hr as [Hc _].
  unfold not_dot in Hc.
  destruct c as [[] [] [] [] [] [] [] []]; try reflexivity; discriminate Hc.
Qed.

Lemma split_dotless (field : string) :
  dotless field = true -> Py.split "." field = [field].
Proof.
  induction field as [|c s IH]; [reflexivity|]. simpl.
  intros H. apply andb_prop in H as [Hc Hs]. unfold not_dot in Hc.
  destruct (Ascii.eqb c "."); [discriminate|]. rewrite (IH Hs). reflexivity.
Qed.

Lemma _lookup_field_plain (sg : Shotgun) (e : entity) (field : string) :
  e <> [] -> plain field = true -> Py.get field e = None ->
  _lookup_field sg (VDict e) field = Raise (KeyError (VStr field)).
Proof.
  intros He Hp Hget. unfold plain in Hp. apply andb_prop in Hp as [Hne Hd].
  unfold _lookup_field. destruct e; [congruence|]. cbn [Py.truthy negb].
  rewrite Hget, (_deep_lookup_re_dotless field Hd), (split_dotless field Hd).
  cbn [existsb length]. rewrite orb_false_r.
  destruct (String.eqb field ""); [discriminate|]. reflexivity.
Qed.

Lemma minimal_copy_skips (n : nat) (sg : Shotgun) (e : entity)
    (before after : list string) (field : string) :
  plain field = true -> Py.get field e = None ->
  minimal_copy_upto (S n) sg (VDict e) (before ++ field :: after) =
  minimal_copy_upto (S n) sg (VDict e) (before ++ after).
Proof.
  intros Hp Hget. cbn [minimal_copy_upto].
  destruct e as [|kv e]; [reflexivity|]. cbn [Py.truthy negb].
  destruct (minimize (VDict (kv :: e))) as [acc|]; [|reflexivity]. cbn [bind].
  revert acc. induction before as [|f before IH]; intros acc.
  - cbn [app]. rewrite (_lookup_field_plain sg (kv :: e) field) by
      (congruence || assumption). reflexivity.
  - cbn [app].
    destruct (_lookup_field sg (VDict (kv :: e)) f) as [v|err] eqn:E.
    + destruct (is_entity v).
      * destruct (match v with VDict l => _resolve_link sg l | _ => Raise TypeError end)
          as [link|]; cbn [bind]; [|reflexivity].
        destruct (minimal_copy_upto n sg link ["name"]); cbn [bind];
          [apply IH|reflexivity].
      * destruct v; try apply IH.
        destruct (mapM _ _); cbn [bind]; [apply IH|reflexivity].
    + destruct err; try reflexivity. apply IH.
Qed.

(** X19.  A field that a record does not have, named without a dot, is
    left out of its minimal copy: asking for it, at any place among the
    fields, changes nothing of what [_minimal_copy] returns or raises. *)
Theorem minimal_copy_skips_absent_fields :
  forall (sg : Shotgun) (e : entity) (before after : list string)
         (field : string),
    plain field = true ->
    Py.get field e = None ->
    _minimal_copy sg (VDict e) (before ++ field :: after) =
    _minimal_copy sg (VDict e) (before ++ after).
Proof.
  intros sg e before after field Hp Hget. unfold _minimal_copy.
  change recursion_limit with (S 999). apply minimal_copy_skips; assumption.
Qed.

Lemma minimal_copy_skips_absent_fields_witness :
  _minimal_copy one_shot_one_task (VDict shot_001) (["code"] ++ "name" :: ["id"]) =
  _minimal_copy one_shot_one_task (VDict shot_001) (["code"] ++ ["id"]).
Proof.
  apply (minimal_copy_skips_absent_fields one_shot_one_task shot_001 ["code"]
           ["id"] "name"); reflexivity.
Defined.

(** ** Datetime fields in filters *)

Lemma datetime_not_among_texts (y m d hh mi ss us : Z) (texts : list string) :
  Py.member (VDatetime y m d hh mi ss us) (map VStr texts) = false.
Proof. induction texts as [|s texts IH]; [reflexivity|exact IH]. Qed.

Lemma texts_hashable (texts : list string) :
  forallb Py.hashable (map VStr texts) = true.
Proof. induction texts as [|s texts IH]; [reflexivity|exact IH]. Qed.

(** X20.  A relation of one value compares a datetime field, of the
    year 1900 or later, with a text as texts: the field is read as its
    date and time to the second with a [Z], so its microseconds do not
    count.  [in] does not do so, and never finds a datetime field among
    texts. *)
Theorem datetime_fields_against_text :
  forall (e : entity) (field text : string) (texts : list string)
         (y m d hh mi ss us : Z),
    Py.get field e = Some (VDatetime y m d hh mi ss us) ->
    Py.valid_date y m d = true -> Py.valid_time hh mi ss us = true ->
    1900 <= y ->
    let stamp := Py.strftime_iso_z y m d hh mi ss in
    let answer (relation : string) (values : list value) :=
      p <- _compile_condition registered
             (structured (VStr field) (VStr relation) (VList values)) ;;
      p e in
    answer "is" [VStr text] = Ok (String.eqb text stamp) /\
    answer "is_not" [VStr text] = Ok (negb (String.eqb text stamp)) /\
    answer "less_than" [VStr text] = Ok (String.ltb stamp text) /\
    answer "greater_than" [VStr text] = Ok (String.ltb text stamp) /\
    answer "starts_with" [VStr text] = Ok (Py.startswith stamp text) /\
    answer "ends_with" [VStr text] = Ok (Py.endswith stamp text) /\
    answer "in" (map VStr texts) = Ok false.
Proof.
  intros e field text texts y m d hh mi ss us Hget _ _ _ stamp answer.
  subst answer. cbv beta.
  assert (Hscalar : forall test : value -> value -> result bool,
            (p <- ScalarFilter test (VStr field) [VStr text] ;; p e) =
            test (VStr text) (VStr stamp)).
  { intros test. cbn [ScalarFilter bind Py.get_or]. rewrite Hget. reflexivity. }
  split; [|split; [|split; [|split; [|split; [|split]]]]].
  - exact (Hscalar _).
  - change (_compile_condition registered _)
      with (NotWrap IsFilter (VStr field) [VStr text]).
    unfold NotWrap, IsFilter, _Not__call__.
    cbn [ScalarFilter bind Py.get_or]. rewrite Hget. reflexivity.
  - exact (Hscalar _).
  - exact (Hscalar _).
  - exact (Hscalar _).
  - exact (Hscalar _).
  - change (_compile_condition registered _)
      with (InFilter (VStr field) (map VStr texts)).
    unfold InFilter. rewrite texts_hashable. cbn [bind Py.get_or].
    rewrite Hget. cbn [default Py.hashable bind].
    rewrite datetime_not_among_texts. reflexivity.
Qed.

Lemma datetime_fields_against_text_witness :
  let e := [("type", VStr "Shot"); ("id", VInt 1);
            ("created_at", VDatetime 2020 1 2 12 0 0 250000)] in
  let answer (relation : string) (values : list value) :=
    p <- _compile_condition registered
           (structured (VStr "created_at") (VStr relation) (VList values)) ;;
    p e in
  answer "is" [VStr "2020-01-02T12:00:00Z"] = Ok true /\
  answer "in" (map VStr ["2020-01-02T12:00:00Z"]) = Ok false.
Proof.
  intros e answer.
  destruct (datetime_fields_against_text e "created_at" "2020-01-02T12:00:00Z"
              ["2020-01-02T12:00:00Z"] 2020 1 2 12 0 0 250000 eq_refl eq_refl
              eq_refl ltac:(lia))
    as (His & _ & _ & _ & _ & _ & Hin).
  split; [exact His|exact Hin].
Defined.

(** ** What create and update store *)

Section MoreKeys.
Context {V : Type}.
Implicit Types (k : string) (v : V) (d items : list (string * V)).

Lemma update_get_Some k v d items :
  NoDup (Py.keys items) -> Py.get k items = Some v ->
  Py.get k (Py.update d items) = Some v.
Proof.
  unfold Py.update. revert d.
  induction items as [|[k' v'] items IH]; intros d Hnd; simpl; [discriminate|].
  apply NoDup_cons in Hnd as [Hk' Hnd].
  destruct (decide (k' = k)) as [->|Hne].
  - intros [= <-].
    change (Py.get k (Py.update (Py.set k v' d) items) = Some v').
    rewrite get_update_absent.
    + apply get_set_eq.
    + apply get_not_in. intros Hin. apply Hk'. apply list_elem_of_In. exact Hin.
  - intros H. apply IH; assumption.
Qed.

Lemma keys_remove k d :
  Py.keys (Py.remove k d) = List.filter (fun x => negb (bool_decide (x = k))) (Py.keys d).
Proof.
  induction d as [|[k' v'] d IH]; simpl; [reflexivity|].
  destruct (decide (k' = k)) as [->|Hne].
  - rewrite bool_decide_eq_true_2 by reflexivity. exact IH.
  - rewrite bool_decide_eq_false_2 by exact Hne. simpl. rewrite IH. reflexivity.
Qed.

Lemma NoDup_keys_remove k d :
  NoDup (Py.keys d) -> NoDup (Py.keys (Py.remove k d)).
Proof.
  intros H. rewrite keys_remove. apply NoDup_ListNoDup.
  apply List.NoDup_filter. apply NoDup_ListNoDup. exact H.
Qed.

Lemma get_update_map k (f : string -> V) d (ks : list string) :
  Py.get k (Py.update d (map (fun x => (x, f x)) ks)) =
  if bool_decide (k ∈ ks) then Some (f k) else Py.get k d.
Proof.
  unfold Py.update. revert d.
  induction ks as [|k0 ks IH]; intros d; simpl; [reflexivity|].
  rewrite IH. destruct (decide (k0 = k)) as [->|Hne].
  - rewrite (bool_decide_eq_true_2 (k ∈ k :: ks)) by left.
    rewrite get_set_eq. destruct (bool_decide (k ∈ ks)); reflexivity.
  - rewrite get_set_ne by exact Hne.
    destruct (bool_decide (k ∈ ks)) eqn:E.
    + apply bool_decide_eq_true_1 in E.
      rewrite bool_decide_eq_true_2 by (right; exact E). reflexivity.
    + apply bool_decide_eq_false_1 in E.
      rewrite bool_decide_eq_false_2; [reflexivity|].
      intros Hin. apply elem_of_cons in Hin as [?|?]; [congruence|tauto].
Qed.

End MoreKeys.

Lemma mapM_getitem (e : entity) (ks : list string) :
  Forall (fun k => is_Some (Py.get k e)) ks ->
  mapM (fun k => v <- Py.getitem e (VStr k) ;; Ok (k, v)) ks =
  Ok (map (fun k => (k, default VNone (Py.get k e))) ks).
Proof.
  induction 1 as [|k ks [v Hv] _ IH]; [reflexivity|].
  cbn [mapM map]. rewrite IH. unfold Py.getitem. rewrite Hv. reflexivity.
Qed.

Lemma _reduce_links_scalar_data (sg : Shotgun) (data : entity) :
  NoDup (Py.keys data) ->
  Forall (fun kv => is_scalar (snd kv) = true) data ->
  _reduce_links sg (VDict (Py.remove "id" data)) =
  Ok (VDict (Py.remove "id" data)).
Proof.
  intros Hnd Hs.
  rewrite _reduce_links_scalars;
    [|apply get_remove_eq|apply remove_Forall; exact Hs].
  rewrite update_nil_distinct; [reflexivity|].
  apply NoDup_keys_remove. exact Hnd.
Qed.

Section Merge.

Variable generate_for_create : Shotgun -> entity -> Shotgun.
Variable generate_for_update : Shotgun -> entity -> option entity -> entity -> Shotgun.

(** X21.  [update] merges the data into the live record: on a server
    that generates no events, with data of distinct keys that hold
    scalars, the record takes each field of the data but [id], is stamped
    with the time of the update and keeps its other fields, its id among
    them; the mapping returned holds the fields of the data, [type] and
    [id], as the record now has them, and nothing else. *)
Theorem update_merges_the_data :
  forall (sg : Shotgun) (entity_type : string) (entity_id : Z)
         (e data : entity) (updated_at : value),
    _generate_events sg = false ->
    Py.get entity_id (records (_store sg) entity_type) = Some e ->
    is_Some (Py.get "type" e) -> is_Some (Py.get "id" e) ->
    NoDup (Py.keys data) ->
    Forall (fun kv => is_scalar (snd kv) = true) data ->
    let out := update generate_for_update sg entity_type entity_id data
                      updated_at in
    exists (e' returned : entity),
      Py.get entity_id (records (_store (fst out)) entity_type) = Some e' /\
      snd out = Ok (VDict returned) /\
      (forall (k : string) (v : value),
         k <> "id" -> Py.get k data = Some v -> Py.get k e' = Some v) /\
      (Py.get "updated_at" data = None ->
       Py.get "updated_at" e' = Some updated_at) /\
      (forall k : string,
         k <> "updated_at" -> (k = "id" \/ Py.get k data = None) ->
         Py.get k e' = Py.get k e) /\
      (forall k : string,
         Py.get k returned =
         if bool_decide (k ∈ Py.keys data ++ ["type"; "id"]) then Py.get k e'
         else None).
Proof.
  intros sg t i e data u Hev Hget Hty Hid Hnd Hs out.
  set (e1 := Py.set "updated_at" u e).
  set (e' := Py.update e1 (Py.remove "id" data)).
  assert (Hcu : _create_or_update sg t (Some i) data VNone u =
                (store_record sg t i e', Ok (i, e'))).
  { unfold _create_or_update. rewrite Hget. fold e1.
    rewrite (_reduce_links_scalar_data _ data Hnd Hs). fold e'.
    rewrite store_record_twice. reflexivity. }
  assert (Hkeep : forall k, k = "id" \/ Py.get k data = None ->
                            Py.get k e' = Py.get k e1).
  { intros k Hk. subst e'. apply get_update_absent.
    destruct Hk as [->|Hk]; [apply get_remove_eq|].
    destruct (decide ("id" = k)) as [<-|Hne]; [apply get_remove_eq|].
    rewrite get_remove_ne by exact Hne. exact Hk. }
  assert (Hin : Forall (fun k => is_Some (Py.get k e'))
                       (Py.keys data ++ ["type"; "id"])).
  { apply Forall_app. split.
    - apply List.Forall_forall. intros k Hk.
      destruct (decide (k = "id")) as [->|Hne].
      + rewrite Hkeep by (left; reflexivity). subst e1.
        rewrite get_set_ne by discriminate. exact Hid.
      + subst e'. apply get_update. left.
        rewrite get_remove_ne by congruence. apply get_keys. exact Hk.
    - repeat constructor; subst e'; apply get_update; right; subst e1;
        rewrite get_set_ne by discriminate; assumption. }
  exists e', (Py.update [] (map (fun k => (k, default VNone (Py.get k e')))
                                (Py.keys data ++ ["type"; "id"]))).
  subst out. unfold update. rewrite Hcu.
  change (_generate_events (store_record sg t i e')) with (_generate_events sg).
  rewrite Hev. cbn [fst snd].
  split; [|split; [|split; [|split; [|split]]]].
  - unfold store_record. cbn [_store with_store]. rewrite records_insert.
    apply get_set_eq.
  - rewrite (mapM_getitem e' _ Hin). reflexivity.
  - intros k v Hk Hv. subst e'. apply update_get_Some.
    + apply NoDup_keys_remove. exact Hnd.
    + rewrite get_remove_ne by congruence. exact Hv.
  - intros Hu. rewrite Hkeep by (right; exact Hu). subst e1. apply get_set_eq.
  - intros k Hk Hdata. rewrite (Hkeep k Hdata). subst e1.
    apply get_set_ne. congruence.
  - intros k. rewrite get_update_map.
    destruct (bool_decide (k ∈ Py.keys data ++ ["type"; "id"])) eqn:E;
      [|reflexivity].
    apply bool_decide_eq_true_1 in E. apply list_elem_of_In in E.
    destruct (proj1 (List.Forall_forall _ _) Hin k E) as [v ->]. reflexivity.
Qed.

End Merge.

Lemma update_merges_the_data_witness :
  let quiet := fun (sg : Shotgun) (_ : entity) (_ : option entity)
                   (_ : entity) => sg in
  let data := [("code", VStr "002"); ("id", VInt 9)] in
  let noon := VDatetime 2020 1 2 12 0 0 1 in
  let out := update quiet one_shot_one_task "Shot" 1 data noon in
  exists (e' returned : entity),
    Py.get 1 (records (_store (fst out)) "Shot") = Some e' /\
    snd out = Ok (VDict returned) /\
    (forall (k : string) (v : value),
       k <> "id" -> Py.get k data = Some v -> Py.get k e' = Some v) /\
    (Py.get "updated_at" data = None -> Py.get "updated_at" e' = Some noon) /\
    (forall k : string,
       k <> "updated_at" -> (k = "id" \/ Py.get k data = None) ->
       Py.get k e' = Py.get k shot_001) /\
    (forall k : string,
       Py.get k returned =
       if bool_decide (k ∈ Py.keys data ++ ["type"; "id"]) then Py.get k e'
       else None).
Proof.
  intros quiet data noon.
  apply (update_merges_the_data quiet one_shot_one_task "Shot" 1 shot_001 data
           noon).
  - reflexivity.
  - rewrite one_shot_one_task_records. reflexivity.
  - eexists. reflexivity.
  - eexists. reflexivity.
  - apply (bool_decide_unpack (NoDup (Py.keys data))). vm_compute. reflexivity.
  - repeat constructor.
Defined.

Lemma remove_absent {V} (k : string) (d : list (string * V)) :
  Py.get k d = None -> Py.remove k d = d.
Proof.
  induction d as [|[k' v'] d IH]; simpl; [reflexivity|].
  destruct (decide (k' = k)); [discriminate|]. intros H. rewrite IH; auto.
Qed.

(** The minimal copy of a record with fields that hold scalars: the
    type, the id and these fields, as the record has them. *)
Lemma minimal_copy_scalar_result (n : nat) (sg : Shotgun) (e : entity)
    (fields : list string) :
  is_Some (Py.get "type" e) -> is_Some (Py.get "id" e) ->
  Forall (fun f => exists v, Py.get f e = Some v /\ is_scalar v = true) fields ->
  exists r : entity,
    minimal_copy_upto (S n) sg (VDict e) fields = Ok (VDict r) /\
    forall k : string,
      Py.get k r =
      if bool_decide (k ∈ "type" :: "id" :: fields) then Py.get k e else None.
Proof.
  intros [ty Hty] [i Hi] Hfields. cbn [minimal_copy_upto].
  destruct e as [|kv e]; [discriminate|]. cbn [Py.truthy negb].
  unfold minimize, Py.getitem. rewrite Hty, Hi. cbn [bind].
  change ("type" :: "id" :: fields) with (["type"; "id"] ++ fields).
  assert (Hinv : forall k : string,
            Py.get k [("type", ty); ("id", i)] =
            if bool_decide (k ∈ ["type"; "id"]) then Py.get k (kv :: e)
            else None).
  { intros k. cbn [Py.get].
    destruct (decide ("type" = k)) as [<-|H1].
    - rewrite bool_decide_eq_true_2 by left. symmetry. exact Hty.
    - destruct (decide ("id" = k)) as [<-|H2].
      + rewrite bool_decide_eq_true_2 by (right; left). symmetry. exact Hi.
      + rewrite bool_decide_eq_false_2; [reflexivity|].
        intros H. apply elem_of_cons in H as [H|H]; [congruence|].
        apply elem_of_cons in H as [H|H]; [congruence|].
        apply elem_of_nil in H. exact H. }
  revert Hinv. generalize [("type", ty); ("id", i)] as acc.
  generalize ["type"; "id"] as done.
  induction Hfields as [|f fields (v & Hv & Hs) _ IH]; intros done acc Hinv.
  - exists acc. split; [reflexivity|]. rewrite app_nil_r. exact Hinv.
  - rewrite (_lookup_field_present sg (kv :: e) f v Hv).
    assert (Hne : is_entity v = false) by (destruct v; try reflexivity; discriminate Hs).
    rewrite Hne.
    assert (Hstep : forall k : string,
              Py.get k (Py.set f v acc) =
              if bool_decide (k ∈ done ++ [f]) then Py.get k (kv :: e)
              else None).
    { intros k. destruct (decide (f = k)) as [<-|Hfk].
      - rewrite get_set_eq.
        rewrite bool_decide_eq_true_2 by (apply elem_of_app; right; left).
        symmetry. exact Hv.
      - rewrite get_set_ne by exact Hfk. rewrite Hinv.
        destruct (bool_decide (k ∈ done)) eqn:E.
        + apply bool_decide_eq_true_1 in E.
          rewrite bool_decide_eq_true_2 by (apply elem_of_app; left; exact E).
          reflexivity.
        + apply bool_decide_eq_false_1 in E.
          rewrite bool_decide_eq_false_2; [reflexivity|].
          intros H. apply elem_of_app in H as [H|H]; [tauto|].
          apply list_elem_of_singleton in H. congruence. }
    destruct (IH (done ++ [f]) (Py.set f v acc) Hstep) as (r & Hr & Hget).
    exists r. rewrite <- app_assoc in Hget. split; [|exact Hget].
    destruct v; try discriminate Hs; exact Hr.
Qed.

Section Stores.

Variable generate_for_create : Shotgun -> entity -> Shotgun.

(** [create] with data of distinct keys that hold scalars and no id. *)
Lemma create_scalar_data (sg : Shotgun) (t : string) (data : entity)
    (rf : list string) (c u : value) :
  _generate_events sg = false ->
  Py.get "id" data = None ->
  NoDup (Py.keys data) ->
  Forall (fun kv => is_scalar (snd kv) = true) data ->
  incl rf (Py.keys data) ->
  let n := last_id sg t + 1 in
  let e := Py.update [("type", VStr t); ("id", VInt n); ("created_at", c);
                      ("updated_at", u)] data in
  let out := create generate_for_create sg t data rf c u in
  fst out =
    store_record (with_ids sg (<[t := Z.max n (last_id sg t)]> (_ids sg)))
                 t n e /\
  (forall (k : string) (v : value),
     Py.get k data = Some v -> Py.get k e = Some v) /\
  Py.get "id" e = Some (VInt n) /\
  is_Some (Py.get "type" e) /\
  exists returned : entity,
    snd out = Ok (VDict returned) /\
    forall k : string,
      Py.get k returned =
      if bool_decide (k ∈ "type" :: "id" :: Py.keys data ++ rf)
      then Py.get k e else None.
Proof.
  intros Hev Hid Hnd Hs Hrf n e out.
  set (e0 := [("type", VStr t); ("id", VInt n); ("created_at", c)]).
  set (sg1 := with_ids sg (<[t := Z.max n (last_id sg t)]> (_ids sg))).
  assert (Hcu : _create_or_update sg t None data c u =
                (store_record sg1 t n e, Ok (n, e))).
  { unfold _create_or_update, new_entity. rewrite Hid. fold n e0 sg1.
    rewrite (_reduce_links_scalar_data _ data Hnd Hs).
    rewrite (remove_absent "id" data Hid).
    rewrite !store_record_twice. reflexivity. }
  assert (Hdata : forall (k : string) (v : value),
            Py.get k data = Some v -> Py.get k e = Some v).
  { intros k v Hv. subst e. apply update_get_Some; assumption. }
  assert (Hide : Py.get "id" e = Some (VInt n)).
  { subst e. rewrite get_update_absent by exact Hid. reflexivity. }
  assert (Hty : is_Some (Py.get "type" e)).
  { subst e. apply get_update. right. eexists. reflexivity. }
  subst out. unfold create. rewrite Hcu.
  change (_generate_events (store_record sg1 t n e)) with (_generate_events sg).
  rewrite Hev. cbn [fst snd].
  split; [reflexivity|split; [exact Hdata|split; [exact Hide|split; [exact Hty|]]]].
  unfold _minimal_copy. change recursion_limit with (S 999).
  apply minimal_copy_scalar_result.
  - exact Hty.
  - rewrite Hide. eauto.
  - apply List.Forall_forall. intros k Hk.
    assert (Hin : In k (Py.keys data)).
    { apply in_app_or in Hk as [Hk|Hk]; [exact Hk|exact (Hrf k Hk)]. }
    destruct (get_keys k data Hin) as [v Hv]. exists v.
    split; [exact (Hdata k v Hv)|].
    exact (get_Forall (fun kv => is_scalar (snd kv) = true) k v data Hs Hv).
Qed.

(** X22.  [create] stores the data: on a server that generates no
    events, with data of distinct keys that hold scalars and no id, the
    record put under the next id is the type, the id and the two stamps,
    with the fields of the data over them, and the mapping returned holds
    [type], [id] and the fields of the data as the record has them, and
    nothing else. *)
Theorem create_stores_the_data :
  forall (sg : Shotgun) (entity_type : string) (data : entity)
         (created_at updated_at : value),
    _generate_events sg = false ->
    Py.get "id" data = None ->
    NoDup (Py.keys data) ->
    Forall (fun kv => is_scalar (snd kv) = true) data ->
    let new_id := last_id sg entity_type + 1 in
    let e := Py.update [("type", VStr entity_type); ("id", VInt new_id);
                        ("created_at", created_at);
                        ("updated_at", updated_at)] data in
    let out := create generate_for_create sg entity_type data []
                      created_at updated_at in
    Py.get new_id (records (_store (fst out)) entity_type) = Some e /\
    (forall (k : string) (v : value),
       Py.get k data = Some v -> Py.get k e = Some v) /\
    Py.get "id" e = Some (VInt new_id) /\
    exists returned : entity,
      snd out = Ok (VDict returned) /\
      forall k : string,
        Py.get k returned =
        if bool_decide (k ∈ "type" :: "id" :: Py.keys data) then Py.get k e
        else None.
Proof.
  intros sg t data c u Hev Hid Hnd Hs n e out.
  destruct (create_scalar_data sg t data [] c u Hev Hid Hnd Hs
              (incl_nil_l _))
    as (Hfst & Hdata & Hide & _ & returned & Hsnd & Hret).
  rewrite app_nil_r in Hret.
  split; [|split; [exact Hdata|split; [exact Hide|]]].
  - subst out. rewrite Hfst. unfold store_record. cbn [_store with_store].
    rewrite records_insert. apply get_set_eq.
  - exists returned. split; [exact Hsnd|exact Hret].
Qed.

End Stores.

Lemma create_stores_the_data_witness :
  let data := [("code", VStr "002"); ("cut_in", VInt 1001)] in
  let noon := VDatetime 2020 1 2 12 0 0 1 in
  let e := Py.update [("type", VStr "Shot"); ("id", VInt 2);
                      ("created_at", noon); ("updated_at", noon)] data in
  let out := create no_event one_shot_one_task "Shot" data [] noon noon in
  Py.get 2 (records (_store (fst out)) "Shot") = Some e /\
  (forall (k : string) (v : value),
     Py.get k data = Some v -> Py.get k e = Some v) /\
  Py.get "id" e = Some (VInt 2) /\
  exists returned : entity,
    snd out = Ok (VDict returned) /\
    forall k : string,
      Py.get k returned =
      if bool_decide (k ∈ "type" :: "id" :: Py.keys data) then Py.get k e
      else None.
Proof.
  intros data noon.
  apply (create_stores_the_data no_event one_shot_one_task "Shot" data noon
           noon).
  - reflexivity.
  - reflexivity.
  - apply (bool_decide_unpack (NoDup (Py.keys data))). vm_compute. reflexivity.
  - repeat constructor.
Defined.

(** ** Links in the data of create and update *)

(** [_reduce_links] reads of the server which ids are live, and no
    more. *)
Lemma _reduce_links_same_live (s1 s2 : Shotgun) (v : value) :
  (forall (t : string) (j : Z),
     Py.contains j (records (_store s1) t) =
     Py.contains j (records (_store s2) t)) ->
  _reduce_links s1 v = _reduce_links s2 v.
Proof.
  intros Hlive.
  induction v as [| | | | | |xs IH|xs IH|d IH] using value_nested_ind;
    try reflexivity.
  - cbn [_reduce_links]. rewrite (mapM_ext (_reduce_links s1) (_reduce_links s2));
      [reflexivity|]. rewrite List.Forall_forall in IH. exact IH.
  - cbn [_reduce_links]. rewrite (mapM_ext (_reduce_links s1) (_reduce_links s2));
      [reflexivity|]. rewrite List.Forall_forall in IH. exact IH.
  - cbn [_reduce_links].
    destruct (Py.contains "type" d && Py.contains "id" d).
    + assert (E : _entity_exists s1 d = _entity_exists s2 d).
      { unfold _entity_exists.
        destruct (Py.get "id" d) as [id_|]; [|reflexivity].
        destruct (Py.get "type" d) as [type_|]; [|reflexivity].
        destruct type_; try reflexivity. cbn [records_of bind].
        pose proof (Hlive s) as H. unfold Py.contains in H.
        destruct id_; cbn [get_by_id bind]; try reflexivity.
        - specialize (H (Z.b2z b)).
          destruct (Py.get (Z.b2z b) (records (_store s1) s)),
                   (Py.get (Z.b2z b) (records (_store s2) s));
            (reflexivity || discriminate H).
        - specialize (H n).
          destruct (Py.get n (records (_store s1) s)),
                   (Py.get n (records (_store s2) s));
            (reflexivity || discriminate H). }
      rewrite E. destruct (_entity_exists s2 d) as [live|]; [|reflexivity].
      cbn [bind]. destruct (negb live); reflexivity.
    + rewrite (mapM_ext
                 (fun kv : string * value =>
                    v <- _reduce_links s1 (snd kv) ;; Ok (fst kv, v))
                 (fun kv : string * value =>
                    v <- _reduce_links s2 (snd kv) ;; Ok (fst kv, v)));
        [reflexivity|].
      rewrite List.Forall_forall in IH. intros kv Hkv. rewrite (IH kv Hkv).
      reflexivity.
Qed.

Lemma mapM_snd_field {A} (f : value -> result A) (d : entity)
    (res : list (string * A)) (k : string) (v : value) :
  mapM (fun kv => w <- f (snd kv) ;; Ok (fst kv, w)) d = Ok res ->
  Py.get k d = Some v ->
  exists w : A, f v = Ok w /\ Py.get k res = Some w.
Proof.
  revert res. induction d as [|[k' v'] d IH]; simpl; intros res; [discriminate|].
  destruct (f v') as [w'|] eqn:Hw; simpl; [|discriminate].
  destruct (mapM _ d) as [r|] eqn:E; simpl; [|discriminate].
  intros [= <-]. simpl. destruct (decide (k' = k)) as [->|Hne].
  - intros [= <-]. exists w'. split; [exact Hw|reflexivity].
  - intros Hget. exact (IH r eq_refl Hget).
Qed.

Lemma contains_set {V} (i j : Z) (e : V) (es : list (Z * V)) :
  Py.contains j (Py.set i e es) = bool_decide (j = i) || Py.contains j es.
Proof.
  unfold Py.contains. destruct (decide (j = i)) as [->|Hne].
  - rewrite get_set_eq, bool_decide_eq_true_2 by reflexivity. reflexivity.
  - rewrite get_set_ne by congruence.
    rewrite bool_decide_eq_false_2 by exact Hne. reflexivity.
Qed.

(** The ids that are live once a record is put in the store. *)
Lemma store_record_live (sg : Shotgun) (t : string) (i : Z) (e : entity)
    (t' : string) (j : Z) :
  Py.contains j (records (_store (store_record sg t i e)) t') =
  bool_decide (t' = t) && bool_decide (j = i) ||
  Py.contains j (records (_store sg) t').
Proof.
  unfold store_record. cbn [_store with_store].
  destruct (decide (t' = t)) as [->|Hne].
  - rewrite records_insert, contains_set.
    rewrite (bool_decide_eq_true_2 (t = t)) by reflexivity. reflexivity.
  - rewrite records_insert_ne by congruence.
    rewrite (bool_decide_eq_false_2 (t' = t)) by exact Hne. reflexivity.
Qed.

(** The second half of [_create_or_update], on the record in hand. *)
Lemma _create_or_update_reduces (sg1 : Shotgun) (t : string) (i : Z)
    (e0 data : entity) (u : value) :
  NoDup (Py.keys data) ->
  forallb (fun kv => links_hashable (snd kv)) data = true ->
  let e1 := Py.set "updated_at" u e0 in
  let sg2 := store_record sg1 t i e1 in
  exists reduced : entity,
    _reduce_links sg2 (VDict (Py.remove "id" data)) = Ok (VDict reduced) /\
    stores_reduced (store_record sg2 t i (Py.update e1 reduced)) t i data.
Proof.
  intros Hnd Hh e1 sg2.
  assert (Hnd' : NoDup (Py.keys (Py.remove "id" data)))
    by (apply NoDup_keys_remove; exact Hnd).
  assert (Hh' : Forall (fun kv : string * value => links_hashable (snd kv) = true)
                       (Py.remove "id" data)).
  { apply remove_Forall. apply List.Forall_forall. intros kv Hkv.
    rewrite forallb_forall in Hh. exact (Hh kv Hkv). }
  cbn [_reduce_links]. unfold Py.contains at 2.
  rewrite get_remove_eq, andb_false_r.
  destruct (mapM (fun kv : string * value =>
                    v <- _reduce_links sg2 (snd kv) ;; Ok (fst kv, v))
                 (Py.remove "id" data)) as [res|err] eqn:E.
  - cbn [bind]. rewrite update_nil_distinct
      by (rewrite (mapM_snd_keys _ _ _ E); exact Hnd').
    exists res. split; [reflexivity|].
    exists (Py.update e1 res). split.
    + unfold store_record at 1. cbn [_store with_store].
      rewrite records_insert. apply get_set_eq.
    + intros k v Hk Hv.
      destruct (mapM_snd_field (_reduce_links sg2) (Py.remove "id" data) res k v E)
        as (w & Hw & Hres).
      { rewrite get_remove_ne by congruence. exact Hv. }
      exists w. split.
      * rewrite <- Hw. apply _reduce_links_same_live. intros t' j.
        rewrite store_record_live. subst sg2. rewrite store_record_live.
        destruct (bool_decide (t' = t) && bool_decide (j = i)); reflexivity.
      * apply update_get_Some; [|exact Hres].
        rewrite (mapM_snd_keys _ _ _ E). exact Hnd'.
  - exfalso.
    assert (Hok : is_ok (mapM (fun kv : string * value =>
                    v <- _reduce_links sg2 (snd kv) ;; Ok (fst kv, v))
                 (Py.remove "id" data)) = true).
    { apply mapM_ok. rewrite List.Forall_forall in *. intros kv Hkv.
      apply bind_is_ok; [|reflexivity]. apply _reduce_links_total. auto. }
    rewrite E in Hok. discriminate Hok.
Qed.

Section Links.

Variable generate_for_create : Shotgun -> entity -> Shotgun.
Variable generate_for_update : Shotgun -> entity -> option entity -> entity -> Shotgun.

(** C6.  On a server that generates no events, with data of distinct
    keys whose links have a type and an id that can be hashed, create and
    update raise nothing while they reduce and store the data, and the
    record they leave in the store holds each field of the data but [id]
    as [_reduce_links] makes of it; the live ids are those of before the
    call and, for create, the id of the new record.  A mapping that carries
    a type and an id is looked up in the live records of that type: it is
    reduced to its type and id when the record is there and to [None]
    when it is not, and no exception is raised; a list or a tuple is
    reduced item by item, the items of another mapping value by value, and
    a scalar is left as it is.  On data whose links have a type and an id
    that can be hashed the reduction always returns. *)
Theorem reduce_links_degrades :
  forall (sg : Shotgun) (entity_type : string) (data : entity)
         (return_fields : list string) (created_at updated_at : value),
    _generate_events sg = false ->
    NoDup (Py.keys data) ->
    forallb (fun kv => links_hashable (snd kv)) data = true ->
    (forall n : Z,
       match Py.get "id" data with
       | None => n = last_id sg entity_type + 1
       | Some v =>
           v = VInt n /\ Py.get n (records (_store sg) entity_type) = None
       end ->
       let out := create generate_for_create sg entity_type data
                         return_fields created_at updated_at in
       is_ok (snd (_create_or_update sg entity_type None data created_at
                                     updated_at)) = true /\
       stores_reduced (fst out) entity_type n data /\
       forall (t : string) (j : Z),
         Py.contains j (records (_store (fst out)) t) =
         bool_decide (t = entity_type) && bool_decide (j = n) ||
         Py.contains j (records (_store sg) t)) /\
    (forall entity_id : Z,
       is_Some (Py.get entity_id (records (_store sg) entity_type)) ->
       let out := update generate_for_update sg entity_type entity_id data
                         updated_at in
       is_ok (snd (_create_or_update sg entity_type (Some entity_id) data
                                     VNone updated_at)) = true /\
       stores_reduced (fst out) entity_type entity_id data /\
       forall (t : string) (j : Z),
         Py.contains j (records (_store (fst out)) t) =
         Py.contains j (records (_store sg) t)) /\
    (forall (s : Shotgun) (d : entity) (t : string) (i : Z),
       Py.get "type" d = Some (VStr t) ->
       Py.get "id" d = Some (VInt i) ->
       _reduce_links s (VDict d) =
         Ok (if Py.contains i (records (_store s) t)
             then VDict [("type", VStr t); ("id", VInt i)]
             else VNone)) /\
    (forall s xs, _reduce_links s (VList xs) =
                  (res <- mapM (_reduce_links s) xs ;; Ok (VList res))) /\
    (forall s xs, _reduce_links s (VTuple xs) =
                  (res <- mapM (_reduce_links s) xs ;; Ok (VList res))) /\
    (forall s m, Py.contains "type" m && Py.contains "id" m = false ->
                 _reduce_links s (VDict m) =
                 (res <- mapM (fun kv => v <- _reduce_links s (snd kv) ;;
                                         Ok (fst kv, v)) m ;;
                  Ok (VDict (Py.update [] res)))) /\
    (forall s v, is_scalar v = true -> _reduce_links s v = Ok v) /\
    (forall s v, links_hashable v = true -> is_ok (_reduce_links s v) = true).
Proof.
  intros sg t data rf c u Hev Hnd Hh.
  split; [|split; [|split; [|split; [|split; [|split; [|split]]]]]].
  - intros n Hn out.
    set (e0 := [("type", VStr t); ("id", VInt n); ("created_at", c)]).
    set (sg1 := store_record
                  (with_ids sg (<[t := Z.max n (last_id sg t)]> (_ids sg)))
                  t n e0).
    assert (Hnew : new_entity sg t data c = (sg1, Ok (n, e0))).
    { unfold new_entity. destruct (Py.get "id" data) as [v|].
      - destruct Hn as [-> Hfree]. unfold Py.contains. rewrite Hfree.
        reflexivity.
      - subst n. reflexivity. }
    destruct (_create_or_update_reduces sg1 t n e0 data u Hnd Hh)
      as (reduced & Hred & Hst).
    assert (Hcu : _create_or_update sg t None data c u =
                  (store_record
                     (store_record sg1 t n (Py.set "updated_at" u e0)) t n
                     (Py.update (Py.set "updated_at" u e0) reduced),
                   Ok (n, Py.update (Py.set "updated_at" u e0) reduced))).
    { unfold _create_or_update. rewrite Hnew, Hred. reflexivity. }
    subst out. unfold create. rewrite Hcu. cbn [fst snd is_ok].
    change (_generate_events
              (store_record
                 (store_record sg1 t n (Py.set "updated_at" u e0)) t n
                 (Py.update (Py.set "updated_at" u e0) reduced)))
      with (_generate_events sg).
    rewrite Hev. cbn [fst].
    split; [reflexivity|split; [exact Hst|]].
    intros t' j. rewrite !store_record_live. subst sg1.
    rewrite store_record_live. cbn [_store with_ids].
    destruct (bool_decide (t' = t) && bool_decide (j = n)); reflexivity.
  - intros i [e0 He0] out.
    destruct (_create_or_update_reduces sg t i e0 data u Hnd Hh)
      as (reduced & Hred & Hst).
    assert (Hcu : _create_or_update sg t (Some i) data VNone u =
                  (store_record
                     (store_record sg t i (Py.set "updated_at" u e0)) t i
                     (Py.update (Py.set "updated_at" u e0) reduced),
                   Ok (i, Py.update (Py.set "updated_at" u e0) reduced))).
    { unfold _create_or_update. rewrite He0, Hred. reflexivity. }
    subst out. unfold update. rewrite Hcu. cbn [fst snd is_ok].
    change (_generate_events
              (store_record
                 (store_record sg t i (Py.set "updated_at" u e0)) t i
                 (Py.update (Py.set "updated_at" u e0) reduced)))
      with (_generate_events sg).
    rewrite Hev. cbn [fst].
    split; [reflexivity|split; [exact Hst|]].
    intros t' j. rewrite !store_record_live.
    destruct (decide (t' = t)) as [->|Hne].
    + destruct (decide (j = i)) as [->|Hj].
      * unfold Py.contains. rewrite He0.
        destruct (bool_decide (t = t) && bool_decide (i = i)); reflexivity.
      * rewrite (bool_decide_eq_false_2 (j = i)) by exact Hj.
        rewrite andb_false_r. reflexivity.
    + rewrite (bool_decide_eq_false_2 (t' = t)) by exact Hne. reflexivity.
  - intros s d t' i Ht Hi.
    rewrite (_reduce_links_link s d _ _ Ht Hi). simpl. unfold Py.contains.
    destruct (Py.get i (records (_store s) t')); reflexivity.
  - reflexivity.
  - reflexivity.
  - intros s m Hm. cbn [_reduce_links]. rewrite Hm. reflexivity.
  - intros s. apply _reduce_links_scalar.
  - intros s. apply _reduce_links_total.
Qed.

End Links.

Lemma reduce_links_degrades_witness :
  let quiet := fun (sg : Shotgun) (_ : entity) (_ : option entity)
                   (_ : entity) => sg in
  let shot_9 := VDict [("type", VStr "Shot"); ("id", VInt 9)] in
  let shot_1 := VDict [("type", VStr "Shot"); ("id", VInt 1);
                       ("code", VStr "001")] in
  let data := [("entity", shot_9); ("shots", VList [shot_1; shot_9]);
               ("content", VStr "Animate")] in
  let noon := VDatetime 2020 1 2 12 0 0 1 in
  let out := update quiet one_shot_one_task "Task" 1 data noon in
  (is_ok (snd (_create_or_update one_shot_one_task "Task" (Some 1) data VNone
                                 noon)) = true /\
   stores_reduced (fst out) "Task" 1 data /\
   forall (t : string) (j : Z),
     Py.contains j (records (_store (fst out)) t) =
     Py.contains j (records (_store one_shot_one_task) t)) /\
  (e ← Py.get 1 (records (_store (fst out)) "Task"); Py.get "entity" e) =
    Some VNone /\
  (e ← Py.get 1 (records (_store (fst out)) "Task"); Py.get "shots" e) =
    Some (VList [VDict [("type", VStr "Shot"); ("id", VInt 1)]; VNone]) /\
  (e ← Py.get 1 (records (_store (fst out)) "Task"); Py.get "content" e) =
    Some (VStr "Animate").
Proof.
  intros quiet shot_9 shot_1 data noon.
  split; [|split; [|split]; vm_compute; reflexivity].
  refine (proj1 (proj2 (reduce_links_degrades no_event quiet one_shot_one_task
                          "Task" data [] noon noon _ _ _)) 1 _).
  - reflexivity.
  - apply (bool_decide_unpack (NoDup (Py.keys data))). vm_compute. reflexivity.
  - reflexivity.
  - rewrite one_shot_one_task_records. eexists. reflexivity.
Defined.

(** ** Retired records, and ids given by the caller *)

Lemma page_slice_one {A} (limit : Z) (x : A) : page_slice limit 1 [x] = [x].
Proof.
  unfold page_slice. change (Z.to_nat ((1 - 1) * _)) with 0%nat.
  destruct (Z.to_nat (Z.max 1 (Z.min 500 limit))) as [|n] eqn:E; [lia|].
  destruct n; reflexivity.
Qed.

Lemma page_slice_nil {A} (limit page : Z) : page_slice limit page (@nil A) = [].
Proof. unfold page_slice. rewrite List.skipn_nil. apply List.firstn_nil. Qed.

Lemma get_None_keys_ne {V} (i : Z) (es : list (Z * V)) :
  Py.get i es = None -> Forall (fun ie => fst ie <> i) es.
Proof.
  induction es as [|[j e] es IH]; simpl; [constructor|].
  destruct (decide (j = i)); [discriminate|]. intros H. constructor; auto.
Qed.

Section Retired.

Variable dict_values : list (Z * entity) -> list entity.
Variable generate_for_create : Shotgun -> entity -> Shotgun.
Variable generate_for_delete : Shotgun -> entity -> Shotgun.

(** X23.  A deleted record is found among the retired records only: on
    a server that generates no events, where the live and the deleted
    records of the type carry their ids and the id is not yet among the
    deleted, after [delete] a query by the id with [retired_only] finds
    the record, and without it finds nothing, in whatever order the
    dictionaries list their records. *)
Theorem deleted_records_are_retired :
  forall (sg : Shotgun) (entity_type : string) (entity_id : Z) (e : entity)
         (limit : Z),
    lists_the_records dict_values ->
    _generate_events sg = false ->
    Py.get entity_id (records (_store sg) entity_type) = Some e ->
    Py.get entity_id (records (_deleted sg) entity_type) = None ->
    carry_their_ids (records (_store sg) entity_type) ->
    carry_their_ids (records (_deleted sg) entity_type) ->
    let sg' := fst (delete generate_for_delete sg entity_type entity_id) in
    find registered dict_values sg' entity_type (id_is entity_id) [] limit
         true 1 = Ok [minimal e] /\
    find registered dict_values sg' entity_type (id_is entity_id) [] limit
         false 1 = Ok [].
Proof.
  intros sg t i e limit Hlists Hev Hget Hdead Hlive Hdel sg'.
  assert (Hi : Py.get "id" e = Some (VInt i) /\ is_Some (Py.get "type" e)).
  { exact (get_Forall_key
             (fun ie => Py.get "id" (snd ie) = Some (VInt (fst ie)) /\
                        is_Some (Py.get "type" (snd ie))) i e _ Hlive Hget). }
  destruct Hi as [Hi Hty].
  assert (Htruthy : Py.truthy (VDict e) = true).
  { destruct e; [discriminate|reflexivity]. }
  assert (E : sg' =
    mkShotgun false
      (<[t := Py.remove i (records (_store sg) t)]> (_store sg)) (_ids sg)
      (<[t := records (_deleted sg) t ++ [(i, e)]]> (_deleted sg))).
  { subst sg'. unfold delete. rewrite Hget, Htruthy.
    unfold with_deleted, with_store. simpl. rewrite Hev.
    rewrite (set_absent i e _ Hdead). reflexivity. }
  destruct (id_is_compiles i) as (p & Hp & Hpe).
  assert (Htotal : forall es : list entity,
             Forall (fun e => is_ok (p e) = true) es).
  { intros es. apply List.Forall_forall. intros x _. rewrite Hpe. reflexivity. }
  rewrite E. split.
  - rewrite (find_page_minimal registered dict_values _ t (id_is i) limit true
               1 p Hp (Hlists _));
      cbn [_deleted]; rewrite ?records_insert.
    + rewrite (filter_listed (holds p) _ _ [e] (Hlists _)
                 (filter_id_last p i _ e Hpe Hdel (get_None_keys_ne i _ Hdead)
                    Hi)) by (simpl; lia).
      rewrite page_slice_one. reflexivity.
    + apply Htotal.
    + apply Forall_app. split; [exact Hdel|].
      constructor; [|constructor]. simpl. auto.
  - rewrite (find_page_minimal registered dict_values _ t (id_is i) limit false
               1 p Hp (Hlists _));
      cbn [_store]; rewrite ?records_insert.
    + rewrite (filter_listed (holds p) _ _ [] (Hlists _)
                 (filter_id_others p i _ Hpe (remove_Forall _ i _ Hlive)
                    (remove_keys_ne i _))) by (simpl; lia).
      rewrite page_slice_nil. reflexivity.
    + apply Htotal.
    + apply remove_Forall. exact Hlive.
Qed.

(** X24.  [create] with an id in the data: the id of a live record is
    refused with [ShotgunError] and the server stays as it was, counter
    included; an id that is not live is taken, and on a server that
    generates no events the counter of the type becomes the larger of
    the id and the counter, so it is never moved back. *)
Theorem create_with_an_id :
  forall (sg : Shotgun) (entity_type : string) (entity_id : Z) (data : entity)
         (return_fields : list string) (created_at updated_at : value),
    Py.get "id" data = Some (VInt entity_id) ->
    let out := create generate_for_create sg entity_type data return_fields
                      created_at updated_at in
    (is_Some (Py.get entity_id (records (_store sg) entity_type)) ->
     out = (sg, Raise (ShotgunError duplicate_id_msg
                         [VStr entity_type; VInt entity_id]))) /\
    (Py.get entity_id (records (_store sg) entity_type) = None ->
     _generate_events sg = false ->
     (exists e, Py.get entity_id (records (_store (fst out)) entity_type)
                = Some e /\
                Py.get "id" e = Some (VInt entity_id)) /\
     last_id (fst out) entity_type = Z.max entity_id (last_id sg entity_type)).
Proof.
  intros sg t i data rf c u Hid out. split.
  - intros [e He]. subst out. unfold create, _create_or_update, new_entity.
    rewrite Hid. unfold Py.contains. rewrite He. reflexivity.
  - intros Hlive Hev. subst out. rewrite create_fst by exact Hev.
    destruct (_create_or_update_shape sg t None data c u)
      as [(_ & _ & Hbad)|(j & e0 & e & ids & -> & Hide & _ & Hhand)].
    + rewrite Hid, Hlive in Hbad. destruct Hbad as [? [=]].
    + cbn [record_in_hand] in Hhand.
      destruct Hhand as (-> & -> & [[Hnone _]|[Hsome _]]); [congruence|].
      assert (j = i) as -> by congruence.
      split.
      * exists e. split; [|rewrite Hide; reflexivity].
        unfold store_record. cbn [_store with_store with_ids].
        rewrite records_insert. apply get_set_eq.
      * change (last_id (store_record ?s _ _ _) t) with (last_id s t).
        rewrite last_id_with_ids. destruct (decide (t = t)); [lia|congruence].
Qed.

End Retired.

Lemma deleted_records_are_retired_witness :
  let sg' := fst (delete no_event five_shots "Shot" 3) in
  find registered Py.values_by_slot sg' "Shot" (id_is 3) [] 500 true 1 =
    Ok [minimal shot_c] /\
  find registered Py.values_by_slot sg' "Shot" (id_is 3) [] 500 false 1 = Ok [].
Proof.
  apply (deleted_records_are_retired Py.values_by_slot no_event five_shots
           "Shot" 3 shot_c 500).
  - exact values_by_slot_lists.
  - reflexivity.
  - vm_compute. reflexivity.
  - vm_compute. reflexivity.
  - vm_compute. repeat constructor; eexists; reflexivity.
  - vm_compute. constructor.
Defined.

Lemma create_with_an_id_witness :
  let noon := VDatetime 2020 1 2 12 0 0 1 in
  create no_event one_shot_one_task "Shot" [("id", VInt 1)] [] noon noon =
    (one_shot_one_task,
     Raise (ShotgunError duplicate_id_msg [VStr "Shot"; VInt 1])) /\
  let out := create no_event one_shot_one_task "Shot" [("id", VInt 7)] []
                    noon noon in
  (exists e, Py.get 7 (records (_store (fst out)) "Shot") = Some e /\
             Py.get "id" e = Some (VInt 7)) /\
  last_id (fst out) "Shot" = Z.max 7 (last_id one_shot_one_task "Shot").
Proof.
  intros noon. split.
  - refine (proj1 (create_with_an_id no_event one_shot_one_task "Shot" 1
                     [("id", VInt 1)] [] noon noon eq_refl) _).
    rewrite one_shot_one_task_records. eexists. reflexivity.
  - refine (proj2 (create_with_an_id no_event one_shot_one_task "Shot" 7
                     [("id", VInt 7)] [] noon noon eq_refl) _ _).
    + rewrite one_shot_one_task_records. reflexivity.
    + reflexivity.
Defined.

(** ** Finding or creating *)

Lemma is_condition_compiles (k : string) (v : value) :
  is_scalar v = true ->
  exists p : predicate,
    _compile_condition registered (VTuple [VStr k; VStr "is"; v]) = Ok p /\
    forall e : entity, p e = Ok (is_answer v (default VNone (Py.get k e))).
Proof.
  intros Hs.
  assert (E : _compile_condition registered (VTuple [VStr k; VStr "is"; v]) =
              IsFilter (VStr k) [v]).
  { destruct v; try discriminate Hs; reflexivity. }
  rewrite E. eexists. split; [reflexivity|]. intros e.
  cbn [bind Py.get_or]. unfold is_answer.
  destruct v; try discriminate Hs;
    (destruct (Py.get k e) as [x|]; [destruct x|]; reflexivity).
Qed.

Lemma is_filters_compile (data : entity) :
  Forall (fun kv => is_scalar (snd kv) = true) data ->
  exists p : predicate,
    _compile_filters registered (fixture.is_filters data) = Ok p /\
    forall e : entity,
      p e = Ok (forallb (fun kv => is_answer (snd kv)
                                     (default VNone (Py.get (fst kv) e))) data).
Proof.
  intros Hs. rewrite _compile_filters_eq. unfold fixture.is_filters.
  cbn [operator_and_conditions bind fst snd Py.iter].
  change (operator_class (VStr "and")) with (Ok And). cbn [bind].
  assert (H : exists ps : list predicate,
            mapM (_compile_condition registered)
                 (map (fun kv : string * value =>
                         VTuple [VStr (fst kv); VStr "is"; snd kv]) data) = Ok ps /\
            forall e : entity,
              And ps e = Ok (forallb (fun kv => is_answer (snd kv)
                                       (default VNone (Py.get (fst kv) e))) data)).
  { induction Hs as [|[k v] data Hv _ (ps & Hps & Hand)].
    - exists []. split; reflexivity.
    - destruct (is_condition_compiles k v Hv) as (p & Hp & Hpe).
      exists (p :: ps). split.
      + cbn [map mapM fst snd]. rewrite Hp, Hps. reflexivity.
      + intros e. cbn [And forallb fst snd]. rewrite Hpe. cbn [bind].
        destruct (is_answer v (default VNone (Py.get k e))); [apply Hand|reflexivity]. }
  destruct H as (ps & -> & Hand). cbn [bind]. eexists. split; [reflexivity|].
  exact Hand.
Qed.

Lemma is_answer_refl (v : value) : is_scalar v = true -> is_answer v v = true.
Proof.
  destruct v; try discriminate; intros _; unfold is_answer; simpl;
    rewrite ?Z.eqb_refl, ?String.eqb_refl; try reflexivity.
  destruct b; reflexivity.
Qed.

Lemma set_not_nil {V} (k : string) (v : V) (d : list (string * V)) :
  Py.set k v d <> [].
Proof. destruct d as [|[k' v'] d]; simpl; [|destruct (decide (k' = k))]; discriminate. Qed.

(** A minimal copy that is a mapping is never empty. *)
Lemma minimal_copy_not_empty (depth : nat) (sg : Shotgun) (e : value)
    (fields : list string) (r : entity) :
  minimal_copy_upto depth sg e fields = Ok (VDict r) -> r <> [].
Proof.
  destruct depth as [|n]; [discriminate|]. cbn [minimal_copy_upto].
  destruct (negb (Py.truthy e)); [discriminate|].
  destruct (minimize e) as [acc|] eqn:Hmin; cbn [bind]; [|discriminate].
  assert (Hacc : acc <> []).
  { destruct e; try discriminate Hmin. simpl in Hmin.
    destruct (Py.get "type" items); simpl in Hmin; [|discriminate].
    destruct (Py.get "id" items); simpl in Hmin; [|discriminate].
    injection Hmin as <-. discriminate. }
  clear Hmin. revert acc Hacc.
  induction fields as [|f fields IH]; intros acc Hacc.
  - intros [= <-]. exact Hacc.
  - destruct (_lookup_field sg e f) as [v|err].
    + destruct (is_entity v).
      * destruct (match v with VDict l => _resolve_link sg l | _ => Raise TypeError end)
          as [link|]; cbn [bind]; [|discriminate].
        destruct (minimal_copy_upto n sg link ["name"]); cbn [bind];
          [|discriminate].
        apply IH, set_not_nil.
      * destruct v; try (apply IH, set_not_nil).
        destruct (mapM _ _); cbn [bind]; [|discriminate].
        apply IH, set_not_nil.
    + destruct err; try discriminate. apply IH, Hacc.
Qed.

Lemma filter_values_set {V} (f : V -> bool) (n : Z) (e : V)
    (old : list (Z * V)) :
  List.filter f (Py.values old) = [] -> f e = true ->
  List.filter f (Py.values (Py.set n e old)) = [e].
Proof.
  intros Hold He. induction old as [|[j x] old IH]; simpl in *.
  - rewrite He. reflexivity.
  - destruct (f x) eqn:Hx; [discriminate|].
    destruct (decide (j = n)); simpl.
    + rewrite He. f_equal. exact Hold.
    + rewrite Hx. apply IH. exact Hold.
Qed.

Section FindOrCreate.

Variable dict_values : list (Z * entity) -> list entity.
Variable generate_for_create : Shotgun -> entity -> Shotgun.

(** X25.  [find_or_create] does not create twice: on a server that
    generates no events, with one mapping of distinct keys that hold
    scalars and no id, when the call returns, a second call with the same
    data returns a record and leaves the fixture and the server as the
    first left them, in whatever order the dictionary lists its
    records. *)
Theorem find_or_create_creates_once :
  forall (fx fx1 : fixture.Fixture) (entity_type : string) (data : entity)
         (utcnow utcnow' : nat -> value) (x : value),
    lists_the_records dict_values ->
    _generate_events (fixture.shotgun fx) = false ->
    Py.get "id" data = None ->
    NoDup (Py.keys data) ->
    Forall (fun kv => is_scalar (snd kv) = true) data ->
    fixture.find_or_create registered dict_values generate_for_create fx
      entity_type (VDict data) [] utcnow = (fx1, Ok x) ->
    exists x' : value,
      fixture.find_or_create registered dict_values generate_for_create fx1
        entity_type (VDict data) [] utcnow' = (fx1, Ok x') /\
      Py.truthy x' = true.
Proof.
  intros fx fx1 t data u u' x Hlists Hev Hid Hnd Hs.
  assert (Hone : forall (f : fixture.Fixture) (w : nat -> value),
            fixture.find_or_create registered dict_values generate_for_create
              f t (VDict data) [] w =
            let '(f1, r, _) :=
              fixture.find_or_create_one registered dict_values
                generate_for_create f t data w 0 in (f1, r)).
  { intros f w. unfold fixture.find_or_create.
    cbn [Py.truthy andb]. rewrite andb_false_r. reflexivity. }
  rewrite !Hone. unfold fixture.find_or_create_one.
  destruct (is_filters_compile data Hs) as (p & Hp & Hpe).
  assert (Htotal : forall es : list entity,
             Forall (fun e => is_ok (p e) = true) es).
  { intros es. apply List.Forall_forall. intros e _. rewrite Hpe. reflexivity. }
  assert (Hfind : forall sg : Shotgun,
            find_one registered dict_values sg t (fixture.is_filters data)
                     (Py.keys data) false =
            match List.filter (holds p) (dict_values (records (_store sg) t))
            with
            | [] => Ok VNone
            | m :: _ =>
                found <- _minimal_copy sg (VDict m) (Py.keys data) ;;
                if is_dict found then Ok found else Raise TypeError
            end).
  { intros sg. unfold find_one.
    rewrite (find_page registered dict_values sg t _ (Py.keys data) 1 false 1
               p Hp (Htotal _)).
    cbn [_store]. unfold page_slice.
    change (Z.to_nat ((1 - 1) * Z.max 1 (Z.min 500 1))) with 0%nat.
    change (Z.to_nat (Z.max 1 (Z.min 500 1))) with 1%nat.
    destruct (List.filter (holds p) _) as [|m ms]; [reflexivity|].
    cbn [skipn firstn mapM bind].
    destruct (_minimal_copy sg (VDict m) (Py.keys data)) as [found|];
      cbn [bind]; [|reflexivity].
    rewrite firstn_O. cbn [bind mapM forallb]. rewrite andb_true_r.
    destruct (is_dict found); reflexivity. }
  rewrite (Hfind (fixture.shotgun fx)).
  destruct (List.filter (holds p)
              (dict_values (records (_store (fixture.shotgun fx)) t)))
    as [|m ms] eqn:Hold.
  - (* nothing is found: the record is created *)
    cbn [Py.truthy]. rewrite (remove_absent "id" data Hid).
    unfold fixture.create.
    destruct (create_scalar_data generate_for_create (fixture.shotgun fx) t
                data (Py.keys data) (u 0%nat) (u 1%nat) Hev Hid Hnd Hs
                (incl_refl _))
      as (Hfst & Hdata & Hide & Hty & returned & Hsnd & Hret).
    rewrite Hsnd.
    assert (Hrt : is_Some (Py.get "type" returned)).
    { rewrite Hret. rewrite bool_decide_eq_true_2 by left. exact Hty. }
    assert (Hri : Py.get "id" returned =
                  Some (VInt (last_id (fixture.shotgun fx) t + 1))).
    { rewrite Hret. rewrite bool_decide_eq_true_2 by (right; left). exact Hide. }
    destruct Hrt as [ty Hrt]. rewrite Hrt, Hri.
    intros [= <- <-]. cbn [fixture.shotgun].
    rewrite Hfind, Hfst.
    unfold store_record at 1. cbn [_store with_store with_ids].
    rewrite records_insert.
    set (e := Py.update _ data) in *.
    assert (Hholds : holds p e = true).
    { unfold holds. rewrite Hpe.
      assert (Hall : forallb (fun kv : string * value =>
                                is_answer (snd kv)
                                  (default VNone (Py.get (fst kv) e))) data
                     = true).
      { apply forallb_forall. intros [k v] Hin. cbn [fst snd].
        rewrite (Hdata k v (in_get k v data Hnd Hin)). cbn [default].
        apply is_answer_refl.
        exact (proj1 (List.Forall_forall _ _) Hs (k, v) Hin). }
      rewrite Hall. reflexivity. }
    assert (Hnone : List.filter (holds p)
                      (Py.values (records (_store (fixture.shotgun fx)) t))
                    = []).
    { apply (filter_listed (holds p) _ _ [] (Permutation_sym (Hlists _)) Hold).
      simpl. lia. }
    rewrite (filter_listed (holds p) _ _ [e] (Hlists _)
               (filter_values_set (holds p) _ e _ Hnone Hholds))
      by (simpl; lia).
    set (sg1 := store_record _ t _ e).
    destruct (minimal_copy_scalar_result 999 sg1 e (Py.keys data) Hty
                (ex_intro _ _ Hide)) as (r & Hr & Hget).
    { apply List.Forall_forall. intros k Hk.
      destruct (get_keys k data Hk) as [v Hv]. exists v.
      split; [exact (Hdata k v Hv)|].
      exact (get_Forall (fun kv => is_scalar (snd kv) = true) k v data Hs Hv). }
    unfold _minimal_copy. change recursion_limit with (S 999). rewrite Hr.
    cbn [bind is_dict].
    assert (Hne : Py.truthy (VDict r) = true).
    { pose proof (minimal_copy_not_empty _ _ _ _ _ Hr) as H.
      destruct r; [congruence|reflexivity]. }
    rewrite Hne. exists (VDict r). split; [reflexivity|exact Hne].
  - (* a record is found: nothing is created, now or then *)
    destruct (_minimal_copy (fixture.shotgun fx) (VDict m) (Py.keys data))
      as [found|] eqn:Hm; cbn [bind]; [|discriminate].
    destruct (is_dict found) eqn:Hd; [|discriminate].
    assert (Hne : Py.truthy found = true).
    { destruct found; try discriminate Hd.
      pose proof (minimal_copy_not_empty _ _ _ _ _ Hm) as H.
      destruct items; [congruence|reflexivity]. }
    rewrite Hne. intros [= <- <-].
    rewrite Hfind, Hold, Hm. cbn [bind]. rewrite Hd, Hne.
    exists found. split; [reflexivity|exact Hne].
Qed.

End FindOrCreate.

Lemma find_or_create_creates_once_witness :
  let data := [("code", VStr "002")] in
  let fx := fixture.mkFixture one_shot_one_task [] in
  let first := fixture.find_or_create registered Py.values_by_slot no_event fx
                 "Shot" (VDict data) [] (fun _ => VNone) in
  exists x' : value,
    fixture.find_or_create registered Py.values_by_slot no_event (fst first)
      "Shot" (VDict data) [] (fun _ => VNone) = (fst first, Ok x') /\
    Py.truthy x' = true.
Proof.
  intros data fx first.
  apply (find_or_create_creates_once Py.values_by_slot no_event fx (fst first)
           "Shot" data
           (fun _ => VNone) (fun _ => VNone)
           (VDict [("type", VStr "Shot"); ("id", VInt 2);
                   ("code", VStr "002")])).
  - exact values_by_slot_lists.
  - reflexivity.
  - reflexivity.
  - apply (bool_decide_unpack (NoDup (Py.keys data))). vm_compute. reflexivity.
  - repeat constructor.
  - vm_compute. reflexivity.
Defined.
